(** * Alert relay (app.py): message building, number resolution, dispatch

    A shallow embedding of [app.py].  Python values that reach the code are
    decoded JSON documents, so one type [json] stands for them; Python's
    [None] is [JNull].  A character is a code point below 256.  Exceptions
    are values of [exn] carried by the [result] monad; the file system and
    the network are explicit state.  What the Python runtime computes and
    the source does not define (text of non-string values, format specs,
    the JSON codec, the HTTP exchange) is an interface the development is
    parametric in. *)

From Stdlib Require Import ZArith NArith Ascii.
From stdpp Require Import base option list gmap strings fin_maps sets.

Local Open Scope Z_scope.

(** ** Values and exceptions *)

#[local] Set Warnings "-register-all,-clear-no-such-hyp".

Inductive json :=
| JNull
| JBool (b : bool)
| JNum (n : Z)
| JStr (s : string)
| JArr (xs : list json)
| JObj (kvs : list (string * json)).

Inductive exn :=
| ValueError (msg : string)
| KeyError (key : string)
| IndexError
| TypeError
| AttributeError
| RequestException (detail : string).

Inductive result (A : Type) :=
| Ok (a : A)
| Raise (e : exn).
Arguments Ok {A} a.
Arguments Raise {A} e.

#[global] Instance result_ret : MRet result := fun A a => Ok a.
#[global] Instance result_bind : MBind result := fun A B f m =>
  match m with
  | Ok a => f a
  | Raise e => Raise e
  end.

Definition raises {A} (r : result A) : Prop := exists e, r = Raise e.

(** The loop [for x in xs: ys.append(f(x))]: the first exception ends it. *)
Fixpoint for_each {A B} (f : A -> result B) (xs : list A) : result (list B) :=
  match xs with
  | [] => Ok []
  | x :: xs' => y ← f x; ys ← for_each f xs'; Ok (y :: ys)
  end.

(** ** Python strings *)

Definition nl : string := String (ascii_of_nat 10) "".

Definition str_truthy (s : string) : bool :=
  match s with
  | "" => false
  | _ => true
  end.

Fixpoint startswith (s p : string) : bool :=
  match p, s with
  | "", _ => true
  | String a p', String b s' => if decide (a = b) then startswith s' p' else false
  | String _ _, "" => false
  end.

Definition endswith (s p : string) : bool :=
  startswith (String.rev s) (String.rev p).

(** [needle in hay] on two strings. *)
Fixpoint str_contains (needle hay : string) : bool :=
  startswith hay needle ||
  match hay with
  | "" => false
  | String _ hay' => str_contains needle hay'
  end.

Definition chars (s : string) : list ascii := String.list_ascii_of_string s.

(** ** Containers *)

Fixpoint dict_get (kvs : list (string * json)) (k : string) : option json :=
  match kvs with
  | [] => None
  | (k', v) :: kvs' => if decide (k' = k) then Some v else dict_get kvs' k
  end.

Definition is_str (k : string) (v : json) : bool :=
  match v with
  | JStr s => bool_decide (s = k)
  | _ => false
  end.

(** [k in v] for a string [k]. *)
Definition py_in (k : string) (v : json) : result bool :=
  match v with
  | JObj kvs => Ok (bool_decide (is_Some (dict_get kvs k)))
  | JArr xs => Ok (existsb (is_str k) xs)
  | JStr s => Ok (str_contains k s)
  | _ => Raise TypeError
  end.

(** [v[k]] for a string [k]. *)
Definition py_getitem (v : json) (k : string) : result json :=
  match v with
  | JObj kvs =>
      match dict_get kvs k with
      | Some x => Ok x
      | None => Raise (KeyError k)
      end
  | _ => Raise TypeError
  end.

(** [v.get(k, d)]: only a dict has the method. *)
Definition py_get (v : json) (k : string) (d : json) : result json :=
  match v with
  | JObj kvs => Ok (default d (dict_get kvs k))
  | _ => Raise AttributeError
  end.

(** [for a in v]. *)
Definition py_iter (v : json) : result (list json) :=
  match v with
  | JArr xs => Ok xs
  | JObj kvs => Ok (map (fun kv => JStr (fst kv)) kvs)
  | JStr s => Ok (map (fun c => JStr (String c "")) (chars s))
  | _ => Raise TypeError
  end.

(** [not v] is [negb (py_truthy v)]. *)
Definition py_truthy (v : json) : bool :=
  match v with
  | JNull => false
  | JBool b => b
  | JNum n => negb (n =? 0)
  | JStr s => str_truthy s
  | JArr xs => negb (bool_decide (xs = []))
  | JObj kvs => negb (bool_decide (kvs = []))
  end.

(** ** The runtime the source relies on *)

Class PyRuntime := {
  (** [str(v)] for a value that is not a string *)
  py_str : json -> string;
  (** [format(v, spec)] for a non-empty [spec] *)
  py_format : json -> string -> result string;
  (** a replacement field with an attribute or index chain or a conversion:
      the chain and the conversion are applied first, the expanded format
      spec is rendered after *)
  py_field : json -> string -> option ascii -> result (string -> result string);
  json_loads : string -> option json;
  json_dumps : json -> string
}.

(** ** [str.format]

    The template is read left to right as CPython's markup iterator does:
    literal text, the escapes of a doubled brace, and replacement fields
    [{name!conversion:spec}].  [scan] yields the items read before the
    first syntax error, and that error if there is one; the items are
    rendered in order, so an exception of an earlier field comes first. *)

Record field := {
  f_name : string;
  f_conv : option ascii;
  f_spec : string
}.

Inductive item :=
| Lit (s : string)
| Field (f : field).

Inductive scan_state :=
| InText (lit : string)
| AfterOpen (lit : string)
| AfterClose (lit : string)
| InName (name : string)
| InIndex (name : string)
| AtConv (name : string)
| AfterConv (name : string) (conv : ascii)
| InSpec (name : string) (conv : option ascii) (spec : string) (count : nat).

Definition snoc (s : string) (c : ascii) : string := s +:+ String c "".

(** One character of a field name (the first loop of [parse_field]). *)
Definition name_step (name : string) (c : ascii) : list item * result scan_state :=
  if decide (c = "{"%char) then
    ([], Raise (ValueError "unexpected '{' in field name"))
  else if decide (c = "["%char) then ([], Ok (InIndex (snoc name c)))
  else if decide (c = "}"%char) then
    ([Field {| f_name := name; f_conv := None; f_spec := "" |}], Ok (InText ""))
  else if decide (c = ":"%char) then ([], Ok (InSpec name None "" 1))
  else if decide (c = "!"%char) then ([], Ok (AtConv name))
  else ([], Ok (InName (snoc name c))).

Definition step (st : scan_state) (c : ascii) : list item * result scan_state :=
  match st with
  | InText lit =>
      if decide (c = "{"%char) then ([], Ok (AfterOpen lit))
      else if decide (c = "}"%char) then ([], Ok (AfterClose lit))
      else ([], Ok (InText (snoc lit c)))
  | AfterOpen lit =>
      if decide (c = "{"%char) then ([Lit (snoc lit c)], Ok (InText ""))
      else let '(out, next) := name_step "" c in (Lit lit :: out, next)
  | AfterClose lit =>
      if decide (c = "}"%char) then ([Lit (snoc lit c)], Ok (InText ""))
      else ([], Raise (ValueError "Single '}' encountered in format string"))
  | InName name => name_step name c
  | InIndex name =>
      if decide (c = "]"%char) then ([], Ok (InName (snoc name c)))
      else ([], Ok (InIndex (snoc name c)))
  | AtConv name => ([], Ok (AfterConv name c))
  | AfterConv name conv =>
      if decide (c = "}"%char) then
        ([Field {| f_name := name; f_conv := Some conv; f_spec := "" |}],
         Ok (InText ""))
      else if decide (c = ":"%char) then ([], Ok (InSpec name (Some conv) "" 1))
      else ([], Raise (ValueError "expected ':' after conversion specifier"))
  | InSpec name conv spec count =>
      if decide (c = "{"%char) then ([], Ok (InSpec name conv (snoc spec c) (S count)))
      else if decide (c = "}"%char) then
        match count with
        | 0%nat | 1%nat =>
            ([Field {| f_name := name; f_conv := conv; f_spec := spec |}],
             Ok (InText ""))
        | S n => ([], Ok (InSpec name conv (snoc spec c) n))
        end
      else ([], Ok (InSpec name conv (snoc spec c) count))
  end.

Definition finish (st : scan_state) : list item * option exn :=
  match st with
  | InText lit => ([Lit lit], None)
  | AfterOpen _ => ([], Some (ValueError "Single '{' encountered in format string"))
  | AfterClose _ => ([], Some (ValueError "Single '}' encountered in format string"))
  | InName _ | InIndex _ => ([], Some (ValueError "expected '}' before end of string"))
  | AtConv _ =>
      ([], Some (ValueError "end of string while looking for conversion specifier"))
  | AfterConv _ _ | InSpec _ _ _ _ =>
      ([], Some (ValueError "unmatched '{' in format spec"))
  end.

Fixpoint scan (st : scan_state) (s : string) : list item * option exn :=
  match s with
  | "" => finish st
  | String c s' =>
      match step st c with
      | (out, Ok st') => let '(out', err) := scan st' s' in (out ++ out', err)
      | (out, Raise e) => (out, Some e)
      end
  end.

Definition parse_template (t : string) : list item * option exn :=
  scan (InText "") t.

(** The argument name of a field: the part before the first dot or
    opening bracket. *)
Fixpoint field_name_split (name : string) : string * string :=
  match name with
  | "" => ("", "")
  | String c name' =>
      if decide (c = "."%char) then ("", name)
      else if decide (c = "["%char) then ("", name)
      else let '(first, rest) := field_name_split name' in (String c first, rest)
  end.

Definition arg_name (f : field) : string := fst (field_name_split (f_name f)).

Definition digit (c : ascii) : option N :=
  let n := N_of_ascii c in
  if ((48 <=? n) && (n <=? 57))%N then Some (n - 48)%N else None.

Fixpoint get_integer_from (acc : N) (s : string) : option N :=
  match s with
  | "" => Some acc
  | String c s' => d ← digit c; get_integer_from (10 * acc + d)%N s'
  end.

Definition get_integer (s : string) : option N :=
  if str_truthy s then get_integer_from 0%N s else None.

Definition PY_SSIZE_T_MAX : N := (2 ^ 63 - 1)%N.

(** The object a field starts from.  [format] is called with keyword
    arguments only, so an empty or numeric name indexes an empty tuple. *)
Definition get_arg (kwargs : list (string * json)) (first : string) : result json :=
  match get_integer first with
  | Some n =>
      if (PY_SSIZE_T_MAX <? n)%N
      then Raise (ValueError "Too many decimal digits in format string")
      else Raise IndexError
  | None =>
      if str_truthy first then
        match dict_get kwargs first with
        | Some v => Ok v
        | None => Raise (KeyError first)
        end
      else Raise IndexError
  end.

Section Format.
Context `{PyRuntime}.

Definition format_value (v : json) (spec : string) : result string :=
  if str_truthy spec then py_format v spec
  else match v with
       | JStr s => Ok s
       | _ => Ok (py_str v)
       end.

Definition render_field (expand : string -> result string)
    (kwargs : list (string * json)) (f : field) : result string :=
  let '(first, rest) := field_name_split (f_name f) in
  obj ← get_arg kwargs first;
  if str_truthy rest || bool_decide (is_Some (f_conv f)) then
    render ← py_field obj rest (f_conv f);
    spec ← expand (f_spec f);
    render spec
  else
    spec ← expand (f_spec f);
    format_value obj spec.

Definition render_item (expand : string -> result string)
    (kwargs : list (string * json)) (i : item) : result string :=
  match i with
  | Lit s => Ok s
  | Field f => render_field expand kwargs f
  end.

Fixpoint render_items (expand : string -> result string)
    (kwargs : list (string * json)) (items : list item) : result string :=
  match items with
  | [] => Ok ""
  | i :: items' =>
      s ← render_item expand kwargs i;
      rest ← render_items expand kwargs items';
      Ok (s +:+ rest)
  end.

(** [build_string]: a format spec that holds a brace is itself formatted,
    one level deep. *)
Fixpoint build_string (depth : nat) (kwargs : list (string * json))
    (t : string) : result string :=
  match depth with
  | O => Raise (ValueError "Max string recursion exceeded")
  | S d =>
      let expand spec :=
        if str_contains "{" spec then build_string d kwargs spec else Ok spec in
      let '(items, err) := parse_template t in
      out ← render_items expand kwargs items;
      match err with
      | Some e => Raise e
      | None => Ok out
      end
  end.

(** [t.format(...)] with keyword arguments [kwargs] *)
Definition str_format (t : string) (kwargs : list (string * json)) : result string :=
  build_string 2 kwargs t.

(** ** build_message *)

Definition DEFAULT_TEMPLATE : string := "{status} {summary}".

Definition alert_line (template : string) (a : json) : result string :=
  status ← py_get a "status" (JStr "firing");
  annotations ← py_get a "annotations" (JObj []);
  summary ← py_get annotations "summary" (JStr "No summary");
  description ← py_get annotations "description" (JStr "");
  labels ← py_get a "labels" (JObj []);
  alertname ← py_get labels "alertname" (JStr "");
  str_format template
    [("status", status); ("summary", summary);
     ("description", description); ("alertname", alertname)].

Definition state_line (template : string) (data : json) : result string :=
  status ← py_get data "state" (JStr "firing");
  summary ← py_get data "message" (JStr "No message");
  alertname ← py_get data "ruleName" (JStr "");
  str_format template
    [("status", status); ("summary", summary); ("alertname", alertname)].

(** [custom_template if custom_template else DEFAULT_TEMPLATE] *)
Definition effective_template (custom_template : option string) : string :=
  match custom_template with
  | Some t => if str_truthy t then t else DEFAULT_TEMPLATE
  | None => DEFAULT_TEMPLATE
  end.

Definition build_message (data : json) (custom_template : option string)
    : result string :=
  let template := effective_template custom_template in
  has_alerts ← py_in "alerts" data;
  messages ←
    (if has_alerts : bool then
       alerts ← py_getitem data "alerts";
       entries ← py_iter alerts;
       for_each (alert_line template) entries
     else
       has_title ← py_in "title" data;
       has_state ← (if has_title : bool then py_in "state" data else Ok false);
       if has_state : bool then
         msg ← state_line template data; Ok [msg]
       else Ok []);
  Ok (String.concat nl messages).

End Format.

Arguments str_format : simpl never.
Arguments alert_line : simpl never.
Arguments state_line : simpl never.

(** ** The routing store: numbers.txt *)

Definition TEAMS : list string := ["all"; "devops"; "cloud"; "web"; "noc"; "managers"].

Record entry := {
  number : string;
  desc : string
}.

Record files := {
  numbers_file : option string;
  template_file : option string
}.

(** [str.splitlines] and [str.strip] on code points below 256. *)
Definition is_linebreak (c : ascii) : bool :=
  bool_decide (N_of_ascii c ∈ [10; 11; 12; 13; 28; 29; 30; 133]%N).

Definition is_space (c : ascii) : bool :=
  bool_decide (N_of_ascii c ∈ [9; 10; 11; 12; 13; 28; 29; 30; 31; 32; 133; 160]%N).

Definition CR : ascii := ascii_of_nat 13.
Definition LF : ascii := ascii_of_nat 10.

Fixpoint splitlines_from (cur s : string) : list string :=
  match s with
  | "" => if str_truthy cur then [cur] else []
  | String c s' =>
      if is_linebreak c then
        cur :: match s' with
               | String c' s'' =>
                   if bool_decide (c = CR) && bool_decide (c' = LF)
                   then splitlines_from "" s''
                   else splitlines_from "" s'
               | "" => []
               end
      else splitlines_from (snoc cur c) s'
  end.

Definition splitlines (s : string) : list string := splitlines_from "" s.

Fixpoint lstrip (s : string) : string :=
  match s with
  | "" => ""
  | String c s' => if is_space c then lstrip s' else s
  end.

Definition rstrip (s : string) : string := String.rev (lstrip (String.rev s)).

Definition strip (s : string) : string := rstrip (lstrip s).

Definition str_tail (s : string) : string :=
  match s with
  | "" => ""
  | String _ s' => s'
  end.

(** [s[1:-1]] *)
Definition slice_1_m1 (s : string) : string :=
  String.rev (str_tail (String.rev (str_tail s))).

(** [s.split(sep, 1)]: the text before the first [sep], and the text after
    it when there is one. *)
Fixpoint split_once (sep : ascii) (s : string) : string * option string :=
  match s with
  | "" => ("", None)
  | String c s' =>
      if decide (c = sep) then ("", Some s')
      else let '(before, after) := split_once sep s' in (String c before, after)
  end.

(** [teams[k]] *)
Definition teams_getitem (teams : gmap string (list entry)) (k : string)
    : result (list entry) :=
  match teams !! k with
  | Some entries => Ok entries
  | None => Raise (KeyError k)
  end.

(** [teams[k].append(e)] *)
Definition teams_append (teams : gmap string (list entry)) (k : string) (e : entry)
    : result (gmap string (list entry)) :=
  entries ← teams_getitem teams k;
  Ok (<[k := entries ++ [e]]> teams).

Definition initial_teams : gmap string (list entry) :=
  list_to_map ((fun t => (t, [])) <$> TEAMS).

Record load_state := {
  ld_teams : gmap string (list entry);
  ld_providers : list json;
  current_team : option string
}.

Definition section_line (line : string) : bool :=
  startswith line "[" && endswith line "]".

Definition parse_entry (line : string) : entry :=
  let '(before, after) := split_once "|" line in
  {| number := strip before;
     desc := match after with
             | Some d => strip d
             | None => ""
             end |}.

Section Store.
Context `{PyRuntime}.

Definition parse_provider (line : string) : json :=
  if startswith line "{" then
    match json_loads line with
    | Some p => p
    | None => JStr line
    end
  else JStr line.

(** One iteration of the loop over [content.splitlines()]. *)
Definition load_line (st : load_state) (raw : string) : result load_state :=
  let line := strip raw in
  if negb (str_truthy line) then Ok st
  else if section_line line then
    let section := strip (slice_1_m1 line) in
    if bool_decide (section ∈ TEAMS) then
      Ok {| ld_teams := ld_teams st; ld_providers := ld_providers st;
            current_team := Some section |}
    else if bool_decide (section = "sms_provider") then
      Ok {| ld_teams := ld_teams st; ld_providers := ld_providers st;
            current_team := Some "sms_provider" |}
    else Ok st
  else if bool_decide (current_team st = Some "sms_provider") then
    Ok {| ld_teams := ld_teams st;
          ld_providers := ld_providers st ++ [parse_provider line];
          current_team := current_team st |}
  else
    match current_team st with
    | Some team =>
        if bool_decide (team ∈ TEAMS) then
          teams ← teams_append (ld_teams st) team (parse_entry line);
          Ok {| ld_teams := teams; ld_providers := ld_providers st;
                current_team := current_team st |}
        else Ok st
    | None => Ok st
    end.

Fixpoint load_lines (st : load_state) (lines : list string) : result load_state :=
  match lines with
  | [] => Ok st
  | raw :: lines' => st' ← load_line st raw; load_lines st' lines'
  end.

Definition parse_numbers (content : string)
    : result (gmap string (list entry) * list json) :=
  st ← load_lines {| ld_teams := initial_teams; ld_providers := [];
                     current_team := None |} (splitlines content);
  Ok (ld_teams st, ld_providers st).

(** What [load_numbers] writes when the file is missing. *)
Definition fresh_numbers_file : string :=
  String.concat "" ((fun t => "[" +:+ t +:+ "]" +:+ nl +:+ nl) <$> TEAMS)
  +:+ "[sms_provider]" +:+ nl +:+ nl.

Definition load_numbers (fs : files)
    : result (gmap string (list entry) * list json) * files :=
  let content := default fresh_numbers_file (numbers_file fs) in
  (parse_numbers content,
   {| numbers_file := Some content; template_file := template_file fs |}).

Definition entry_text (e : entry) : string :=
  if str_truthy (desc e) then number e +:+ " | " +:+ desc e +:+ nl
  else number e +:+ nl.

(** The first loop of [save_numbers]: the text written so far, and the
    [KeyError] of a team the mapping lacks. *)
Fixpoint save_teams (teams : gmap string (list entry)) (ts : list string)
    (out : string) : string * option exn :=
  match ts with
  | [] => (out, None)
  | t :: ts' =>
      let out1 := out +:+ "[" +:+ t +:+ "]" +:+ nl in
      match teams !! t with
      | Some entries =>
          save_teams teams ts'
            (out1 +:+ String.concat "" (entry_text <$> entries) +:+ nl)
      | None => (out1, Some (KeyError t))
      end
  end.

Definition provider_text (p : json) : string :=
  match p with
  | JObj _ => json_dumps p +:+ nl
  | JStr s => s +:+ nl
  | _ => py_str p +:+ nl
  end.

Definition save_numbers (teams : gmap string (list entry)) (providers : list json)
    (fs : files) : result unit * files :=
  match save_teams teams TEAMS "" with
  | (out, Some e) =>
      (Raise e, {| numbers_file := Some out; template_file := template_file fs |})
  | (out, None) =>
      (Ok (),
       {| numbers_file :=
            Some (out +:+ "[sms_provider]" +:+ nl
                      +:+ String.concat "" (provider_text <$> providers));
          template_file := template_file fs |})
  end.

Definition get_template (fs : files) : option string :=
  strip <$> template_file fs.

(** ** Editing the store *)

Definition has_number (n : string) (entries : list entry) : bool :=
  existsb (fun e => bool_decide (number e = n)) entries.

(** [if not any(...): teams[team].append(...)] *)
Definition add_if_missing (team n d : string) (teams : gmap string (list entry))
    : result (gmap string (list entry)) :=
  entries ← teams_getitem teams team;
  if has_number n entries then Ok teams
  else teams_append teams team {| number := n; desc := d |}.

(** The body of [add_number] between the load and the save; [None] when
    the guard fails and nothing is saved. *)
Definition add_number_store (team : string) (n : option string) (d : string)
    (teams : gmap string (list entry))
    : option (result (gmap string (list entry))) :=
  match n with
  | Some n =>
      if bool_decide (team ∈ dom teams) && str_truthy n then
        Some (teams1 ← add_if_missing team n d teams;
              add_if_missing "all" n d teams1)
      else None
  | None => None
  end.

(** The body of [remove_number] between the load and the save. *)
Definition remove_number_store (team n : string) (teams : gmap string (list entry))
    : option (result (gmap string (list entry))) :=
  if bool_decide (team ∈ dom teams) then
    Some (entries ← teams_getitem teams team;
          Ok (<[team := filter (fun e => number e ≠ n) entries]> teams))
  else None.

(** A route that loads the store, edits it and saves it. *)
Definition edit_store
    (edit : gmap string (list entry) -> option (result (gmap string (list entry))))
    (fs : files) : result unit * files :=
  match load_numbers fs with
  | (Raise e, fs1) => (Raise e, fs1)
  | (Ok (teams, providers), fs1) =>
      match edit teams with
      | None => (Ok (), fs1)
      | Some (Raise e) => (Raise e, fs1)
      | Some (Ok teams') => save_numbers teams' providers fs1
      end
  end.

Definition add_number (team : string) (n : option string) (d : string)
    (fs : files) : result unit * files :=
  edit_store (add_number_store team n d) fs.

Definition remove_number (team n : string) (fs : files) : result unit * files :=
  edit_store (remove_number_store team n) fs.

End Store.

(** ** Number resolution (the loop of [alert] over the team's entries) *)

Fixpoint unique_from (seen : gset string) (entries : list entry) : list string :=
  match entries with
  | [] => []
  | e :: entries' =>
      if bool_decide (number e ∈ seen) then unique_from seen entries'
      else number e :: unique_from ({[number e]} ∪ seen) entries'
  end.

Definition unique_numbers (entries : list entry) : list string :=
  unique_from ∅ entries.

Definition resolve (team : string) (teams : gmap string (list entry)) : list string :=
  unique_numbers (default [] (teams !! team)).

(** ** The dispatcher *)

Inductive body :=
| JsonBody (payload : json)
| FormBody (payload : list (string * string)).

Record request := {
  r_url : json;
  r_body : body;
  r_headers : json;
  r_timeout : Z
}.

Record response := {
  status_code : Z;
  text : string
}.

(** The network: [requests.post] answers or raises, and moves on. *)
Class Network := {
  World : Type;
  post : World -> request -> result response * World
}.

Inductive log_line :=
| LogWebhook (url : json) (resp : response)
| LogSms (n : string) (url : json) (resp : response)
| LogFailed (provider : json) (e : exn).

Inductive event :=
| Posted (r : request) (answer : result response)
| Printed (l : log_line)
| Slept (seconds : Z).

Definition webhook_request (url headers : json) (message : string) : request :=
  {| r_url := url; r_body := JsonBody (JObj [("text", JStr message)]);
     r_headers := headers; r_timeout := 10 |}.

Definition sms_request (url headers : json) (message n : string) : request :=
  {| r_url := url; r_body := FormBody [("receptor", n); ("message", message)];
     r_headers := headers; r_timeout := 10 |}.

Definition provider_url (provider : json) : json :=
  match provider with
  | JObj kvs => default JNull (dict_get kvs "url")
  | _ => provider
  end.

Definition provider_headers (provider : json) : json :=
  match provider with
  | JObj kvs => default (JObj []) (dict_get kvs "headers")
  | _ => JObj []
  end.

Section Dispatch.
Context `{Network}.

(** The loop over [numbers] of one SMS provider: the events, the
    exception that ended it if one did, and the world left. *)
Fixpoint sms_loop (url headers : json) (message : string) (seen : gset string)
    (numbers : list string) (w : World) : list event * option exn * World :=
  match numbers with
  | [] => ([], None, w)
  | n :: numbers' =>
      if bool_decide (n ∈ seen) then sms_loop url headers message seen numbers' w
      else
        let req := sms_request url headers message n in
        match post w req with
        | (Ok resp, w1) =>
            let '(evs, err, w2) :=
              sms_loop url headers message ({[n]} ∪ seen) numbers' w1 in
            (Posted req (Ok resp) :: Printed (LogSms n url resp) :: evs, err, w2)
        | (Raise e, w1) => ([Posted req (Raise e)], Some e, w1)
        end
  end.

Definition send_webhook (url headers : json) (message : string) (w : World)
    : list event * option exn * World :=
  let req := webhook_request url headers message in
  match post w req with
  | (Ok resp, w1) => ([Posted req (Ok resp); Printed (LogWebhook url resp)], None, w1)
  | (Raise e, w1) => ([Posted req (Raise e)], Some e, w1)
  end.

(** One iteration of the loop over [providers]: the [try] block, its
    [except] clause, and the pause that a [continue] skips. *)
Definition send_provider (numbers : list string) (message : string)
    (provider : json) (w : World) : list event * World :=
  let url := provider_url provider in
  let headers := provider_headers provider in
  if negb (py_truthy url) then ([], w)
  else
    let '(evs, err, w1) :=
      match py_in "/hooks/" url with
      | Raise e => ([], Some e, w)
      | Ok true => send_webhook url headers message w
      | Ok false => sms_loop url headers message ∅ numbers w
      end in
    (evs ++ match err with
            | Some e => [Printed (LogFailed provider e)]
            | None => []
            end ++ [Slept 1], w1).

Fixpoint send_sms (numbers : list string) (message : string)
    (providers : list json) (w : World) : list event * World :=
  match providers with
  | [] => ([], w)
  | provider :: providers' =>
      let '(evs, w1) := send_provider numbers message provider w in
      let '(evs', w2) := send_sms numbers message providers' w1 in
      (evs ++ evs', w2)
  end.

(** The requests a run made, in order. *)
Definition requests_of (evs : list event) : list request :=
  omap (fun ev => match ev with
                  | Posted r _ => Some r
                  | _ => None
                  end) evs.

(** The failures a run printed. *)
Definition failures_of (evs : list event) : list (json * exn) :=
  omap (fun ev => match ev with
                  | Printed (LogFailed p e) => Some (p, e)
                  | _ => None
                  end) evs.

End Dispatch.

(** ** The alert route *)

Inductive http_response :=
| Json200 (payload : json)
| BadRequest
| ServerError (e : exn).

Definition ok_response (numbers : list string) : http_response :=
  Json200 (JObj [("status", JStr "ok"); ("sent_to", JArr (JStr <$> numbers))]).

Section Route.
Context `{PyRuntime} `{Network}.

(** [alert(team)] on a request whose body is [raw]: the response, the
    files and the world left, and what the dispatcher did. *)
Definition alert (team raw : string) (fs : files) (w : World)
    : http_response * files * World * list event :=
  match json_loads raw with
  | None => (BadRequest, fs, w, [])
  | Some data =>
      let template := get_template fs in
      match load_numbers fs with
      | (Raise e, fs1) => (ServerError e, fs1, w, [])
      | (Ok (teams, providers), fs1) =>
          let unique := resolve team teams in
          match build_message data template with
          | Raise e => (ServerError e, fs1, w, [])
          | Ok message =>
              let '(evs, w1) := send_sms unique message providers w in
              (ok_response unique, fs1, w1, evs)
          end
      end
  end.

End Route.

(** ** The template file *)

(** Reading a file in text mode turns a carriage return, alone or before
    a line feed, into a line feed. *)
Fixpoint universal_newlines (s : string) : string :=
  match s with
  | "" => ""
  | String c s' =>
      if bool_decide (c = CR) then
        String LF match s' with
                  | String c' s'' =>
                      if bool_decide (c' = LF) then universal_newlines s''
                      else universal_newlines s'
                  | "" => ""
                  end
      else String c (universal_newlines s')
  end.

(** [save_template]: a missing or empty template removes the file; the
    field holds the text a later read returns. *)
Definition save_template (template : option string) (fs : files) : files :=
  match template with
  | Some t =>
      if str_truthy t then
        {| numbers_file := numbers_file fs;
           template_file := Some (universal_newlines t) |}
      else {| numbers_file := numbers_file fs; template_file := None |}
  | None => {| numbers_file := numbers_file fs; template_file := None |}
  end.

(** [set_template] with the form field [template]. *)
Definition set_template (template : option string) (fs : files) : files :=
  save_template template fs.

(** ** Removing a provider *)

Section ProviderRoutes.
Context `{PyRuntime}.

(** [remove_provider(idx)]: [idx] comes from the route converter, which
    accepts no sign. *)
Definition remove_provider (idx : nat) (fs : files) : result unit * files :=
  match load_numbers fs with
  | (Raise e, fs1) => (Raise e, fs1)
  | (Ok (teams, providers), fs1) =>
      if bool_decide (idx < length providers)%nat
      then save_numbers teams (delete idx providers) fs1
      else (Ok (), fs1)
  end.

End ProviderRoutes.

(** * The vocabulary of the specification *)

(** The specification's wording of the resolver's result: the numbers
    deduplicated, each kept where it first occurs. *)
Fixpoint dedup_first (l : list string) : list string :=
  match l with
  | [] => []
  | x :: l' => x :: filter (fun y => y ≠ x) (dedup_first l')
  end.

(** A line that opens the section of team [t]. *)
Definition names_section (t raw : string) : bool :=
  let line := strip raw in
  section_line line && bool_decide (strip (slice_1_m1 line) = t).

Definition section_missing (t content : string) : Prop :=
  Forall (fun raw => names_section t raw = false) (splitlines content).

Definition numbers_of (teams : gmap string (list entry)) (t : string) : list string :=
  number <$> default [] (teams !! t).

(** Every number of every team is a number of the team all. *)
Definition mirrored (teams : gmap string (list entry)) : Prop :=
  ∀ t x, x ∈ numbers_of teams t → x ∈ numbers_of teams "all".

(** The fields the specification names, read off a payload by path. *)
Fixpoint json_path (v : json) (path : list string) : option json :=
  match path with
  | [] => Some v
  | k :: path' =>
      match v with
      | JObj kvs => v' ← dict_get kvs k; json_path v' path'
      | _ => None
      end
  end.

Definition alert_fields (a : json) : list (string * json) :=
  [("status", default (JStr "firing") (json_path a ["status"]));
   ("summary", default (JStr "No summary") (json_path a ["annotations"; "summary"]));
   ("description", default (JStr "") (json_path a ["annotations"; "description"]));
   ("alertname", default (JStr "") (json_path a ["labels"; "alertname"]))].

Definition state_fields (kvs : list (string * json)) (state : json)
    : list (string * json) :=
  [("status", state);
   ("summary", default (JStr "No message") (dict_get kvs "message"));
   ("alertname", default (JStr "") (dict_get kvs "ruleName"))].

Definition is_object (v : json) : bool :=
  match v with
  | JObj _ => true
  | _ => false
  end.

(** An alert entry: an object whose annotations and labels, when it has
    them, are objects. *)
Definition alert_entry (a : json) : bool :=
  match a with
  | JObj kvs =>
      from_option is_object true (dict_get kvs "annotations")
      && from_option is_object true (dict_get kvs "labels")
  | _ => false
  end.

(** The template names the argument [k] in one of its replacement fields. *)
Definition references (t k : string) : Prop :=
  ∃ f, Field f ∈ (parse_template t).1 ∧ arg_name f = k.

Definition raised (ev : event) : bool :=
  match ev with
  | Posted _ (Raise _) => true
  | _ => false
  end.

Definition is_post (ev : event) : bool :=
  match ev with
  | Posted _ _ => true
  | _ => false
  end.

(** No request of the run raised. *)
Definition no_raise (evs : list event) : bool := forallb (fun ev => negb (raised ev)) evs.

(** A request that raised is the last request of the run. *)
Fixpoint raise_ends (evs : list event) : bool :=
  match evs with
  | [] => true
  | ev :: evs' =>
      if raised ev then forallb (fun ev' => negb (is_post ev')) evs'
      else raise_ends evs'
  end.

(** The requests the specification gives a provider with a string url. *)
Definition expected_requests (numbers : list string) (message : string) (p : json)
    : list request :=
  match provider_url p with
  | JStr u =>
      if str_contains "/hooks/" u
      then [webhook_request (JStr u) (provider_headers p) message]
      else sms_request (JStr u) (provider_headers p) message <$> dedup_first numbers
  | _ => []
  end.

Definition has_url (p : json) : Prop :=
  ∃ u, provider_url p = JStr u ∧ str_truthy u = true.

(** A text without a line break. *)
Definition one_line (s : string) : bool :=
  forallb (fun c => negb (is_linebreak c)) (chars s).

(** A text without whitespace at either end. *)
Definition trimmed (s : string) : bool :=
  bool_decide (lstrip s = s) && bool_decide (rstrip s = s).

Definition no_bar (s : string) : bool :=
  forallb (fun c => negb (bool_decide (c = "|"%char))) (chars s).

(** An entry whose saved line reads back as the entry: the number is not
    empty, holds no bar and does not open a bracket; number and
    description are trimmed single lines. *)
Definition entry_ok (e : entry) : bool :=
  str_truthy (number e) && trimmed (number e) && one_line (number e)
  && no_bar (number e) && negb (startswith (number e) "[")
  && trimmed (desc e) && one_line (desc e).

(** The line [save_numbers] writes for an entry, without its line feed. *)
Definition entry_line (e : entry) : string :=
  if str_truthy (desc e) then number e +:+ " | " +:+ desc e else number e.

(** The lines of the sections of the teams [ts]. *)
Fixpoint team_lines (teams : gmap string (list entry)) (ts : list string)
    : list string :=
  match ts with
  | [] => []
  | t :: ts' =>
      ("[" +:+ t +:+ "]") :: (entry_line <$> default [] (teams !! t))
      ++ "" :: team_lines teams ts'
  end.

(** A team whose section has not been opened keeps its empty list. *)
Definition untouched (t : string) (st : load_state) : Prop :=
  ld_teams st !! t = Some [] ∧ current_team st ≠ Some t.

(** The pauses of a run, in seconds. *)
Definition pauses_of (evs : list event) : list Z :=
  omap (fun ev => match ev with
                  | Slept seconds => Some seconds
                  | _ => None
                  end) evs.

(** The requests of a provider when there is no number to send to. *)
Definition webhook_only (message : string) (p : json) : list request :=
  if py_truthy (provider_url p) then
    match py_in "/hooks/" (provider_url p) with
    | Ok true => [webhook_request (provider_url p) (provider_headers p) message]
    | _ => []
    end
  else [].

(** A request of the run to provider [p]: its url, its headers, the fixed
    timeout, and a body that is the message as JSON text or as a form for
    one of the numbers. *)
Definition request_from (numbers : list string) (message : string) (p : json)
    (r : request) : Prop :=
  r_url r = provider_url p ∧ r_headers r = provider_headers p ∧ r_timeout r = 10
  ∧ (r_body r = JsonBody (JObj [("text", JStr message)])
     ∨ ∃ n, n ∈ numbers ∧ r_body r = FormBody [("receptor", n); ("message", message)]).

(** The placeholders the specification recognizes. *)
Definition recognized : list string := ["status"; "summary"; "description"; "alertname"].

(** Literal text, or a field that is just one of the names [keys]. *)
Definition plain_item (keys : list string) (i : item) : Prop :=
  match i with
  | Lit _ => True
  | Field f => f_conv f = None ∧ f_spec f = "" ∧ f_name f ∈ keys
  end.

(** A value that [in] and iteration accept. *)
Definition is_container (v : json) : bool :=
  match v with
  | JStr _ | JArr _ | JObj _ => true
  | _ => false
  end.

Definition blank (s : string) : bool := forallb is_space (chars s).

Definition no_cr (s : string) : bool :=
  forallb (fun c => negb (bool_decide (c = CR))) (chars s).

Section Vocabulary.
Context `{PyRuntime}.

(** The text a value puts into a line under an empty format spec. *)
Definition value_text (v : json) : string :=
  match v with
  | JStr s => s
  | _ => py_str v
  end.

(** The text an item contributes to a line. *)
Definition item_text (kwargs : list (string * json)) (i : item) : string :=
  match i with
  | Lit s => s
  | Field f => value_text (default JNull (dict_get kwargs (f_name f)))
  end.

(** The line [save_numbers] writes for a provider, without its line
    feed. *)
Definition provider_line (p : json) : string :=
  match p with
  | JObj _ => json_dumps p
  | JStr s => s
  | _ => py_str p
  end.

(** A provider whose saved line reads back as the provider: a trimmed
    single line that is a url opening neither a bracket nor a brace, or
    the encoding of an object that decodes to it. *)
Definition provider_ok (p : json) : Prop :=
  match p with
  | JStr s =>
      str_truthy s = true ∧ trimmed s = true ∧ one_line s = true
      ∧ startswith s "[" = false ∧ startswith s "{" = false
  | JObj _ =>
      trimmed (json_dumps p) = true ∧ one_line (json_dumps p) = true
      ∧ startswith (json_dumps p) "{" = true
      ∧ json_loads (json_dumps p) = Some p
  | _ => False
  end.

(** A store that survives being saved and loaded. *)
Definition store_ok (teams : gmap string (list entry)) (providers : list json)
    : Prop :=
  dom teams = list_to_set TEAMS
  ∧ (∀ t entries, teams !! t = Some entries →
                  Forall (fun e => entry_ok e = true) entries)
  ∧ Forall provider_ok providers.

End Vocabulary.

(** ** The dispatcher, in the specification's words

    What follows is written from the specification, not from [send_sms]:
    what a provider is due, and what serving the providers one after the
    other means.  The properties of the dispatcher compare the code with
    it. *)

(** [hay] holds [needle] as a substring. *)
Definition has_substring (needle hay : string) : Prop :=
  ∃ before after, hay = before +:+ needle +:+ after.

Lemma startswith_prefix (p s : string) :
  startswith s p = true ↔ ∃ after, s = p +:+ after.
Proof.
  revert s. induction p as [|a p IH]; intros s.
  - split; [intros _; exists s; reflexivity | by destruct s].
  - destruct s as [|b s]; cbn [startswith].
    + split; [done | by intros [after [=]]].
    + destruct (decide (a = b)) as [->|Hab].
      * rewrite IH. split.
        -- intros [after ->]. by exists after.
        -- intros [after [= ->]]. by exists after.
      * split; [done | intros [after [= ? _]]; by subst].
Qed.

Lemma str_contains_substring (needle hay : string) :
  str_contains needle hay = true ↔ has_substring needle hay.
Proof.
  unfold has_substring. split.
  - induction hay as [|c hay IH]; cbn [str_contains];
      rewrite orb_true_iff, startswith_prefix.
    + intros [[after ->] | [=]]. by exists "", after.
    + intros [[after ->] | Hin]; [by exists "", after|].
      destruct (IH Hin) as (before & after & ->). by exists (String c before), after.
  - intros (before & after & ->). induction before as [|c before IH].
    + assert (startswith (needle +:+ after) needle = true) as Hs
        by (apply startswith_prefix; by exists after).
      change ("" +:+ needle +:+ after) with (needle +:+ after).
      destruct (needle +:+ after); cbn [str_contains]; by rewrite Hs.
    + change (String c before +:+ needle +:+ after)
        with (String c (before +:+ needle +:+ after)).
      cbn [str_contains]. rewrite IH. apply orb_true_r.
Qed.

#[global] Instance has_substring_dec (needle hay : string) :
  Decision (has_substring needle hay).
Proof.
  destruct (str_contains needle hay) eqn:Hc.
  - left. by apply str_contains_substring.
  - right. intros Hsub%str_contains_substring. congruence.
Defined.

(** The url and the headers of a provider: a structured endpoint holds
    them under url and headers, a bare one is its url and has no
    headers. *)
Definition endpoint_url (p : json) : json :=
  match p with
  | JObj kvs =>
      match dict_get kvs "url" with
      | Some url => url
      | None => JNull
      end
  | _ => p
  end.

Definition endpoint_headers (p : json) : json :=
  match p with
  | JObj kvs =>
      match dict_get kvs "headers" with
      | Some headers => headers
      | None => JObj []
      end
  | _ => JObj []
  end.

(** The request of a webhook provider: the JSON body text = message. *)
Definition hook_send (url headers : json) (message : string) : request :=
  {| r_url := url;
     r_body := JsonBody (JObj [("text", JStr message)]);
     r_headers := headers;
     r_timeout := 10 |}.

(** The request of an SMS provider for one number: the form receptor =
    number, message = message. *)
Definition number_send (url headers : json) (message n : string) : request :=
  {| r_url := url;
     r_body := FormBody [("receptor", n); ("message", message)];
     r_headers := headers;
     r_timeout := 10 |}.

(** An empty or absent url. *)
Definition no_url (url : json) : bool :=
  match url with
  | JNull | JBool false | JNum 0 | JStr "" | JArr [] | JObj [] => true
  | _ => false
  end.

(** Whether a url holds /hooks/: as a substring of a text, as an element
    of a list, as a key of an object; any other value cannot be asked. *)
Definition names_hook (url : json) : option bool :=
  match url with
  | JStr u => Some (bool_decide (has_substring "/hooks/" u))
  | JArr xs =>
      Some (existsb (fun x => match x with
                              | JStr s => bool_decide (s = "/hooks/")
                              | _ => false
                              end) xs)
  | JObj kvs => Some (bool_decide ("/hooks/" ∈ kvs.*1))
  | _ => None
  end.

(** What a provider is due: nothing when it has no url, a TypeError when
    its url cannot be asked for /hooks/, and otherwise its requests: one
    webhook request, or one SMS request per number of the numbers
    deduplicated, in order. *)
Inductive service :=
| PassedOver
| Unusable
| Due (reqs : list request).

Definition service_of (numbers : list string) (message : string) (p : json)
    : service :=
  if no_url (endpoint_url p) then PassedOver
  else
    match names_hook (endpoint_url p) with
    | None => Unusable
    | Some true => Due [hook_send (endpoint_url p) (endpoint_headers p) message]
    | Some false =>
        Due (number_send (endpoint_url p) (endpoint_headers p) message
             <$> dedup_first numbers)
    end.

Definition due_requests (numbers : list string) (message : string) (p : json)
    : list request :=
  match service_of numbers message p with
  | Due reqs => reqs
  | _ => []
  end.

(** A provider whose url is a text that is not empty. *)
Definition text_url (p : json) : Prop :=
  ∃ u, endpoint_url p = JStr u ∧ u ≠ "".

(** The exchanges of a run: each request with what the network answered. *)
Definition exchanges_of (evs : list event) : list (request * result response) :=
  omap (fun ev => match ev with
                  | Posted r answer => Some (r, answer)
                  | _ => None
                  end) evs.

Section Served.
Context `{Network}.

(** Requests sent one after the other until one raises: the exchanges,
    the exception that ended them if one did, and the world left. *)
Fixpoint attempt (reqs : list request) (w : World)
    : list (request * result response) * option exn * World :=
  match reqs with
  | [] => ([], None, w)
  | r :: reqs' =>
      match post w r with
      | (Ok resp, w1) =>
          let '(xs, err, w2) := attempt reqs' w1 in
          ((r, Ok resp) :: xs, err, w2)
      | (Raise e, w1) => ([(r, Raise e)], Some e, w1)
      end
  end.

(** One provider served: its due requests attempted, and the failure
    recorded for it when it is unusable or one of its requests raised. *)
Definition serve (numbers : list string) (message : string) (p : json) (w : World)
    : list (request * result response) * list (json * exn) * World :=
  match service_of numbers message p with
  | PassedOver => ([], [], w)
  | Unusable => ([], [(p, TypeError)], w)
  | Due reqs =>
      let '(xs, err, w1) := attempt reqs w in
      (xs, match err with
           | Some e => [(p, e)]
           | None => []
           end, w1)
  end.

(** The providers served in list order, each in full and each from the
    world the one before it left, whatever failed before. *)
Fixpoint serve_all (numbers : list string) (message : string)
    (providers : list json) (w : World)
    : list (request * result response) * list (json * exn) * World :=
  match providers with
  | [] => ([], [], w)
  | p :: providers' =>
      let '(xs, failed, w1) := serve numbers message p w in
      let '(xs', failed', w2) := serve_all numbers message providers' w1 in
      (xs ++ xs', failed ++ failed', w2)
  end.

End Served.

(** * Worked inputs *)

Definition dq : string := String (ascii_of_nat 34) "".

Definition quoted (s : string) : string := dq +:+ s +:+ dq.

(** The body of a state-form request and the document it decodes to. *)
Definition state_body : string :=
  "{" +:+ quoted "title" +:+ ": " +:+ quoted "x" +:+ ", "
      +:+ quoted "state" +:+ ": " +:+ quoted "resolved" +:+ "}".

Definition state_data : json :=
  JObj [("title", JStr "x"); ("state", JStr "resolved")].

(** A runtime for the worked inputs: its decoder knows the one body above,
    and it refuses format specs, attribute chains and conversions. *)
Definition sample_runtime : PyRuntime := {|
  py_str := fun v =>
    match v with
    | JNull => "None"
    | JBool true => "True"
    | JBool false => "False"
    | _ => "?"
    end;
  py_format := fun _ _ => Raise (ValueError "Invalid format specifier");
  py_field := fun _ _ _ => Raise AttributeError;
  json_loads := fun raw =>
    if bool_decide (raw = state_body) then Some state_data else None;
  json_dumps := fun _ => "{}"
|}.

(** A network that plays a script of answers, then answers 200. *)
Definition scripted : Network := {|
  World := list (result response);
  post := fun w _ =>
    match w with
    | [] => (Ok {| status_code := 200; text := "ok" |}, [])
    | answer :: w' => (answer, w')
    end
|}.

Definition lines_text (ls : list string) : string :=
  String.concat "" ((fun l => l +:+ nl) <$> ls).

(** A store in which devops holds one number, mirrored in all. *)
Definition store_before : files := {|
  numbers_file := Some (lines_text ["[all]"; "+1"; "[devops]"; "+1"]);
  template_file := None
|}.

Definition plus_one : entry := {| number := "+1"; desc := "" |}.

(** The payloads of the specification's scenarios. *)
Definition disk_full_alert : json :=
  JObj [("status", JStr "firing");
        ("annotations", JObj [("summary", JStr "disk full")]);
        ("labels", JObj [("alertname", JStr "DiskFull")])].

Definition disk_full_payload : list (string * json) :=
  [("alerts", JArr [disk_full_alert])].

Definition all_good_payload : list (string * json) :=
  [("title", JStr "x"); ("state", JStr "resolved");
   ("message", JStr "all good"); ("ruleName", JStr "R1")].

(** The scenario of the specification: a chat webhook, then an SMS
    gateway, and three numbers. *)
Definition chat_hook : json :=
  JObj [("url", JStr "https://chat.example/hooks/abc");
        ("headers", JObj [("X-Auth-Token", JStr "t0")])].

Definition sms_gateway : json := JStr "https://sms.example/send".

Definition sms_backup : json := JStr "https://backup.example/send".

Definition no_url_provider : json := JObj [("headers", JObj [])].

Definition refused : result response := Raise (RequestException "connection refused").

Definition description_files : files := {|
  numbers_file := Some (lines_text ["[devops]"; "+1 | ops"]);
  template_file := Some "{description}"
|}.

(** A store with a team and two providers. *)
Definition routed_files : files := {|
  numbers_file :=
    Some (lines_text ["[devops]"; "+1 | ops"; "+1"; "+2";
                      "[sms_provider]"; "https://chat.example/hooks/abc";
                      "https://sms.example/send"]);
  template_file := None
|}.

(** The text of the chat hook as an object, and a runtime whose codec
    knows it. *)
Definition hook_text : string :=
  "{" +:+ quoted "url" +:+ ": " +:+ quoted "https://chat.example/hooks/abc" +:+ ", "
      +:+ quoted "headers" +:+ ": {" +:+ quoted "X-Auth-Token" +:+ ": "
      +:+ quoted "t0" +:+ "}}".

Definition codec_runtime : PyRuntime := {|
  py_str := fun _ => "?";
  py_format := fun _ _ => Raise (ValueError "Invalid format specifier");
  py_field := fun _ _ _ => Raise AttributeError;
  json_loads := fun raw =>
    if bool_decide (raw = hook_text) then Some chat_hook
    else if bool_decide (raw = state_body) then Some state_data
    else None;
  json_dumps := fun _ => hook_text
|}.

Definition ops_entry : entry := {| number := "+1"; desc := "on call" |}.

(** A store with one number, mirrored, and two providers. *)
Definition ops_teams : gmap string (list entry) :=
  <["devops" := [ops_entry]]> (<["all" := [ops_entry]]> initial_teams).

Definition ops_providers : list json := [chat_hook; sms_gateway].

Definition ops_files : files := {|
  numbers_file :=
    Some (lines_text ["[all]"; "+1 | on call"; ""; "[devops]"; "+1 | on call"; "";
                      "[cloud]"; ""; "[web]"; ""; "[noc]"; ""; "[managers]"; "";
                      "[sms_provider]"; hook_text; "https://sms.example/send"]);
  template_file := None
|}.

(** The items of the template {alertname}: {summary}. *)
Definition name_summary_items : list item :=
  [Lit ""; Field {| f_name := "alertname"; f_conv := None; f_spec := "" |};
   Lit ": "; Field {| f_name := "summary"; f_conv := None; f_spec := "" |}; Lit ""].

(** * Properties *)

(** ** Number resolution *)

Lemma elem_of_dedup_first (l : list string) (x : string) :
  x ∈ dedup_first l ↔ x ∈ l.
Proof.
  induction l as [|y l IH]; simpl; [done|].
  rewrite !elem_of_cons, list_elem_of_filter, IH.
  destruct (decide (x = y)); naive_solver.
Qed.

Lemma NoDup_dedup_first (l : list string) : NoDup (dedup_first l).
Proof.
  induction l as [|y l IH]; simpl; [constructor|].
  constructor.
  - rewrite list_elem_of_filter. naive_solver.
  - by apply NoDup_filter.
Qed.

Lemma dedup_first_seen (seen : gset string) (n : string) (l : list string) :
  n ∈ seen →
  filter (fun x => x ∉ seen) (dedup_first (n :: l))
  = filter (fun x => x ∉ seen) (dedup_first l).
Proof.
  intros Hn. cbn [dedup_first]. rewrite filter_cons, decide_False by naive_solver.
  rewrite list_filter_filter. apply list_filter_iff.
  intros x. set_solver.
Qed.

Lemma dedup_first_fresh (seen : gset string) (n : string) (l : list string) :
  n ∉ seen →
  filter (fun x => x ∉ seen) (dedup_first (n :: l))
  = n :: filter (fun x => x ∉ {[n]} ∪ seen) (dedup_first l).
Proof.
  intros Hn. cbn [dedup_first]. rewrite filter_cons, decide_True by done. f_equal.
  rewrite list_filter_filter. apply list_filter_iff. intros x. set_solver.
Qed.

Lemma filter_not_seen (seen : gset string) (l : list string) :
  seen = ∅ → filter (fun x => x ∉ seen) l = l.
Proof.
  intros ->. induction l as [|x l IH]; [done|].
  rewrite filter_cons, decide_True by set_solver. by rewrite IH.
Qed.

Lemma unique_from_dedup_first (seen : gset string) (entries : list entry) :
  unique_from seen entries =
  filter (fun x => x ∉ seen) (dedup_first (number <$> entries)).
Proof.
  revert seen. induction entries as [|e entries IH]; intros seen; [done|].
  cbn [unique_from fmap list_fmap]. case_bool_decide as Hseen.
  - by rewrite dedup_first_seen, IH.
  - by rewrite dedup_first_fresh, IH.
Qed.

Lemma unique_numbers_dedup_first (entries : list entry) :
  unique_numbers entries = dedup_first (number <$> entries).
Proof.
  unfold unique_numbers. rewrite unique_from_dedup_first. by apply filter_not_seen.
Qed.

(** C4.  Resolving a team that is not a key of the routing store gives the
    empty sequence; resolving a key gives the numbers of its entries
    deduplicated in first-occurrence order: no number twice, exactly the
    stored numbers, and stored numbers +1, +2, +1 resolve to +1, +2. *)
Theorem resolve_dedup_first (team : string) (teams : gmap string (list entry)) :
  resolve team teams =
    match teams !! team with
    | None => []
    | Some entries => dedup_first (number <$> entries)
    end
  ∧ NoDup (resolve team teams)
  ∧ (∀ x, x ∈ resolve team teams ↔
          ∃ entries e, teams !! team = Some entries ∧ e ∈ entries ∧ number e = x)
  ∧ resolve "all"
      (<["all" := [ {| number := "+1"; desc := "" |};
                    {| number := "+2"; desc := "" |};
                    {| number := "+1"; desc := "" |} ]]> teams)
    = ["+1"; "+2"].
Proof.
  unfold resolve. split_and!.
  - destruct (teams !! team); simpl; [apply unique_numbers_dedup_first | done].
  - rewrite unique_numbers_dedup_first. apply NoDup_dedup_first.
  - intros x. rewrite unique_numbers_dedup_first, elem_of_dedup_first.
    rewrite list_elem_of_fmap. destruct (teams !! team) as [entries|]; simpl.
    + split.
      * intros (e & -> & He). by exists entries, e.
      * intros (entries' & e & [= <-] & He & <-). by exists e.
    + split; [intros (e & _ & He); by apply elem_of_nil in He |].
      by intros (? & ? & [=] & _).
  - by rewrite lookup_insert_eq.
Qed.

(** ** Loading the routing store *)

Lemma dom_initial_teams : dom initial_teams = list_to_set TEAMS.
Proof. unfold initial_teams. by rewrite dom_list_to_map_L, <- list_fmap_compose. Qed.

Lemma initial_teams_lookup (t : string) :
  t ∈ TEAMS → initial_teams !! t = Some [].
Proof.
  intros Ht. unfold initial_teams.
  apply elem_of_list_to_map_1.
  - change (NoDup TEAMS). compute_done.
  - apply list_elem_of_fmap. by exists t.
Qed.

Lemma teams_append_dom (teams : gmap string (list entry)) (k : string) (e : entry) :
  k ∈ dom teams →
  ∃ teams', teams_append teams k e = Ok teams' ∧ dom teams' = dom teams
            ∧ ∀ t, t ≠ k → teams' !! t = teams !! t.
Proof.
  intros [entries Hk]%elem_of_dom. unfold teams_append, teams_getitem.
  rewrite Hk. simpl. eexists. split_and!; [done| |].
  - rewrite dom_insert_L. apply elem_of_dom_2 in Hk. set_solver.
  - intros t Ht. by rewrite lookup_insert_ne.
Qed.

Section LoadFacts.
Context `{PyRuntime}.

Lemma load_line_dom (st : load_state) (raw : string) :
  dom (ld_teams st) = list_to_set TEAMS →
  ∃ st', load_line st raw = Ok st' ∧ dom (ld_teams st') = list_to_set TEAMS.
Proof.
  intros Hdom. unfold load_line.
  destruct (negb _); [by eauto|].
  destruct (section_line _); [repeat case_bool_decide; by eauto|].
  case_bool_decide; [by eauto|].
  destruct (current_team st) as [team|]; [|by eauto].
  case_bool_decide as Hteam; [|by eauto].
  destruct (teams_append_dom (ld_teams st) team (parse_entry (strip raw)))
    as (teams' & -> & Hd & _).
  { rewrite Hdom. by apply elem_of_list_to_set. }
  eexists. split; [done|]. cbn [ld_teams]. congruence.
Qed.

Lemma load_lines_dom (lines : list string) (st : load_state) :
  dom (ld_teams st) = list_to_set TEAMS →
  ∃ st', load_lines st lines = Ok st' ∧ dom (ld_teams st') = list_to_set TEAMS.
Proof.
  revert st. induction lines as [|raw lines IH]; intros st Hdom; simpl; [eauto|].
  destruct (load_line_dom st raw Hdom) as (st1 & -> & Hdom1). simpl. by apply IH.
Qed.

Lemma load_line_untouched (t : string) (st st' : load_state) (raw : string) :
  names_section t raw = false →
  load_line st raw = Ok st' →
  untouched t st → untouched t st'.
Proof.
  unfold names_section, load_line, untouched. intros Hname Hload [Ht Hcur].
  destruct (str_truthy (strip raw)); cbn [negb] in Hload; [|by simplify_eq].
  destruct (section_line (strip raw)); cbn [andb] in Hname.
  - apply bool_decide_eq_false in Hname.
    repeat case_bool_decide; simplify_eq; cbn; split; congruence.
  - case_bool_decide; [by simplify_eq|].
    destruct (current_team st) as [team|] eqn:Hteam;
      [|simplify_eq; split; congruence].
    case_bool_decide; [|simplify_eq; split; congruence].
    unfold teams_append, teams_getitem in Hload.
    destruct (ld_teams st !! team) eqn:Hl; cbn in Hload; simplify_eq.
    cbn. split; [|congruence].
    rewrite lookup_insert_ne; [done | congruence].
Qed.

Lemma load_lines_untouched (t : string) (lines : list string) (st st' : load_state) :
  Forall (fun raw => names_section t raw = false) lines →
  load_lines st lines = Ok st' →
  untouched t st → untouched t st'.
Proof.
  intros Hall. revert st. induction Hall as [|raw lines Hraw _ IH]; intros st; simpl.
  - by intros [= ->].
  - destruct (load_line st raw) as [st1|] eqn:H1; simpl; [|done].
    intros Hrest Hst. apply (IH st1 Hrest). by eapply load_line_untouched.
Qed.

Lemma load_numbers_keys (fs : files) :
  ∃ st,
    load_lines {| ld_teams := initial_teams; ld_providers := []; current_team := None |}
      (splitlines (default fresh_numbers_file (numbers_file fs))) = Ok st
    ∧ (load_numbers fs).1 = Ok (ld_teams st, ld_providers st)
    ∧ dom (ld_teams st) = list_to_set TEAMS.
Proof.
  unfold load_numbers, parse_numbers. cbn [fst].
  destruct (load_lines_dom
              (splitlines (default fresh_numbers_file (numbers_file fs)))
              {| ld_teams := initial_teams; ld_providers := []; current_team := None |}
              dom_initial_teams) as (st & Hload & Hdom).
  exists st. by rewrite Hload.
Qed.

(** C10.  Whatever the numbers file holds, and also when it is missing,
    loading succeeds with a teams mapping whose keys are exactly the six
    fixed team names, so every recognized team can be looked up; a team
    whose section the file does not open is bound to the empty list, and
    no other section name adds a key. *)
Theorem load_numbers_teams (fs : files) :
  ∃ teams providers,
    (load_numbers fs).1 = Ok (teams, providers)
    ∧ dom teams = list_to_set TEAMS
    ∧ (∀ t, t ∈ TEAMS → ∃ entries, teams_getitem teams t = Ok entries)
    ∧ (∀ t, t ∉ TEAMS → teams !! t = None)
    ∧ (∀ t, t ∈ TEAMS →
            section_missing t (default fresh_numbers_file (numbers_file fs)) →
            teams !! t = Some []).
Proof.
  destruct (load_numbers_keys fs) as (st & Hlines & Hload & Hdom).
  exists (ld_teams st), (ld_providers st).
  split_and!; [done|done| | |].
  - intros t Ht. unfold teams_getitem.
    assert (t ∈ dom (ld_teams st)) as [entries ->]%elem_of_dom; [|by eauto].
    rewrite Hdom. by apply elem_of_list_to_set.
  - intros t Ht. apply not_elem_of_dom. rewrite Hdom.
    by rewrite elem_of_list_to_set.
  - intros t Ht Hmiss.
    apply (load_lines_untouched t _ _ st Hmiss Hlines).
    split; [by apply initial_teams_lookup | done].
Qed.

End LoadFacts.

(** ** Mirroring into the team all *)

Lemma has_number_elem (n : string) (entries : list entry) :
  has_number n entries = true ↔ n ∈ number <$> entries.
Proof.
  unfold has_number. rewrite existsb_exists, list_elem_of_fmap.
  split.
  - intros (e & He%list_elem_of_In & Hn%bool_decide_eq_true). by exists e.
  - intros (e & -> & He). exists e. split; [by apply list_elem_of_In|].
    by apply bool_decide_eq_true.
Qed.

Lemma add_if_missing_numbers (team n d : string) (teams : gmap string (list entry)) :
  team ∈ dom teams →
  ∃ teams', add_if_missing team n d teams = Ok teams'
            ∧ dom teams' = dom teams
            ∧ ∀ t x, x ∈ numbers_of teams' t ↔
                     x ∈ numbers_of teams t ∨ (t = team ∧ x = n).
Proof.
  intros Hdom. pose proof Hdom as [entries Hk]%elem_of_dom.
  unfold add_if_missing, teams_append, teams_getitem. rewrite Hk. cbn.
  destruct (has_number n entries) eqn:Hhas.
  - exists teams. split_and!; [done..|]. intros t x. split; [by left|].
    intros [Hx | [-> ->]]; [done|].
    unfold numbers_of. rewrite Hk. by apply has_number_elem.
  - eexists. split_and!; [done| |].
    + rewrite dom_insert_L. set_solver.
    + intros t x. unfold numbers_of. destruct (decide (t = team)) as [->|Hne].
      * rewrite lookup_insert_eq, Hk. cbn. rewrite fmap_app, elem_of_app. cbn.
        rewrite list_elem_of_singleton. naive_solver.
      * rewrite lookup_insert_ne by done. naive_solver.
Qed.

Lemma add_number_store_numbers (team n d : string) (teams : gmap string (list entry)) :
  "all" ∈ dom teams → team ∈ dom teams → str_truthy n = true →
  ∃ teams', add_number_store team (Some n) d teams = Some (Ok teams')
            ∧ dom teams' = dom teams
            ∧ ∀ t x, x ∈ numbers_of teams' t ↔
                     x ∈ numbers_of teams t ∨ ((t = team ∨ t = "all") ∧ x = n).
Proof.
  intros Hall Hteam Hn. unfold add_number_store.
  rewrite Hn, bool_decide_eq_true_2 by done. cbn.
  destruct (add_if_missing_numbers team n d teams Hteam) as (teams1 & -> & Hd1 & H1).
  cbn. rewrite <- Hd1 in Hall.
  destruct (add_if_missing_numbers "all" n d teams1 Hall) as (teams2 & -> & Hd2 & H2).
  exists teams2. split_and!; [done | congruence |].
  intros t x. rewrite H2, H1. naive_solver.
Qed.

Lemma remove_number_store_numbers (team n : string) (teams : gmap string (list entry)) :
  team ∈ dom teams →
  ∃ teams', remove_number_store team n teams = Some (Ok teams')
            ∧ dom teams' = dom teams
            ∧ ∀ t x, x ∈ numbers_of teams' t ↔
                     x ∈ numbers_of teams t ∧ (t = team → x ≠ n).
Proof.
  intros Hdom. pose proof Hdom as [entries Hk]%elem_of_dom.
  unfold remove_number_store, teams_getitem.
  rewrite bool_decide_eq_true_2, Hk by done. cbn.
  eexists. split_and!; [done| |].
  - rewrite dom_insert_L. set_solver.
  - intros t x. unfold numbers_of. destruct (decide (t = team)) as [->|Hne].
    + rewrite lookup_insert_eq, Hk. cbn. rewrite !list_elem_of_fmap.
      setoid_rewrite list_elem_of_filter. naive_solver.
    + rewrite lookup_insert_ne by done. naive_solver.
Qed.

(** Between the load and the save of a route: adding a number to a team
    of the store puts it into that team and into all, and keeps the store
    mirrored; removing a number from a team other than all keeps the
    store mirrored. *)
Lemma mirroring_store (team n d : string) (teams : gmap string (list entry)) :
  "all" ∈ dom teams → team ∈ dom teams → str_truthy n = true →
  (∃ teams', add_number_store team (Some n) d teams = Some (Ok teams')
             ∧ n ∈ numbers_of teams' team
             ∧ n ∈ numbers_of teams' "all"
             ∧ (mirrored teams → mirrored teams'))
  ∧ (team ≠ "all" →
     ∃ teams', remove_number_store team n teams = Some (Ok teams')
               ∧ (n ∉ numbers_of teams' team)
               ∧ (mirrored teams → mirrored teams')).
Proof.
  intros Hall Hteam Hn. split.
  - destruct (add_number_store_numbers team n d teams Hall Hteam Hn)
      as (teams' & Heq & _ & Hnum).
    exists teams'. split_and!; [done | | |].
    + apply Hnum. naive_solver.
    + apply Hnum. naive_solver.
    + intros Hm t x. rewrite !Hnum. intros [Hx | [_ ->]]; [|naive_solver].
      left. by apply (Hm t).
  - intros Hne.
    destruct (remove_number_store_numbers team n teams Hteam)
      as (teams' & Heq & _ & Hnum).
    exists teams'. split_and!; [done | |].
    + rewrite Hnum. naive_solver.
    + intros Hm t x. rewrite !Hnum. intros [Hx _]. split; [by apply (Hm t)|].
      intros Heq'. by destruct Hne.
Qed.

Lemma mirrored_alt (teams : gmap string (list entry)) :
  mirrored teams ↔
  map_Forall (fun _ entries =>
                Forall (fun e => number e ∈ numbers_of teams "all") entries) teams.
Proof.
  unfold mirrored, numbers_of. split.
  - intros Hm t entries Ht. apply Forall_forall. intros e He.
    apply (Hm t). rewrite Ht. cbn. apply list_elem_of_fmap. by exists e.
  - intros Hall t x. destruct (teams !! t) as [entries|] eqn:Ht; cbn.
    + intros (e & -> & He)%list_elem_of_fmap.
      specialize (Hall t entries Ht). rewrite Forall_forall in Hall. by apply Hall.
    + by intros ?%elem_of_nil.
Qed.

#[global] Instance mirrored_dec (teams : gmap string (list entry)) :
  Decision (mirrored teams).
Proof.
  refine (cast_if (decide (map_Forall (fun _ entries =>
            Forall (fun e => number e ∈ numbers_of teams "all") entries) teams)));
    by rewrite mirrored_alt.
Defined.

(** C8 fails as stated: removing +1 from all leaves it in devops.  The
    store loaded before the removal is mirrored, the store loaded after
    is not. *)
Lemma remove_from_all_breaks_mirroring :
  let teams0 := <["devops" := [plus_one]]> (<["all" := [plus_one]]> initial_teams) in
  let teams1 := <["devops" := [plus_one]]> initial_teams in
  let fs1 := {| numbers_file :=
                  Some (lines_text ["[all]"; ""; "[devops]"; "+1"; ""; "[cloud]"; "";
                                    "[web]"; ""; "[noc]"; ""; "[managers]"; "";
                                    "[sms_provider]"]);
                template_file := None |} in
  (@load_numbers sample_runtime store_before).1 = Ok (teams0, [])
  ∧ mirrored teams0
  ∧ @remove_number sample_runtime "all" "+1" store_before = (Ok (), fs1)
  ∧ (@load_numbers sample_runtime fs1).1 = Ok (teams1, [])
  ∧ numbers_of teams1 "devops" = ["+1"]
  ∧ numbers_of teams1 "all" = []
  ∧ ¬ mirrored teams1.
Proof.
  cbv zeta. split_and!.
  - vm_compute. reflexivity.
  - apply (bool_decide_unpack _). vm_compute. exact I.
  - vm_compute. reflexivity.
  - vm_compute. reflexivity.
  - vm_compute. reflexivity.
  - vm_compute. reflexivity.
  - apply (bool_decide_eq_false_1 _). vm_compute. reflexivity.
Qed.

(** ** Message building *)

Lemma raises_bind {A B} (m : result A) (f : A -> result B) :
  raises m → raises (m ≫= f).
Proof. intros [e ->]. by exists e. Qed.

Lemma get_arg_unsupplied (kwargs : list (string * json)) (first : string) :
  dict_get kwargs first = None → raises (get_arg kwargs first).
Proof.
  intros Hk. unfold get_arg, raises. rewrite Hk.
  repeat case_match; eauto.
Qed.

Lemma append_assoc (a b c : string) : (a +:+ b) +:+ c = a +:+ (b +:+ c).
Proof.
  induction a as [|x a IH]; [reflexivity|].
  change (String x ((a +:+ b) +:+ c) = String x (a +:+ (b +:+ c))).
  by rewrite IH.
Qed.

Lemma append_empty_r (a : string) : a +:+ "" = a.
Proof.
  induction a as [|x a IH]; [reflexivity|].
  change (String x (a +:+ "") = String x a). by rewrite IH.
Qed.

Lemma concat_nl_last (pre : list string) (last : string) :
  ∃ head, String.concat nl (pre ++ [last]) = head +:+ last.
Proof.
  induction pre as [|x pre [head IH]].
  - by exists "".
  - exists (x +:+ nl +:+ head). cbn [app String.concat].
    destruct (pre ++ [last]) as [|y l] eqn:Hl; [by destruct pre|].
    rewrite IH. by rewrite !append_assoc.
Qed.

Lemma for_each_Forall2 {A B} (f : A -> result B) (xs : list A) (ys : list B) :
  Forall2 (fun x y => f x = Ok y) xs ys → for_each f xs = Ok ys.
Proof. induction 1 as [|x y xs ys Hx _ IH]; cbn; [done|]. by rewrite Hx, IH. Qed.

Section MessageFacts.
Context `{PyRuntime}.

Lemma alert_line_fields (t : string) (a : json) :
  alert_entry a = true → alert_line t a = str_format t (alert_fields a).
Proof.
  destruct a as [| | | | |kvs]; try done. cbn [alert_entry].
  intros [Hann Hlab]%andb_true_iff. unfold alert_line, alert_fields. cbn.
  destruct (dict_get kvs "annotations") as [[| | | | |ann]|]; try done;
    destruct (dict_get kvs "labels") as [[| | | | |lab]|]; try done; cbn;
    by repeat destruct (dict_get _ _).
Qed.

Lemma render_field_plain (expand : string -> result string)
    (kwargs : list (string * json)) (k : string) (v : json) :
  field_name_split k = (k, "") → get_integer k = None → str_truthy k = true →
  expand "" = Ok "" → dict_get kwargs k = Some v →
  render_field expand kwargs {| f_name := k; f_conv := None; f_spec := "" |}
  = Ok (value_text v).
Proof.
  intros Hsplit Hint Hk Hexp Hv. unfold render_field, get_arg. cbn [f_name f_conv f_spec].
  rewrite Hsplit, Hint, Hk, Hv, Hexp. cbn. by destruct v.
Qed.

Lemma render_field_missing (expand : string -> result string)
    (kwargs : list (string * json)) (k : string) :
  field_name_split k = (k, "") → get_integer k = None → str_truthy k = true →
  dict_get kwargs k = None →
  render_field expand kwargs {| f_name := k; f_conv := None; f_spec := "" |}
  = Raise (KeyError k).
Proof.
  intros Hsplit Hint Hk Hv. unfold render_field, get_arg. cbn [f_name f_conv f_spec].
  by rewrite Hsplit, Hint, Hk, Hv.
Qed.

Lemma default_template_line (kwargs : list (string * json)) (status summary : json) :
  dict_get kwargs "status" = Some status →
  dict_get kwargs "summary" = Some summary →
  str_format DEFAULT_TEMPLATE kwargs
  = Ok (value_text status +:+ " " +:+ value_text summary).
Proof.
  intros Hst Hsu. unfold str_format. cbn [build_string].
  replace (parse_template DEFAULT_TEMPLATE) with
    ([Lit ""; Field {| f_name := "status"; f_conv := None; f_spec := "" |};
      Lit " "; Field {| f_name := "summary"; f_conv := None; f_spec := "" |};
      Lit ""], @None exn) by (vm_compute; reflexivity).
  cbn [render_items render_item].
  rewrite (render_field_plain _ kwargs "status" status) by done.
  rewrite (render_field_plain _ kwargs "summary" summary) by done.
  cbn. by rewrite append_empty_r.
Qed.

Lemma render_items_unsupplied (expand : string -> result string)
    (kwargs : list (string * json)) (items : list item) (f : field) :
  Field f ∈ items → dict_get kwargs (arg_name f) = None →
  raises (render_items expand kwargs items).
Proof.
  intros Hin Hk. induction items as [|i items IH]; [by apply elem_of_nil in Hin|].
  cbn [render_items]. apply elem_of_cons in Hin as [<- | Hin].
  - apply raises_bind. cbn. unfold render_field, arg_name in *.
    destruct (field_name_split (f_name f)) as [first rest].
    apply raises_bind. by apply get_arg_unsupplied.
  - destruct (render_item expand kwargs i) as [s|e]; [|by exists e].
    cbn. apply raises_bind. by apply IH.
Qed.

Lemma str_format_unsupplied (t k : string) (kwargs : list (string * json)) :
  references t k → dict_get kwargs k = None → raises (str_format t kwargs).
Proof.
  intros (f & Hin & <-) Hk. unfold str_format. cbn [build_string].
  destruct (parse_template t) as [items err]. apply raises_bind.
  by eapply render_items_unsupplied.
Qed.

Lemma build_message_with_alerts (kvs : list (string * json)) (alerts : json)
    (custom : option string) :
  dict_get kvs "alerts" = Some alerts →
  build_message (JObj kvs) custom
  = (entries ← py_iter alerts;
     messages ← for_each (alert_line (effective_template custom)) entries;
     Ok (String.concat nl messages)).
Proof.
  intros Ha. unfold build_message. cbn. rewrite Ha. cbn.
  by destruct (py_iter alerts).
Qed.

Lemma build_message_without_alerts (kvs : list (string * json)) (custom : option string) :
  dict_get kvs "alerts" = None →
  build_message (JObj kvs) custom
  = if bool_decide (is_Some (dict_get kvs "title"))
       && bool_decide (is_Some (dict_get kvs "state"))
    then state_line (effective_template custom) (JObj kvs)
    else Ok "".
Proof.
  intros Ha. unfold build_message. cbn. rewrite Ha.
  change (bool_decide (is_Some (@None json))) with false.
  destruct (bool_decide (is_Some (dict_get kvs "title"))); cbn; [|done].
  destruct (bool_decide (is_Some (dict_get kvs "state"))); cbn; [|done].
  by destruct (state_line _ _).
Qed.

Lemma state_line_fields (t : string) (kvs : list (string * json)) (state : json) :
  dict_get kvs "state" = Some state →
  state_line t (JObj kvs) = str_format t (state_fields kvs state).
Proof. intros Hs. unfold state_line, state_fields. cbn. by rewrite Hs. Qed.

Lemma build_message_join (kvs : list (string * json)) (entries : list json)
    (custom : option string) (lines : list string) :
  dict_get kvs "alerts" = Some (JArr entries) →
  Forall (fun a => alert_entry a = true) entries →
  Forall2 (fun a line =>
             str_format (effective_template custom) (alert_fields a) = Ok line)
          entries lines →
  build_message (JObj kvs) custom = Ok (String.concat nl lines).
Proof.
  intros Ha Hwf Hlines.
  rewrite (build_message_with_alerts kvs (JArr entries)) by done. cbn.
  rewrite (for_each_Forall2 _ entries lines); [done|].
  clear Ha. induction Hlines as [|a line entries lines Hl _ IH]; [constructor|].
  apply Forall_cons in Hwf as [Hwa Hwf]. constructor; [|by apply IH].
  by rewrite alert_line_fields.
Qed.

(** C1.  A payload whose alerts field is a sequence of N alert entries
    yields the N lines that the template gives for the entries, in entry
    order, each formatted with status (default firing), summary (default
    No summary), description and alertname (default empty), joined by one
    newline; the output ends with the last line. *)
Theorem build_message_alerts (kvs : list (string * json)) (entries : list json)
    (custom : option string) (lines : list string) :
  dict_get kvs "alerts" = Some (JArr entries) →
  Forall (fun a => alert_entry a = true) entries →
  Forall2 (fun a line =>
             str_format (effective_template custom) (alert_fields a) = Ok line)
          entries lines →
  build_message (JObj kvs) custom = Ok (String.concat nl lines)
  ∧ length lines = length entries
  ∧ (∀ pre last, lines = pre ++ [last] →
                 ∃ head, String.concat nl lines = head +:+ last).
Proof.
  intros Ha Hwf Hlines. split_and!.
  - by apply (build_message_join kvs entries).
  - symmetry. by eapply Forall2_length.
  - intros pre last ->. apply concat_nl_last.
Qed.

(** With the built-in template every line is the status and the summary,
    whatever the values are: formatting cannot fail. *)
Lemma default_template_alerts (kvs : list (string * json)) (entries : list json) :
  dict_get kvs "alerts" = Some (JArr entries) →
  Forall (fun a => alert_entry a = true) entries →
  build_message (JObj kvs) None
  = Ok (String.concat nl
          ((fun a =>
              value_text (default (JStr "firing") (json_path a ["status"]))
              +:+ " " +:+
              value_text (default (JStr "No summary")
                            (json_path a ["annotations"; "summary"])))
           <$> entries)).
Proof.
  intros Ha Hwf. apply (build_message_join kvs entries); [done..|].
  apply Forall2_fmap_r, Forall_Forall2_diag, Forall_forall. intros a _.
  by apply default_template_line.
Qed.

Lemma is_str_elem (k : string) (xs : list json) :
  existsb (is_str k) xs = false ↔ JStr k ∉ xs.
Proof.
  induction xs as [|x xs IH]; cbn [existsb].
  - split; [by intros _ ?%elem_of_nil | done].
  - rewrite orb_false_iff, IH, not_elem_of_cons. split; intros [Hx Hxs]; (split; [|done]).
    + intros <-. cbn in Hx. by rewrite bool_decide_eq_true_2 in Hx.
    + destruct x as [| | |s| |]; try done. cbn.
      apply bool_decide_eq_false_2. by intros ->.
Qed.

Lemma str_contains_not (needle hay : string) :
  ¬ has_substring needle hay → str_contains needle hay = false.
Proof.
  intros Hn. destruct (str_contains needle hay) eqn:Hc; [|done].
  by apply str_contains_substring in Hc.
Qed.

(** C6, as the code has it.  An object payload without alerts that has
    both title and state yields the one line the template gives for state
    as status, message as summary (default No message) and ruleName as
    alertname (default empty); an object payload without alerts that lacks
    title or state yields the empty string, and so does a list or a text
    that holds neither alerts nor both of title and state; null, a
    boolean and a number raise TypeError. *)
Theorem build_message_state_form (kvs : list (string * json)) (custom : option string) :
  dict_get kvs "alerts" = None →
  (∀ title state,
     dict_get kvs "title" = Some title → dict_get kvs "state" = Some state →
     build_message (JObj kvs) custom
     = str_format (effective_template custom) (state_fields kvs state))
  ∧ (dict_get kvs "title" = None ∨ dict_get kvs "state" = None →
     build_message (JObj kvs) custom = Ok "")
  ∧ build_message
      (JObj [("title", JStr "x"); ("state", JStr "resolved");
             ("message", JStr "all good"); ("ruleName", JStr "R1")]) None
    = Ok "resolved all good"
  ∧ (∀ xs,
       (JStr "alerts" ∉ xs) → (JStr "title" ∉ xs) ∨ (JStr "state" ∉ xs) →
       build_message (JArr xs) custom = Ok "")
  ∧ (∀ s,
       ¬ has_substring "alerts" s →
       ¬ has_substring "title" s ∨ ¬ has_substring "state" s →
       build_message (JStr s) custom = Ok "")
  ∧ build_message JNull custom = Raise TypeError
  ∧ (∀ b, build_message (JBool b) custom = Raise TypeError)
  ∧ (∀ n, build_message (JNum n) custom = Raise TypeError).
Proof.
  intros Ha. split_and!; [| | | | |done..].
  - intros title state Ht Hs. rewrite build_message_without_alerts by done.
    rewrite Ht, Hs, !bool_decide_eq_true_2 by eauto. cbn.
    by apply state_line_fields.
  - intros Hmiss. rewrite build_message_without_alerts by done.
    destruct Hmiss as [-> | ->].
    + done.
    + change (bool_decide (is_Some (@None json))) with false.
      by rewrite andb_false_r.
  - rewrite build_message_without_alerts by done. cbn.
    rewrite (state_line_fields _ _ (JStr "resolved")) by done.
    by rewrite (default_template_line _ (JStr "resolved") (JStr "all good")).
  - intros xs Halerts%is_str_elem Hmiss. unfold build_message. cbn [py_in].
    rewrite Halerts. cbn.
    destruct Hmiss as [Ht%is_str_elem | Hs%is_str_elem].
    + by rewrite Ht.
    + rewrite Hs. by destruct (existsb (is_str "title") xs).
  - intros s Halerts%str_contains_not Hmiss. unfold build_message. cbn [py_in].
    rewrite Halerts. cbn.
    destruct Hmiss as [Ht%str_contains_not | Hs%str_contains_not].
    + by rewrite Ht.
    + rewrite Hs. by destruct (str_contains "title" s).
Qed.

Lemma alert_line_unsupplied (t k : string) (a : json) :
  references t k → k ∉ ["status"; "summary"; "description"; "alertname"] →
  raises (alert_line t a).
Proof.
  intros Href Hk. unfold alert_line.
  destruct (py_get a "status" _) as [status|e]; [cbn|by exists e].
  destruct (py_get a "annotations" _) as [annotations|e]; [cbn|by exists e].
  destruct (py_get annotations "summary" _) as [summary|e]; [cbn|by exists e].
  destruct (py_get annotations "description" _) as [description|e]; [cbn|by exists e].
  destruct (py_get a "labels" _) as [labels|e]; [cbn|by exists e].
  destruct (py_get labels "alertname" _) as [alertname|e]; [cbn|by exists e].
  apply (str_format_unsupplied t k); [done|].
  cbn. repeat case_decide; set_solver.
Qed.

Lemma state_line_unsupplied (t k : string) (kvs : list (string * json)) :
  references t k → k ∉ ["status"; "summary"; "alertname"] →
  raises (state_line t (JObj kvs)).
Proof.
  intros Href Hk. unfold state_line. cbn.
  apply (str_format_unsupplied t k); [done|].
  cbn. repeat case_decide; set_solver.
Qed.

Lemma description_template_line (kwargs : list (string * json)) :
  str_format "{description}" kwargs
  = match dict_get kwargs "description" with
    | Some v => Ok (value_text v)
    | None => Raise (KeyError "description")
    end.
Proof.
  unfold str_format. cbn [build_string].
  replace (parse_template "{description}") with
    ([Lit ""; Field {| f_name := "description"; f_conv := None; f_spec := "" |};
      Lit ""], @None exn) by (vm_compute; reflexivity).
  cbn [render_items render_item].
  destruct (dict_get kwargs "description") as [v|] eqn:Hd.
  - rewrite (render_field_plain _ kwargs "description" v) by done.
    cbn. by rewrite append_empty_r.
  - by rewrite (render_field_missing _ kwargs "description").
Qed.

(** C7, as the code has it.  When the template is formatted, a field
    whose argument the detected form does not supply raises: always for
    the state form, and for a payload with alerts as soon as it has one
    entry.  The template {description} raises KeyError for the state form
    and gives the descriptions for alert entries. *)
Theorem unsupplied_placeholder_raises (kvs : list (string * json)) (t k : string) :
  str_truthy t = true → references t k →
  (∀ title state,
     dict_get kvs "alerts" = None →
     dict_get kvs "title" = Some title → dict_get kvs "state" = Some state →
     k ∉ ["status"; "summary"; "alertname"] →
     raises (build_message (JObj kvs) (Some t)))
  ∧ (∀ a rest,
       dict_get kvs "alerts" = Some (JArr (a :: rest)) →
       k ∉ ["status"; "summary"; "description"; "alertname"] →
       raises (build_message (JObj kvs) (Some t)))
  ∧ (∀ title state,
       dict_get kvs "alerts" = None →
       dict_get kvs "title" = Some title → dict_get kvs "state" = Some state →
       build_message (JObj kvs) (Some "{description}")
       = Raise (KeyError "description"))
  ∧ (∀ entries,
       dict_get kvs "alerts" = Some (JArr entries) →
       Forall (fun a => alert_entry a = true) entries →
       build_message (JObj kvs) (Some "{description}")
       = Ok (String.concat nl
               ((fun a => value_text (default (JStr "")
                            (json_path a ["annotations"; "description"])))
                <$> entries))).
Proof.
  intros Ht Href. split_and!.
  - intros title state Ha Hti Hst Hk.
    rewrite build_message_without_alerts by done.
    rewrite Hti, Hst, !bool_decide_eq_true_2 by eauto. cbn. rewrite Ht.
    by apply (state_line_unsupplied t k).
  - intros a rest Ha Hk.
    rewrite (build_message_with_alerts kvs (JArr (a :: rest))) by done. cbn.
    rewrite Ht. apply raises_bind, raises_bind.
    by apply (alert_line_unsupplied t k).
  - intros title state Ha Hti Hst.
    rewrite build_message_without_alerts by done.
    rewrite Hti, Hst, !bool_decide_eq_true_2 by eauto. cbn.
    rewrite (state_line_fields _ _ state) by done.
    by rewrite description_template_line.
  - intros entries Ha Hwf.
    apply (build_message_join kvs entries); [done..|].
    apply Forall2_fmap_r, Forall_Forall2_diag, Forall_forall. intros a _.
    by rewrite description_template_line.
Qed.

End MessageFacts.

(** C1 witness: the disk-full scenario under the built-in template. *)
Lemma build_message_alerts_witness :
  @build_message sample_runtime (JObj disk_full_payload) None
  = Ok (String.concat nl ["firing disk full"])
  ∧ length ["firing disk full"] = length [disk_full_alert]
  ∧ (∀ pre last, ["firing disk full"] = pre ++ [last] →
                 ∃ head, String.concat nl ["firing disk full"] = head +:+ last).
Proof.
  apply (@build_message_alerts sample_runtime disk_full_payload [disk_full_alert]
           None ["firing disk full"]).
  - reflexivity.
  - repeat constructor.
  - repeat constructor.
Defined.

(** C6 witness: the all-good scenario. *)
Lemma build_message_state_form_witness :
  (∀ title state,
     dict_get all_good_payload "title" = Some title →
     dict_get all_good_payload "state" = Some state →
     @build_message sample_runtime (JObj all_good_payload) None
     = @str_format sample_runtime (effective_template None)
         (state_fields all_good_payload state))
  ∧ (dict_get all_good_payload "title" = None
     ∨ dict_get all_good_payload "state" = None →
     @build_message sample_runtime (JObj all_good_payload) None = Ok "")
  ∧ @build_message sample_runtime
      (JObj [("title", JStr "x"); ("state", JStr "resolved");
             ("message", JStr "all good"); ("ruleName", JStr "R1")]) None
    = Ok "resolved all good"
  ∧ (∀ xs,
       (JStr "alerts" ∉ xs) → (JStr "title" ∉ xs) ∨ (JStr "state" ∉ xs) →
       @build_message sample_runtime (JArr xs) None = Ok "")
  ∧ (∀ s,
       ¬ has_substring "alerts" s →
       ¬ has_substring "title" s ∨ ¬ has_substring "state" s →
       @build_message sample_runtime (JStr s) None = Ok "")
  ∧ @build_message sample_runtime JNull None = Raise TypeError
  ∧ (∀ b, @build_message sample_runtime (JBool b) None = Raise TypeError)
  ∧ (∀ n, @build_message sample_runtime (JNum n) None = Raise TypeError).
Proof.
  apply (@build_message_state_form sample_runtime all_good_payload None).
  reflexivity.
Defined.

(** C6 fails as stated: a payload that is no object, list or text has no
    alerts and not both title and state, and yet the message is not the
    empty string: the membership test raises. *)
Lemma neither_variant_payload_raises :
  @build_message sample_runtime JNull None = Raise TypeError
  ∧ @build_message sample_runtime (JNum 5) None = Raise TypeError
  ∧ @build_message sample_runtime (JBool false) None = Raise TypeError.
Proof. split_and!; vm_compute; reflexivity. Qed.

Lemma references_foo : references "{foo}" "foo".
Proof.
  exists {| f_name := "foo"; f_conv := None; f_spec := "" |}. split; [|reflexivity].
  change ((parse_template "{foo}").1) with
    [Lit ""; Field {| f_name := "foo"; f_conv := None; f_spec := "" |}; Lit ""].
  apply list_elem_of_further, list_elem_of_here.
Defined.

(** C7 witness: the template {foo} on the all-good payload. *)
Lemma unsupplied_placeholder_raises_witness :
  (∀ title state,
     dict_get all_good_payload "alerts" = None →
     dict_get all_good_payload "title" = Some title →
     dict_get all_good_payload "state" = Some state →
     "foo" ∉ ["status"; "summary"; "alertname"] →
     raises (@build_message sample_runtime (JObj all_good_payload) (Some "{foo}")))
  ∧ (∀ a rest,
       dict_get all_good_payload "alerts" = Some (JArr (a :: rest)) →
       "foo" ∉ ["status"; "summary"; "description"; "alertname"] →
       raises (@build_message sample_runtime (JObj all_good_payload) (Some "{foo}")))
  ∧ (∀ title state,
       dict_get all_good_payload "alerts" = None →
       dict_get all_good_payload "title" = Some title →
       dict_get all_good_payload "state" = Some state →
       @build_message sample_runtime (JObj all_good_payload) (Some "{description}")
       = Raise (KeyError "description"))
  ∧ (∀ entries,
       dict_get all_good_payload "alerts" = Some (JArr entries) →
       Forall (fun a => alert_entry a = true) entries →
       @build_message sample_runtime (JObj all_good_payload) (Some "{description}")
       = Ok (String.concat nl
               ((fun a => @value_text sample_runtime (default (JStr "")
                            (json_path a ["annotations"; "description"])))
                <$> entries))).
Proof.
  apply (@unsupplied_placeholder_raises sample_runtime all_good_payload "{foo}" "foo").
  - reflexivity.
  - exact references_foo.
Defined.

(** C7 fails as stated: with an empty alerts sequence the template is
    never formatted, so a field it cannot supply raises nothing. *)
Lemma empty_alerts_never_format :
  references "{foo}" "foo"
  ∧ ("foo" ∉ ["status"; "summary"; "description"; "alertname"])
  ∧ @build_message sample_runtime (JObj [("alerts", JArr [])]) (Some "{foo}") = Ok "".
Proof.
  split_and!.
  - exact references_foo.
  - apply (bool_decide_unpack _). vm_compute. exact I.
  - vm_compute. reflexivity.
Qed.

(** ** The dispatcher *)

Lemma raise_ends_app (evs tail : list event) :
  raise_ends evs = true → forallb (fun ev => negb (is_post ev)) tail = true →
  raise_ends (evs ++ tail) = true.
Proof.
  intros Hevs Htail. induction evs as [|ev evs IH]; cbn in *.
  - induction tail as [|t tail IHt]; [done|]. cbn in *.
    apply andb_true_iff in Htail as [Ht Htail].
    destruct t as [r a| |]; cbn in *; try done; by apply IHt.
  - destruct (raised ev); [|by apply IH].
    rewrite forallb_app. by rewrite Hevs, Htail.
Qed.

Section DispatchFacts.
Context `{Network}.

Lemma requests_of_app (evs evs' : list event) :
  requests_of (evs ++ evs') = requests_of evs ++ requests_of evs'.
Proof. apply omap_app. Qed.

Lemma send_sms_app (numbers : list string) (message : string)
    (ps ps' : list json) (w : World) :
  send_sms numbers message (ps ++ ps') w
  = let '(evs, w1) := send_sms numbers message ps w in
    let '(evs', w2) := send_sms numbers message ps' w1 in
    (evs ++ evs', w2).
Proof.
  revert w. induction ps as [|p ps IH]; intros w; cbn.
  - by destruct (send_sms numbers message ps' w).
  - destruct (send_provider numbers message p w) as [evs0 w0].
    rewrite IH. destruct (send_sms numbers message ps w0) as [evs1 w1].
    destruct (send_sms numbers message ps' w1) as [evs2 w2].
    by rewrite app_assoc.
Qed.

Lemma send_provider_skip (numbers : list string) (message : string)
    (p : json) (w : World) :
  py_truthy (provider_url p) = false → send_provider numbers message p w = ([], w).
Proof. intros Hu. unfold send_provider. by rewrite Hu. Qed.

Lemma sms_loop_requests (url headers : json) (message : string)
    (numbers : list string) (seen : gset string) (w : World) :
  no_raise (sms_loop url headers message seen numbers w).1.1 = true →
  requests_of (sms_loop url headers message seen numbers w).1.1
  = sms_request url headers message
    <$> filter (fun x => x ∉ seen) (dedup_first numbers)
  ∧ (sms_loop url headers message seen numbers w).1.2 = None.
Proof.
  revert seen w. induction numbers as [|n numbers IH]; intros seen w; [done|].
  cbn [sms_loop]. case_bool_decide as Hseen.
  - rewrite dedup_first_seen by done. apply IH.
  - rewrite dedup_first_fresh by done.
    destruct (post w _) as [[resp|e] w1]; [|done].
    specialize (IH ({[n]} ∪ seen) w1).
    destruct (sms_loop url headers message ({[n]} ∪ seen) numbers w1)
      as [[evs err] w2].
    cbn in *. intros Hnr. destruct (IH Hnr) as [-> ->]. done.
Qed.

Lemma sms_loop_raise_ends (url headers : json) (message : string)
    (numbers : list string) (seen : gset string) (w : World) :
  raise_ends (sms_loop url headers message seen numbers w).1.1 = true.
Proof.
  revert seen w. induction numbers as [|n numbers IH]; intros seen w; [done|].
  cbn [sms_loop]. case_bool_decide as Hseen; [apply IH|].
  destruct (post w _) as [[resp|e] w1]; [|done].
  specialize (IH ({[n]} ∪ seen) w1).
  by destruct (sms_loop url headers message ({[n]} ∪ seen) numbers w1) as [[evs err] w2].
Qed.

Lemma send_provider_requests (numbers : list string) (message : string)
    (p : json) (w : World) :
  has_url p →
  no_raise (send_provider numbers message p w).1 = true →
  requests_of (send_provider numbers message p w).1
  = expected_requests numbers message p.
Proof.
  intros (u & Hu & Htruthy). unfold send_provider, expected_requests.
  rewrite Hu. cbn [py_truthy py_in]. rewrite Htruthy. cbn [negb].
  destruct (str_contains "/hooks/" u).
  - unfold send_webhook. by destruct (post w _) as [[resp|e] w1].
  - pose proof (sms_loop_requests (JStr u) (provider_headers p) message numbers ∅ w)
      as Hloop.
    destruct (sms_loop (JStr u) (provider_headers p) message ∅ numbers w)
      as [[evs err] w1].
    cbn [fst snd] in *. unfold no_raise. rewrite forallb_app.
    intros [Hnr _]%andb_true_iff.
    destruct (Hloop Hnr) as [Hreq ->].
    rewrite requests_of_app, Hreq. cbn. rewrite app_nil_r.
    by rewrite filter_not_seen.
Qed.

Lemma send_provider_first (numbers : list string) (message : string)
    (p : json) (u : string) (w : World) :
  provider_url p = JStr u → str_truthy u = true →
  (str_contains "/hooks/" u = true →
   webhook_request (JStr u) (provider_headers p) message
   ∈ requests_of (send_provider numbers message p w).1)
  ∧ (∀ n rest, str_contains "/hooks/" u = false → numbers = n :: rest →
       sms_request (JStr u) (provider_headers p) message n
       ∈ requests_of (send_provider numbers message p w).1).
Proof.
  intros Hu Htruthy. unfold send_provider.
  rewrite Hu. cbn [py_truthy py_in]. rewrite Htruthy. cbn [negb]. split.
  - intros ->. unfold send_webhook.
    destruct (post w _) as [[resp|e] w1]; cbn; apply list_elem_of_here.
  - intros n rest -> ->. cbn [sms_loop].
    rewrite bool_decide_eq_false_2 by set_solver.
    destruct (post w _) as [[resp|e] w1]; [|cbn; apply list_elem_of_here].
    destruct (sms_loop _ _ _ _ rest w1) as [[evs err] w2].
    cbn. apply list_elem_of_here.
Qed.

Lemma send_provider_raise_ends (numbers : list string) (message : string)
    (p : json) (w : World) :
  raise_ends (send_provider numbers message p w).1 = true.
Proof.
  unfold send_provider. destruct (negb _); [done|].
  destruct (py_in "/hooks/" (provider_url p)) as [[|]|e].
  - unfold send_webhook. by destruct (post w _) as [[resp|e] w1].
  - pose proof (sms_loop_raise_ends (provider_url p) (provider_headers p)
                  message numbers ∅ w) as Hloop.
    destruct (sms_loop _ _ _ _ numbers w) as [[evs err] w1].
    cbn in *. apply raise_ends_app; [done|]. by destruct err.
  - done.
Qed.

(** A request that raised has its exception printed for its provider. *)
Lemma send_provider_caught (numbers : list string) (message : string)
    (p : json) (w : World) (r : request) (e : exn) :
  Posted r (Raise e) ∈ (send_provider numbers message p w).1 →
  (p, e) ∈ failures_of (send_provider numbers message p w).1.
Proof.
  unfold send_provider. destruct (negb _); [by intros ?%elem_of_nil|].
  assert (∀ url headers seen w0,
            Posted r (Raise e) ∈ (sms_loop url headers message seen numbers w0).1.1 →
            (sms_loop url headers message seen numbers w0).1.2 = Some e) as Hloop.
  { intros url headers. induction numbers as [|n numbers IH]; intros seen w0.
    - by intros ?%elem_of_nil.
    - cbn [sms_loop]. case_bool_decide; [apply IH|].
      destruct (post w0 _) as [[resp|e0] w1].
      + specialize (IH ({[n]} ∪ seen) w1).
        destruct (sms_loop _ _ _ _ numbers w1) as [[evs err] w2]. cbn in *.
        rewrite !elem_of_cons. intros [? | [? | Hin]]; [done..|]. by apply IH.
      + cbn. rewrite list_elem_of_singleton. by intros [= -> ->]. }
  destruct (py_in "/hooks/" (provider_url p)) as [[|]|e0].
  - unfold send_webhook. destruct (post w _) as [[resp|e0] w1]; cbn.
    + rewrite !elem_of_cons. intros [? | [? | [? | ?%elem_of_nil]]]; done.
    + rewrite !elem_of_cons. intros [[= -> ->] | [? | [? | ?%elem_of_nil]]]; try done.
      by left.
  - specialize (Hloop (provider_url p) (provider_headers p) ∅ w).
    destruct (sms_loop _ _ _ _ numbers w) as [[evs err] w1]. cbn in *.
    rewrite elem_of_app. intros [Hin | Hin].
    + rewrite (Hloop Hin). unfold failures_of. rewrite omap_app, elem_of_app.
      right. cbn. apply list_elem_of_here.
    + exfalso. destruct err; cbn in Hin.
      * apply elem_of_cons in Hin as [? | Hin]; [done|].
        apply elem_of_cons in Hin as [? | Hin]; [done|]. by apply elem_of_nil in Hin.
      * apply elem_of_cons in Hin as [? | Hin]; [done|]. by apply elem_of_nil in Hin.
  - cbn. rewrite !elem_of_cons. intros [? | [? | ?%elem_of_nil]]; done.
Qed.

Lemma no_raise_app (evs evs' : list event) :
  no_raise (evs ++ evs') = true ↔ no_raise evs = true ∧ no_raise evs' = true.
Proof. unfold no_raise. by rewrite forallb_app, andb_true_iff. Qed.

(** The specification's reading of a provider agrees with the code's. *)
Lemma endpoint_url_provider (p : json) : provider_url p = endpoint_url p.
Proof. by destruct p. Qed.

Lemma endpoint_headers_provider (p : json) : provider_headers p = endpoint_headers p.
Proof. by destruct p. Qed.

Lemma no_url_falsy (url : json) : negb (py_truthy url) = no_url url.
Proof.
  destruct url as [|[|]|n|s|xs|kvs]; try done.
  - by destruct n.
  - by destruct s.
  - by destruct xs.
  - by destruct kvs.
Qed.

Lemma dict_get_keys (kvs : list (string * json)) (k : string) :
  is_Some (dict_get kvs k) ↔ k ∈ kvs.*1.
Proof.
  induction kvs as [|[k' v] kvs IH]; cbn [dict_get fmap list_fmap fst].
  - split; [by intros [? [=]] | by intros ?%elem_of_nil].
  - rewrite elem_of_cons. destruct (decide (k' = k)) as [->|Hk].
    + split; [by left | by eexists].
    + rewrite IH. naive_solver.
Qed.

Lemma names_hook_in (url : json) :
  py_in "/hooks/" url
  = match names_hook url with
    | Some b => Ok b
    | None => Raise TypeError
    end.
Proof.
  destruct url as [| | |u|xs|kvs]; cbn [py_in names_hook]; try done.
  - f_equal. symmetry. destruct (str_contains "/hooks/" u) eqn:Hc.
    + apply bool_decide_eq_true_2. by apply str_contains_substring.
    + apply bool_decide_eq_false_2. intros Hs%str_contains_substring. congruence.
  - f_equal. apply bool_decide_ext, dict_get_keys.
Qed.

Lemma text_url_has_url (p : json) : text_url p → has_url p.
Proof.
  intros (u & Hu & Hne). exists u. rewrite endpoint_url_provider. split; [done|].
  by destruct u.
Qed.

Lemma expected_requests_due (numbers : list string) (message : string) (p : json) :
  text_url p → expected_requests numbers message p = due_requests numbers message p.
Proof.
  intros (u & Hu & Hne). unfold expected_requests, due_requests, service_of.
  rewrite endpoint_url_provider, endpoint_headers_provider, Hu.
  pose proof (names_hook_in (JStr u)) as Hin. cbn [py_in names_hook] in *.
  injection Hin as ->.
  assert (no_url (JStr u) = false) as -> by by destruct u.
  by destruct (bool_decide _).
Qed.

(** C2.  In a run where no request raises, the providers (each with a url
    that is a text and not empty) are served in list order: a url that
    holds /hooks/ gets one request with the JSON body text = message, any
    other url gets one form request receptor, message per number of the
    numbers deduplicated again here, in order; all carry the provider's
    url, the provider's headers and the timeout of ten seconds. *)
Theorem dispatch_requests (providers : list json) (numbers : list string)
    (message : string) (w : World) :
  Forall text_url providers →
  no_raise (send_sms numbers message providers w).1 = true →
  requests_of (send_sms numbers message providers w).1
  = concat (due_requests numbers message <$> providers).
Proof.
  intros Hurl. revert w. induction Hurl as [|p providers Hp _ IH]; intros w; [done|].
  cbn [send_sms fmap list_fmap concat].
  pose proof (send_provider_requests numbers message p w (text_url_has_url p Hp))
    as Hone.
  rewrite (expected_requests_due numbers message p Hp) in Hone.
  destruct (send_provider numbers message p w) as [evs w1].
  specialize (IH w1).
  destruct (send_sms numbers message providers w1) as [evs' w2].
  cbn [fst] in *. intros [Hnr Hnr']%no_raise_app.
  by rewrite requests_of_app, Hone, IH.
Qed.

(** C9.  A provider whose url is empty or absent is passed over: no
    request, no failure, no event at all, and the run is the run of the
    list without it. *)
Theorem skipped_provider (before after : list json) (p : json)
    (numbers : list string) (message : string) (w : World) :
  py_truthy (provider_url p) = false →
  send_provider numbers message p w = ([], w)
  ∧ requests_of (send_provider numbers message p w).1 = []
  ∧ failures_of (send_provider numbers message p w).1 = []
  ∧ send_sms numbers message (before ++ p :: after) w
    = send_sms numbers message (before ++ after) w.
Proof.
  intros Hu.
  assert (∀ w0, send_provider numbers message p w0 = ([], w0)) as Hskip
    by (intros w0; by apply send_provider_skip).
  split_and!.
  - apply Hskip.
  - by rewrite Hskip.
  - by rewrite Hskip.
  - rewrite !send_sms_app. destruct (send_sms numbers message before w) as [evs w1].
    cbn [send_sms]. rewrite Hskip.
    by destruct (send_sms numbers message after w1) as [evs' w2].
Qed.

(** The urls the specification calls empty or absent are skipped ones. *)
Lemma missing_url_falsy (kvs : list (string * json)) :
  py_truthy (provider_url (JStr "")) = false
  ∧ (dict_get kvs "url" = None → py_truthy (provider_url (JObj kvs)) = false)
  ∧ (dict_get kvs "url" = Some JNull → py_truthy (provider_url (JObj kvs)) = false)
  ∧ (dict_get kvs "url" = Some (JStr "") → py_truthy (provider_url (JObj kvs)) = false).
Proof. split_and!; [done|..]; cbn; by intros ->. Qed.

Lemma exchanges_of_app (evs evs' : list event) :
  exchanges_of (evs ++ evs') = exchanges_of evs ++ exchanges_of evs'.
Proof. apply omap_app. Qed.

Lemma failures_of_app (evs evs' : list event) :
  failures_of (evs ++ evs') = failures_of evs ++ failures_of evs'.
Proof. apply omap_app. Qed.

(** The loop over the numbers is the attempt of the requests of the
    numbers not seen yet, deduplicated. *)
Lemma sms_loop_attempt (url headers : json) (message : string)
    (numbers : list string) (seen : gset string) (w : World) :
  exchanges_of (sms_loop url headers message seen numbers w).1.1
  = (attempt (number_send url headers message
              <$> filter (fun x => x ∉ seen) (dedup_first numbers)) w).1.1
  ∧ failures_of (sms_loop url headers message seen numbers w).1.1 = []
  ∧ (sms_loop url headers message seen numbers w).1.2
    = (attempt (number_send url headers message
                <$> filter (fun x => x ∉ seen) (dedup_first numbers)) w).1.2
  ∧ (sms_loop url headers message seen numbers w).2
    = (attempt (number_send url headers message
                <$> filter (fun x => x ∉ seen) (dedup_first numbers)) w).2.
Proof.
  revert seen w. induction numbers as [|n numbers IH]; intros seen w; [done|].
  cbn [sms_loop]. case_bool_decide as Hseen.
  - rewrite dedup_first_seen by done. apply IH.
  - rewrite dedup_first_fresh by done. cbn [fmap list_fmap attempt].
    change (number_send url headers message n) with (sms_request url headers message n).
    destruct (post w (sms_request url headers message n)) as [[resp|e] w1]; [|done].
    specialize (IH ({[n]} ∪ seen) w1).
    destruct (sms_loop url headers message ({[n]} ∪ seen) numbers w1)
      as [[evs err] w2].
    destruct (attempt _ w1) as [[xs err'] w2'].
    cbn [fst snd] in *. destruct IH as (Hx & Hf & -> & ->).
    split_and!; [by rewrite <- Hx | exact Hf | done | done].
Qed.

(** One iteration of the loop over the providers is the provider served. *)
Lemma send_provider_serve (numbers : list string) (message : string)
    (p : json) (w : World) :
  exchanges_of (send_provider numbers message p w).1
  = (serve numbers message p w).1.1
  ∧ failures_of (send_provider numbers message p w).1
    = (serve numbers message p w).1.2
  ∧ (send_provider numbers message p w).2 = (serve numbers message p w).2.
Proof.
  unfold send_provider, serve, service_of.
  rewrite no_url_falsy, names_hook_in, endpoint_url_provider, endpoint_headers_provider.
  destruct (no_url (endpoint_url p)); [done|].
  destruct (names_hook (endpoint_url p)) as [[|]|]; [| |done].
  - unfold send_webhook. cbn [attempt].
    change (hook_send (endpoint_url p) (endpoint_headers p) message)
      with (webhook_request (endpoint_url p) (endpoint_headers p) message).
    by destruct (post w _) as [[resp|e] w1].
  - pose proof (sms_loop_attempt (endpoint_url p) (endpoint_headers p) message
                  numbers ∅ w) as Hloop.
    rewrite filter_not_seen in Hloop by done.
    destruct (sms_loop _ _ _ _ numbers w) as [[evs err] w1].
    destruct (attempt _ w) as [[xs err'] w1'].
    cbn [fst snd] in *. destruct Hloop as (Hx & Hf & -> & ->).
    rewrite exchanges_of_app, failures_of_app, Hx, Hf.
    split_and!; [|by destruct err'|done].
    destruct err'; cbn; by rewrite app_nil_r.
Qed.

(** C3, as the code has it.  Whatever the network does and whatever
    failed before, the run is the providers served in list order, each in
    full: the exchanges with the network are those of each provider's due
    requests, attempted in order up to the first of its own that raises;
    the failures printed are, provider by provider, the exception that
    ended that provider's own requests (or the TypeError of a url that
    cannot be asked for /hooks/); and the world left is the same.  So an
    error ends the requests of the provider it occurred in, and of no
    other. *)
Theorem failure_isolation (providers : list json) (numbers : list string)
    (message : string) (w : World) :
  exchanges_of (send_sms numbers message providers w).1
  = (serve_all numbers message providers w).1.1
  ∧ failures_of (send_sms numbers message providers w).1
    = (serve_all numbers message providers w).1.2
  ∧ (send_sms numbers message providers w).2
    = (serve_all numbers message providers w).2.
Proof.
  revert w. induction providers as [|p providers IH]; intros w; [done|].
  cbn [send_sms serve_all].
  pose proof (send_provider_serve numbers message p w) as Hone.
  destruct (send_provider numbers message p w) as [evs w1].
  destruct (serve numbers message p w) as [[xs failed] w1'].
  cbn [fst snd] in Hone. destruct Hone as (Hx & Hf & ->).
  specialize (IH w1').
  destruct (send_sms numbers message providers w1') as [evs' w2].
  destruct (serve_all numbers message providers w1') as [[xs' failed'] w2'].
  cbn [fst snd] in *. destruct IH as (Hx' & Hf' & ->).
  by rewrite exchanges_of_app, failures_of_app, Hx, Hf, Hx', Hf'.
Qed.

End DispatchFacts.

Section RouteFacts.
Context `{PyRuntime} `{Network}.

(** C5, as the code has it.  When the body decodes and the message builds,
    the response is status ok with the resolved numbers, whatever the
    network answers and whichever sends fail; for a team outside the
    fixed set the list is empty. *)
Theorem alert_ok (team raw : string) (fs : files) (w : World)
    (data : json) (message : string) :
  json_loads raw = Some data →
  build_message data (get_template fs) = Ok message →
  ∃ teams providers,
    (load_numbers fs).1 = Ok (teams, providers)
    ∧ (alert team raw fs w).1.1.1 = ok_response (resolve team teams)
    ∧ (alert team raw fs w).2 = (send_sms (resolve team teams) message providers w).1
    ∧ (team ∉ TEAMS → (alert team raw fs w).1.1.1 = ok_response []).
Proof.
  intros Hraw Hmsg.
  destruct (load_numbers_keys fs) as (st & _ & Hload & Hdom).
  exists (ld_teams st), (ld_providers st). unfold alert. rewrite Hraw.
  destruct (load_numbers fs) as [loaded fs1]. cbn [fst] in Hload. subst loaded.
  rewrite Hmsg.
  destruct (send_sms (resolve team (ld_teams st)) message (ld_providers st) w)
    as [evs w1].
  cbn [fst snd]. split_and!; [done..|].
  intros Hteam. unfold resolve.
  assert (ld_teams st !! team = None) as ->; [|done].
  apply not_elem_of_dom. rewrite Hdom. by rewrite elem_of_list_to_set.
Qed.

End RouteFacts.

Lemma has_url_chat_hook : has_url chat_hook.
Proof. by exists "https://chat.example/hooks/abc". Defined.

Lemma has_url_sms_gateway : has_url sms_gateway.
Proof. by exists "https://sms.example/send". Defined.

Lemma text_url_chat_hook : text_url chat_hook.
Proof. by exists "https://chat.example/hooks/abc". Defined.

Lemma text_url_sms_gateway : text_url sms_gateway.
Proof. by exists "https://sms.example/send". Defined.

(** C2 witness: one webhook send, then three SMS sends. *)
Lemma dispatch_requests_witness :
  requests_of
    (@send_sms scripted ["+1"; "+2"; "+3"] "disk full" [chat_hook; sms_gateway] []).1
  = [ {| r_url := JStr "https://chat.example/hooks/abc";
         r_body := JsonBody (JObj [("text", JStr "disk full")]);
         r_headers := JObj [("X-Auth-Token", JStr "t0")];
         r_timeout := 10 |};
      {| r_url := JStr "https://sms.example/send";
         r_body := FormBody [("receptor", "+1"); ("message", "disk full")];
         r_headers := JObj [];
         r_timeout := 10 |};
      {| r_url := JStr "https://sms.example/send";
         r_body := FormBody [("receptor", "+2"); ("message", "disk full")];
         r_headers := JObj [];
         r_timeout := 10 |};
      {| r_url := JStr "https://sms.example/send";
         r_body := FormBody [("receptor", "+3"); ("message", "disk full")];
         r_headers := JObj [];
         r_timeout := 10 |} ].
Proof.
  change (requests_of
            (@send_sms scripted ["+1"; "+2"; "+3"] "disk full"
               [chat_hook; sms_gateway] []).1
          = concat (due_requests ["+1"; "+2"; "+3"] "disk full"
                    <$> [chat_hook; sms_gateway])).
  apply (@dispatch_requests scripted [chat_hook; sms_gateway] ["+1"; "+2"; "+3"]
           "disk full" []).
  - repeat constructor; [exact text_url_chat_hook | exact text_url_sms_gateway].
  - vm_compute. reflexivity.
Defined.

Example dispatch_scenario :
  requests_of
    (@send_sms scripted ["+1"; "+2"; "+3"] "disk full" [chat_hook; sms_gateway] []).1
  = [webhook_request (JStr "https://chat.example/hooks/abc")
       (JObj [("X-Auth-Token", JStr "t0")]) "disk full";
     sms_request sms_gateway (JObj []) "disk full" "+1";
     sms_request sms_gateway (JObj []) "disk full" "+2";
     sms_request sms_gateway (JObj []) "disk full" "+3"].
Proof. vm_compute. reflexivity. Qed.

(** C9 witness: a provider without url between two others. *)
Lemma skipped_provider_witness :
  @send_provider scripted ["+1"] "disk full" no_url_provider [] = ([], [])
  ∧ requests_of (@send_provider scripted ["+1"] "disk full" no_url_provider []).1 = []
  ∧ failures_of (@send_provider scripted ["+1"] "disk full" no_url_provider []).1 = []
  ∧ @send_sms scripted ["+1"] "disk full"
      ([chat_hook] ++ no_url_provider :: [sms_gateway]) []
    = @send_sms scripted ["+1"] "disk full" ([chat_hook] ++ [sms_gateway]) [].
Proof.
  apply (@skipped_provider scripted [chat_hook] [sms_gateway] no_url_provider
           ["+1"] "disk full" []).
  reflexivity.
Defined.

(** C3 fails as stated: the gateway refuses the send to +1, and +2 is
    never sent to that gateway; the next provider still gets both. *)
Lemma raise_skips_remaining_numbers :
  requests_of
    (@send_sms scripted ["+1"; "+2"] "disk full" [sms_gateway; sms_backup] [refused]).1
  = [sms_request sms_gateway (JObj []) "disk full" "+1";
     sms_request sms_backup (JObj []) "disk full" "+1";
     sms_request sms_backup (JObj []) "disk full" "+2"]
  ∧ failures_of
      (@send_sms scripted ["+1"; "+2"] "disk full" [sms_gateway; sms_backup] [refused]).1
    = [(sms_gateway, RequestException "connection refused")]
  ∧ (sms_request sms_gateway (JObj []) "disk full" "+2"
     ∉ requests_of
         (@send_sms scripted ["+1"; "+2"] "disk full" [sms_gateway; sms_backup]
            [refused]).1).
Proof.
  assert (requests_of
            (@send_sms scripted ["+1"; "+2"] "disk full" [sms_gateway; sms_backup]
               [refused]).1
          = [sms_request sms_gateway (JObj []) "disk full" "+1";
             sms_request sms_backup (JObj []) "disk full" "+1";
             sms_request sms_backup (JObj []) "disk full" "+2"]) as Hreq
    by (vm_compute; reflexivity).
  split_and!; [exact Hreq | vm_compute; reflexivity |].
  rewrite Hreq. intros Hin.
  repeat (apply elem_of_cons in Hin as [Heq | Hin]; [discriminate Heq|]).
  by apply elem_of_nil in Hin.
Qed.

(** C5 witness: a state-form request for devops under the built-in
    template. *)
Lemma alert_ok_witness :
  ∃ teams providers,
    (@load_numbers sample_runtime store_before).1 = Ok (teams, providers)
    ∧ (@alert sample_runtime scripted "devops" state_body store_before [refused]).1.1.1
      = ok_response (resolve "devops" teams)
    ∧ (@alert sample_runtime scripted "devops" state_body store_before [refused]).2
      = (@send_sms scripted (resolve "devops" teams) "resolved No message"
           providers [refused]).1
    ∧ ("devops" ∉ TEAMS →
       (@alert sample_runtime scripted "devops" state_body store_before [refused]).1.1.1
       = ok_response []).
Proof.
  apply (@alert_ok sample_runtime scripted "devops" state_body store_before [refused]
           state_data "resolved No message").
  - vm_compute. reflexivity.
  - vm_compute. reflexivity.
Defined.

(** C5 fails as stated: with the template {description} stored, a
    state-form request is answered by the KeyError, not by status ok. *)
Lemma unsupplied_template_fails_request :
  (@alert sample_runtime scripted "devops" state_body description_files []).1.1.1
  = ServerError (KeyError "description")
  ∧ (@load_numbers sample_runtime description_files).1
    = Ok (<["devops" := [ {| number := "+1"; desc := "ops" |} ]]> initial_teams, []).
Proof. split; vm_compute; reflexivity. Qed.

(** The unknown-team scenario: the response lists no number. *)
Example alert_unknown_team :
  (@alert sample_runtime scripted "qa" state_body store_before []).1.1.1
  = ok_response [].
Proof. vm_compute. reflexivity. Qed.

(** A file with an unknown section: its lines stay with the section open
    before it, and the teams never named keep their empty lists. *)
Example load_unknown_section :
  (@load_numbers sample_runtime
     {| numbers_file := Some (lines_text ["[devops]"; "+1 | ops"; "[qa]"; "+2"]);
        template_file := None |}).1
  = Ok (<["devops" := [ {| number := "+1"; desc := "ops" |};
                        {| number := "+2"; desc := "" |} ]]> initial_teams, [])
  ∧ section_missing "web" (lines_text ["[devops]"; "+1 | ops"; "[qa]"; "+2"]).
Proof.
  split; [vm_compute; reflexivity|].
  unfold section_missing.
  replace (splitlines (lines_text ["[devops]"; "+1 | ops"; "[qa]"; "+2"]))
    with ["[devops]"; "+1 | ops"; "[qa]"; "+2"] by (vm_compute; reflexivity).
  repeat constructor.
Qed.

(** Adding through the route: the number is saved under its team and
    under all, and the reloaded store is mirrored. *)
Example add_number_file :
  let teams' :=
    <["devops" := [plus_one; {| number := "+9"; desc := "ops" |}]]>
      (<["all" := [plus_one; {| number := "+9"; desc := "ops" |}]]> initial_teams) in
  ∃ fs',
    @add_number sample_runtime "devops" (Some "+9") "ops" store_before = (Ok (), fs')
    ∧ numbers_file fs'
      = Some (lines_text ["[all]"; "+1"; "+9 | ops"; ""; "[devops]"; "+1"; "+9 | ops"; "";
                          "[cloud]"; ""; "[web]"; ""; "[noc]"; ""; "[managers]"; "";
                          "[sms_provider]"])
    ∧ (@load_numbers sample_runtime fs').1 = Ok (teams', [])
    ∧ mirrored teams'.
Proof.
  cbv zeta. eexists. split_and!.
  - vm_compute. reflexivity.
  - vm_compute. reflexivity.
  - vm_compute. reflexivity.
  - apply (bool_decide_unpack _). vm_compute. exact I.
Qed.

(** A whole request: the gateway refuses +1, the response still lists both
    numbers. *)
Example alert_run :
  let ok := {| status_code := 200; text := "ok" |} in
  let hook := JStr "https://chat.example/hooks/abc" in
  @alert sample_runtime scripted "devops" state_body routed_files [Ok ok; refused]
  = (ok_response ["+1"; "+2"], routed_files, [],
     [Posted (webhook_request hook (JObj []) "resolved No message") (Ok ok);
      Printed (LogWebhook hook ok);
      Slept 1;
      Posted (sms_request sms_gateway (JObj []) "resolved No message" "+1") refused;
      Printed (LogFailed sms_gateway (RequestException "connection refused"));
      Slept 1]).
Proof. vm_compute. reflexivity. Qed.


(** * Further properties *)

(** ** Strings *)

Lemma str_truthy_app (a b : string) :
  str_truthy a = true → str_truthy (a +:+ b) = true.
Proof. by destruct a. Qed.

Lemma lstrip_length (s : string) : (String.length (lstrip s) ≤ String.length s)%nat.
Proof.
  induction s as [|c s IH]; [done|]. cbn [lstrip].
  destruct (is_space c); cbn [String.length]; lia.
Qed.

Lemma lstrip_head (c : ascii) (s : string) :
  lstrip (String c s) = String c s → is_space c = false.
Proof.
  cbn [lstrip]. destruct (is_space c); [|done]. intros Heq.
  pose proof (lstrip_length s) as Hlen. rewrite Heq in Hlen.
  cbn [String.length] in Hlen. lia.
Qed.

Lemma lstrip_app (a b : string) :
  str_truthy a = true → lstrip a = a → lstrip (a +:+ b) = a +:+ b.
Proof.
  destruct a as [|c a]; [done|]. intros _ Ha%lstrip_head.
  change (String c a +:+ b) with (String c (a +:+ b)). cbn [lstrip]. by rewrite Ha.
Qed.

Lemma rev_app_spec (a b : string) : String.rev_app a b = String.rev a +:+ b.
Proof.
  revert b. induction a as [|c a IH]; intros b; [done|].
  unfold String.rev. cbn [String.rev_app]. rewrite IH, (IH (String c "")).
  by rewrite append_assoc.
Qed.

Lemma rev_cons (c : ascii) (a : string) :
  String.rev (String c a) = String.rev a +:+ String c "".
Proof. unfold String.rev at 1. cbn [String.rev_app]. apply rev_app_spec. Qed.

Lemma rev_append (a b : string) :
  String.rev (a +:+ b) = String.rev b +:+ String.rev a.
Proof.
  induction a as [|c a IH]; [by rewrite append_empty_r|].
  change (String c a +:+ b) with (String c (a +:+ b)).
  by rewrite !rev_cons, IH, append_assoc.
Qed.

Lemma rev_involutive (a : string) : String.rev (String.rev a) = a.
Proof.
  induction a as [|c a IH]; [done|]. by rewrite rev_cons, rev_append, IH.
Qed.

Lemma rev_truthy (a : string) : str_truthy (String.rev a) = str_truthy a.
Proof.
  destruct a as [|c a]; [done|]. rewrite rev_cons. by destruct (String.rev a).
Qed.

Lemma rstrip_fixed (s : string) :
  rstrip s = s → lstrip (String.rev s) = String.rev s.
Proof.
  unfold rstrip. intros Hs. apply (f_equal String.rev) in Hs.
  by rewrite rev_involutive in Hs.
Qed.

Lemma rstrip_app (a b : string) :
  str_truthy b = true → rstrip b = b → rstrip (a +:+ b) = a +:+ b.
Proof.
  intros Hb Hfix%rstrip_fixed. unfold rstrip. rewrite rev_append.
  rewrite lstrip_app by (by rewrite ?rev_truthy).
  by rewrite rev_append, !rev_involutive.
Qed.

Lemma is_space_blank : is_space " " = true.
Proof. reflexivity. Qed.

Lemma rstrip_blank (n : string) : rstrip (n +:+ " ") = rstrip n.
Proof.
  unfold rstrip. rewrite rev_append.
  change (String.rev " " +:+ String.rev n) with (String " " (String.rev n)).
  cbn [lstrip]. by rewrite is_space_blank.
Qed.

Lemma trimmed_fixed (s : string) :
  trimmed s = true → lstrip s = s ∧ rstrip s = s.
Proof.
  unfold trimmed. intros [Hl Hr]%andb_true_iff.
  by apply bool_decide_eq_true in Hl, Hr.
Qed.

Lemma strip_trimmed (s : string) : trimmed s = true → strip s = s.
Proof. intros [Hl Hr]%trimmed_fixed. unfold strip. by rewrite Hl. Qed.

Lemma chars_app (a b : string) : chars (a +:+ b) = chars a ++ chars b.
Proof.
  induction a as [|c a IH]; [done|].
  change (String c a +:+ b) with (String c (a +:+ b)). cbn. f_equal. apply IH.
Qed.

Lemma one_line_app (a b : string) :
  one_line (a +:+ b) = one_line a && one_line b.
Proof. unfold one_line. by rewrite chars_app, forallb_app. Qed.

Lemma no_bar_app (a b : string) : no_bar (a +:+ b) = no_bar a && no_bar b.
Proof. unfold no_bar. by rewrite chars_app, forallb_app. Qed.

Lemma split_once_none (n : string) :
  no_bar n = true → split_once "|" n = (n, None).
Proof.
  induction n as [|c n IH]; [done|]. unfold no_bar. cbn [chars String.list_ascii_of_string forallb].
  intros [Hc Hn]%andb_true_iff. cbn [split_once].
  apply negb_true_iff, bool_decide_eq_false in Hc.
  rewrite decide_False by done. fold (chars n) in Hn. by rewrite (IH Hn).
Qed.

Lemma split_once_bar (n rest : string) :
  no_bar n = true → split_once "|" (n +:+ String "|" rest) = (n, Some rest).
Proof.
  induction n as [|c n IH]; [done|]. unfold no_bar. cbn [chars String.list_ascii_of_string forallb].
  intros [Hc Hn]%andb_true_iff.
  change (String c n +:+ String "|" rest) with (String c (n +:+ String "|" rest)).
  cbn [split_once]. apply negb_true_iff, bool_decide_eq_false in Hc.
  rewrite decide_False by done. fold (chars n) in Hn. by rewrite (IH Hn).
Qed.

Lemma startswith_app (a b : string) (c : ascii) :
  str_truthy a = true → startswith (a +:+ b) (String c "") = startswith a (String c "").
Proof.
  destruct a as [|x a]; [done|]. intros _.
  change (String x a +:+ b) with (String x (a +:+ b)). cbn [startswith].
  destruct (decide (c = x)); [|done]. by destruct (a +:+ b), a.
Qed.

Lemma section_line_no_bracket (line : string) :
  startswith line "[" = false → section_line line = false.
Proof. unfold section_line. by intros ->. Qed.

(** The saved line of an entry reads back as the entry. *)
Lemma entry_line_reads_back (e : entry) :
  entry_ok e = true →
  strip (entry_line e) = entry_line e
  ∧ str_truthy (entry_line e) = true
  ∧ section_line (entry_line e) = false
  ∧ one_line (entry_line e) = true
  ∧ parse_entry (entry_line e) = e.
Proof.
  destruct e as [n d]. unfold entry_ok, entry_line. cbn [number desc].
  rewrite !andb_true_iff, negb_true_iff.
  intros ((((((Hn & Htn) & Hln) & Hbar) & Hbr) & Htd) & Hld).
  destruct (trimmed_fixed n Htn) as [Hnl Hnr].
  destruct (trimmed_fixed d Htd) as [Hdl Hdr].
  destruct (str_truthy d) eqn:Hd.
  - split_and!.
    + unfold strip. rewrite lstrip_app by done.
      rewrite <- !append_assoc. by apply rstrip_app.
    + by apply str_truthy_app.
    + apply section_line_no_bracket. by rewrite startswith_app.
    + rewrite !one_line_app, Hln, Hld. done.
    + unfold parse_entry.
      change (n +:+ " | " +:+ d) with (n +:+ " " +:+ String "|" (" " +:+ d)).
      rewrite <- append_assoc.
      rewrite split_once_bar by (by rewrite no_bar_app, Hbar).
      f_equal.
      * unfold strip. rewrite lstrip_app by done. by rewrite rstrip_blank.
      * unfold strip. change (" " +:+ d) with (String " " d).
        cbn [lstrip]. rewrite is_space_blank. by rewrite Hdl.
  - destruct d; [|done]. split_and!.
    + by apply strip_trimmed.
    + done.
    + by apply section_line_no_bracket.
    + done.
    + unfold parse_entry. rewrite split_once_none by done.
      by rewrite strip_trimmed.
Qed.

Lemma concat_empty_cons (x : string) (xs : list string) :
  String.concat "" (x :: xs) = x +:+ String.concat "" xs.
Proof. destruct xs; cbn; [by rewrite append_empty_r | done]. Qed.

Lemma lines_text_cons (l : string) (ls : list string) :
  lines_text (l :: ls) = l +:+ nl +:+ lines_text ls.
Proof.
  unfold lines_text. cbn [fmap list_fmap].
  by rewrite concat_empty_cons, append_assoc.
Qed.

Lemma lines_text_app (ls ls' : list string) :
  lines_text (ls ++ ls') = lines_text ls +:+ lines_text ls'.
Proof.
  induction ls as [|l ls IH]; [done|].
  cbn [app]. by rewrite !lines_text_cons, IH, !append_assoc.
Qed.

Lemma splitlines_from_line (cur l rest : string) :
  one_line l = true →
  splitlines_from cur (l +:+ nl +:+ rest) = (cur +:+ l) :: splitlines_from "" rest.
Proof.
  revert cur. induction l as [|c l IH]; intros cur Hl.
  - rewrite append_empty_r. change ("" +:+ nl +:+ rest) with (String LF rest).
    cbn [splitlines_from].
    replace (is_linebreak LF) with true by reflexivity.
    replace (bool_decide (LF = CR)) with false by reflexivity.
    by destruct rest.
  - unfold one_line in Hl. cbn [chars String.list_ascii_of_string forallb] in Hl.
    apply andb_true_iff in Hl as [Hc Hl]. apply negb_true_iff in Hc.
    change (String c l +:+ nl +:+ rest) with (String c (l +:+ nl +:+ rest)).
    cbn [splitlines_from]. rewrite Hc, (IH _ Hl). unfold snoc.
    by rewrite append_assoc.
Qed.

Lemma splitlines_lines_text (ls : list string) :
  Forall (fun l => one_line l = true) ls → splitlines (lines_text ls) = ls.
Proof.
  unfold splitlines. induction 1 as [|l ls Hl _ IH]; [done|].
  by rewrite lines_text_cons, splitlines_from_line, IH.
Qed.

(** ** Saving and loading the store *)

Lemma entry_text_line (e : entry) : entry_text e = entry_line e +:+ nl.
Proof.
  unfold entry_text, entry_line. destruct (str_truthy (desc e)); [|done].
  by rewrite !append_assoc.
Qed.

Lemma entries_text_lines (entries : list entry) :
  String.concat "" (entry_text <$> entries) = lines_text (entry_line <$> entries).
Proof.
  unfold lines_text. rewrite <- list_fmap_compose. f_equal.
  apply list_fmap_ext. intros _ e _. apply entry_text_line.
Qed.

Lemma save_teams_lines (teams : gmap string (list entry)) (ts : list string)
    (out : string) :
  (∀ t, t ∈ ts → is_Some (teams !! t)) →
  save_teams teams ts out = (out +:+ lines_text (team_lines teams ts), None).
Proof.
  revert out. induction ts as [|t ts IH]; intros out Hall.
  - cbn. by rewrite append_empty_r.
  - destruct (Hall t) as [entries Ht]; [apply list_elem_of_here|].
    cbn [save_teams team_lines]. rewrite Ht. cbn [default from_option].
    rewrite IH by (intros t' Ht'; apply Hall; by apply list_elem_of_further).
    f_equal. rewrite lines_text_cons, lines_text_app, lines_text_cons.
    rewrite entries_text_lines. by rewrite !append_assoc.
Qed.

Lemma load_lines_app (H : PyRuntime) (st : load_state) (ls ls' : list string) :
  load_lines st (ls ++ ls') = (st' ← load_lines st ls; load_lines st' ls').
Proof.
  revert st. induction ls as [|l ls IH]; intros st; [done|].
  cbn. destruct (load_line st l) as [st1|e]; cbn; [apply IH | done].
Qed.

Lemma team_not_provider (t : string) : t ∈ TEAMS → t ≠ "sms_provider".
Proof. intros Ht ->. revert Ht. apply (bool_decide_eq_false_1 _). reflexivity. Qed.

Lemma header_line_facts (t : string) :
  t ∈ TEAMS →
  strip ("[" +:+ t +:+ "]") = "[" +:+ t +:+ "]"
  ∧ section_line ("[" +:+ t +:+ "]") = true
  ∧ strip (slice_1_m1 ("[" +:+ t +:+ "]")) = t
  ∧ one_line ("[" +:+ t +:+ "]") = true.
Proof.
  unfold TEAMS. rewrite !elem_of_cons.
  intros [-> | [-> | [-> | [-> | [-> | [-> | Hnil]]]]]];
    [by vm_compute..| by apply elem_of_nil in Hnil].
Qed.

Section SaveLoad.
Context `{PyRuntime}.

Lemma provider_text_line (p : json) : provider_text p = provider_line p +:+ nl.
Proof. by destruct p. Qed.

Lemma load_header (st : load_state) (t : string) :
  t ∈ TEAMS →
  load_line st ("[" +:+ t +:+ "]")
  = Ok {| ld_teams := ld_teams st; ld_providers := ld_providers st;
          current_team := Some t |}.
Proof.
  intros Ht. destruct (header_line_facts t Ht) as (Hs & Hsec & Hname & _).
  unfold load_line. rewrite Hs, Hsec, Hname.
  rewrite (str_truthy_app "[" _) by done. cbn [negb].
  by rewrite bool_decide_eq_true_2.
Qed.

Lemma load_provider_header (st : load_state) :
  load_line st "[sms_provider]"
  = Ok {| ld_teams := ld_teams st; ld_providers := ld_providers st;
          current_team := Some "sms_provider" |}.
Proof.
  unfold load_line.
  replace (strip "[sms_provider]") with "[sms_provider]" by (by vm_compute).
  replace (section_line "[sms_provider]") with true by (by vm_compute).
  replace (strip (slice_1_m1 "[sms_provider]")) with "sms_provider" by (by vm_compute).
  cbn [str_truthy negb].
  rewrite bool_decide_eq_false_2 by (intros Hin; by apply team_not_provider in Hin).
  by rewrite bool_decide_eq_true_2.
Qed.

Lemma load_entry (st : load_state) (t : string) (acc : list entry) (e : entry) :
  current_team st = Some t → t ∈ TEAMS → ld_teams st !! t = Some acc →
  entry_ok e = true →
  load_line st (entry_line e)
  = Ok {| ld_teams := <[t := acc ++ [e]]> (ld_teams st);
          ld_providers := ld_providers st; current_team := Some t |}.
Proof.
  intros Hcur Ht Hacc (Hs & Htr & Hsec & _ & Hparse)%entry_line_reads_back.
  unfold load_line. rewrite Hs, Htr, Hsec, Hcur, Hparse. cbn [negb].
  rewrite bool_decide_eq_false_2
    by (intros [= Heq]; by apply team_not_provider in Ht).
  rewrite bool_decide_eq_true_2 by done.
  unfold teams_append, teams_getitem. by rewrite Hacc.
Qed.

Lemma load_entries (entries : list entry) (st : load_state) (t : string)
    (acc : list entry) :
  current_team st = Some t → t ∈ TEAMS → ld_teams st !! t = Some acc →
  Forall (fun e => entry_ok e = true) entries →
  load_lines st (entry_line <$> entries)
  = Ok {| ld_teams := <[t := acc ++ entries]> (ld_teams st);
          ld_providers := ld_providers st; current_team := Some t |}.
Proof.
  intros Hcur Ht Hacc Hok. revert st acc Hcur Hacc.
  induction Hok as [|e entries He _ IH]; intros st acc Hcur Hacc.
  - cbn. rewrite app_nil_r, insert_id by done. destruct st. cbn in *. by subst.
  - cbn [fmap list_fmap load_lines].
    rewrite (load_entry st t acc e) by done. cbn.
    rewrite (IH _ (acc ++ [e])); [|done|cbn; by rewrite lookup_insert_eq].
    cbn. by rewrite insert_insert_eq, <- app_assoc.
Qed.

Lemma load_provider (st : load_state) (p : json) :
  current_team st = Some "sms_provider" → provider_ok p →
  load_line st (provider_line p)
  = Ok {| ld_teams := ld_teams st; ld_providers := ld_providers st ++ [p];
          current_team := current_team st |}.
Proof.
  intros Hcur Hok. unfold load_line.
  destruct p as [| | |s|xs|kvs]; try done; cbn [provider_ok provider_line] in *.
  - destruct Hok as (Hs & Htr & _ & Hbr & Hbrace).
    rewrite (strip_trimmed s Htr), Hs, (section_line_no_bracket s Hbr), Hcur.
    cbn [negb]. rewrite bool_decide_eq_true_2 by done.
    unfold parse_provider. by rewrite Hbrace.
  - destruct Hok as (Htr & _ & Hbrace & Hloads).
    rewrite (strip_trimmed _ Htr).
    assert (str_truthy (json_dumps (JObj kvs)) = true
            ∧ startswith (json_dumps (JObj kvs)) "[" = false) as [Hs Hbr].
    { destruct (json_dumps (JObj kvs)) as [|c line]; [done|]. split; [done|].
      cbn [startswith] in *. destruct (decide ("{"%char = c)) as [<-|]; done. }
    rewrite Hs, (section_line_no_bracket _ Hbr), Hcur.
    cbn [negb]. rewrite bool_decide_eq_true_2 by done.
    unfold parse_provider. by rewrite Hbrace, Hloads.
Qed.

Lemma load_providers (providers : list json) (st : load_state) :
  current_team st = Some "sms_provider" → Forall provider_ok providers →
  load_lines st (provider_line <$> providers)
  = Ok {| ld_teams := ld_teams st; ld_providers := ld_providers st ++ providers;
          current_team := current_team st |}.
Proof.
  intros Hcur Hok. revert st Hcur.
  induction Hok as [|p providers Hp _ IH]; intros st Hcur.
  - cbn. rewrite app_nil_r. by destruct st.
  - cbn [fmap list_fmap load_lines]. rewrite load_provider by done. cbn.
    rewrite IH by done. cbn. by rewrite <- app_assoc.
Qed.

End SaveLoad.

Section RoundTrip.
Context `{PyRuntime}.

Lemma load_team_lines (teams : gmap string (list entry)) (ts : list string)
    (st : load_state) (rest : list string) :
  NoDup ts → (∀ t, t ∈ ts → t ∈ TEAMS) →
  (∀ t, t ∈ ts → is_Some (teams !! t)) →
  (∀ t entries, teams !! t = Some entries →
                Forall (fun e => entry_ok e = true) entries) →
  (∀ t, t ∈ ts → ld_teams st !! t = Some []) →
  ∃ st', load_lines st (team_lines teams ts ++ rest) = load_lines st' rest
         ∧ ld_providers st' = ld_providers st
         ∧ (∀ t, t ∈ ts → ld_teams st' !! t = teams !! t)
         ∧ (∀ t, t ∉ ts → ld_teams st' !! t = ld_teams st !! t).
Proof.
  intros Hnd. revert st. induction Hnd as [|t ts Hnotin Hnd IH];
    intros st Hteams Hsome Hok Hempty.
  - exists st. split_and!; [done|done| |done]. by intros t ?%elem_of_nil.
  - destruct (Hsome t) as [entries Ht]; [apply list_elem_of_here|].
    cbn [team_lines]. rewrite Ht. cbn [default from_option].
    cbn [app load_lines].
    rewrite load_header by (apply Hteams, list_elem_of_here). cbn.
    rewrite <- app_assoc, load_lines_app.
    rewrite (load_entries entries _ t []);
      [|done|apply Hteams, list_elem_of_here|apply Hempty, list_elem_of_here
       |by apply (Hok t)].
    cbn.
    destruct (IH {| ld_teams := <[t := entries]> (ld_teams st);
                    ld_providers := ld_providers st; current_team := Some t |})
      as (st' & Hload & Hprov & Hin & Hout).
    + intros t' Ht'. apply Hteams. by apply list_elem_of_further.
    + intros t' Ht'. apply Hsome. by apply list_elem_of_further.
    + done.
    + intros t' Ht'. cbn. rewrite lookup_insert_ne by (intros ->; done).
      apply Hempty. by apply list_elem_of_further.
    + exists st'. split_and!; [done|done| |].
      * intros t' [-> | Ht']%elem_of_cons; [|by apply Hin].
        rewrite Hout by done. cbn. by rewrite lookup_insert_eq.
      * intros t' Ht'. apply not_elem_of_cons in Ht' as [Hne Ht'].
        rewrite Hout by done. cbn. by rewrite lookup_insert_ne.
Qed.

Lemma save_numbers_text (teams : gmap string (list entry)) (providers : list json)
    (fs : files) :
  dom teams = list_to_set TEAMS →
  save_numbers teams providers fs
  = (Ok (),
     {| numbers_file :=
          Some (lines_text (team_lines teams TEAMS
                            ++ "[sms_provider]" :: (provider_line <$> providers)));
        template_file := template_file fs |}).
Proof.
  intros Hdom. unfold save_numbers. rewrite save_teams_lines.
  - do 3 f_equal. rewrite lines_text_app, lines_text_cons.
    change ("" +:+ lines_text (team_lines teams TEAMS))
      with (lines_text (team_lines teams TEAMS)).
    do 3 f_equal.
    unfold lines_text. rewrite <- list_fmap_compose. f_equal.
    apply list_fmap_ext. intros _ p _. apply provider_text_line.
  - intros t Ht. apply elem_of_dom. rewrite Hdom. by apply elem_of_list_to_set.
Qed.

Lemma team_lines_one_line (teams : gmap string (list entry)) (ts : list string) :
  (∀ t, t ∈ ts → t ∈ TEAMS) →
  (∀ t entries, teams !! t = Some entries →
                Forall (fun e => entry_ok e = true) entries) →
  Forall (fun l => one_line l = true) (team_lines teams ts).
Proof.
  intros Hteams Hok. induction ts as [|t ts IH]; [constructor|].
  cbn [team_lines]. constructor.
  - apply header_line_facts, Hteams, list_elem_of_here.
  - apply Forall_app. split.
    + apply Forall_fmap. destruct (teams !! t) as [entries|] eqn:Ht; [|constructor].
      cbn. eapply Forall_impl; [by apply (Hok t)|].
      intros e He. by apply entry_line_reads_back.
    + constructor; [done|]. apply IH. intros t' Ht'. apply Hteams.
      by apply list_elem_of_further.
Qed.

Lemma provider_line_one_line (p : json) : provider_ok p → one_line (provider_line p) = true.
Proof. destruct p; try done; cbn; tauto. Qed.

Lemma save_then_load (teams : gmap string (list entry))
    (providers : list json) (fs : files) :
  store_ok teams providers →
  ∃ fs', save_numbers teams providers fs = (Ok (), fs')
         ∧ template_file fs' = template_file fs
         ∧ load_numbers fs' = (Ok (teams, providers), fs').
Proof.
  intros (Hdom & Hok & Hprov). rewrite save_numbers_text by done.
  eexists. split_and!; [done|done|].
  unfold load_numbers. cbn [numbers_file template_file default from_option].
  f_equal. unfold parse_numbers.
  unfold id. rewrite splitlines_lines_text.
  2:{ apply Forall_app. split; [by apply team_lines_one_line|].
      constructor; [done|]. apply Forall_fmap.
      eapply Forall_impl; [exact Hprov|]. apply provider_line_one_line. }
  destruct (load_team_lines teams TEAMS
              {| ld_teams := initial_teams; ld_providers := []; current_team := None |}
              ("[sms_provider]" :: (provider_line <$> providers)))
    as (st & -> & Hp & Hin & Hout).
  - compute_done.
  - done.
  - intros t Ht. apply elem_of_dom. rewrite Hdom. by apply elem_of_list_to_set.
  - done.
  - intros t Ht. cbn. by apply initial_teams_lookup.
  - cbn [load_lines]. rewrite load_provider_header. cbn.
    rewrite load_providers by done. cbn. rewrite Hp. cbn. do 2 f_equal.
    apply map_eq. intros t. destruct (decide (t ∈ TEAMS)) as [Ht|Ht].
    + by apply Hin.
    + rewrite Hout by done. cbn [ld_teams].
      transitivity (@None (list entry)).
      * apply not_elem_of_dom. rewrite dom_initial_teams.
        by rewrite elem_of_list_to_set.
      * symmetry. apply not_elem_of_dom. rewrite Hdom.
        by rewrite elem_of_list_to_set.
Qed.

(** X1.  What [save_numbers] writes, [load_numbers] reads back: a store with
    the six teams, entries and providers of the shape above is saved
    without error and loads as the same teams and the same providers;
    saving what was loaded writes the same file again. *)
Theorem save_load_roundtrip (teams : gmap string (list entry))
    (providers : list json) (fs : files) :
  store_ok teams providers →
  ∃ fs', save_numbers teams providers fs = (Ok (), fs')
         ∧ template_file fs' = template_file fs
         ∧ load_numbers fs' = (Ok (teams, providers), fs')
         ∧ save_numbers teams providers fs' = (Ok (), fs').
Proof.
  intros Hok. destruct (save_then_load teams providers fs Hok) as (fs' & Hsave & Htpl & Hre).
  exists fs'. split_and!; [done..|].
  destruct Hok as (Hdom & _). rewrite save_numbers_text in Hsave |- * by done.
  injection Hsave as <-. done.
Qed.

End RoundTrip.

(** ** The routes that edit the store *)

Lemma add_if_missing_entries (team n d : string) (teams : gmap string (list entry)) :
  team ∈ dom teams →
  ∃ teams' es,
    add_if_missing team n d teams = Ok teams'
    ∧ dom teams' = dom teams
    ∧ (∀ t, t ≠ team → teams' !! t = teams !! t)
    ∧ teams !! team = Some es
    ∧ teams' !! team
      = Some (if has_number n es then es else es ++ [ {| number := n; desc := d |} ]).
Proof.
  intros Hdom. pose proof Hdom as [es Hk]%elem_of_dom.
  unfold add_if_missing, teams_append, teams_getitem. rewrite Hk. cbn.
  destruct (has_number n es) eqn:Hhas.
  - exists teams, es. split_and!; [done..|]. by rewrite Hhas.
  - eexists _, es. split_and!; [done| | |done|].
    + rewrite dom_insert_L. set_solver.
    + intros t Ht. by rewrite lookup_insert_ne.
    + by rewrite lookup_insert_eq, Hhas.
Qed.

Lemma add_if_missing_keeps (P : entry -> Prop) (team n d : string)
    (teams teams' : gmap string (list entry)) :
  team ∈ dom teams → P {| number := n; desc := d |} →
  add_if_missing team n d teams = Ok teams' →
  (∀ t es, teams !! t = Some es → Forall P es) →
  ∀ t es, teams' !! t = Some es → Forall P es.
Proof.
  intros Hdom Hnew Hadd Hall t es' Ht.
  destruct (add_if_missing_entries team n d teams Hdom)
    as (teams2 & es & Heq & _ & Hother & Hold & Hteam).
  rewrite Hadd in Heq. injection Heq as <-.
  destruct (decide (t = team)) as [->|Hne].
  - rewrite Hteam in Ht. injection Ht as <-.
    destruct (has_number n es); [by apply (Hall team)|].
    apply Forall_app. split; [by apply (Hall team) | by constructor].
  - rewrite Hother in Ht by done. by apply (Hall t).
Qed.

Lemma NoDup_numbers_add (n d : string) (es : list entry) :
  NoDup (number <$> es) →
  NoDup (number <$> (if has_number n es then es
                     else es ++ [ {| number := n; desc := d |} ])).
Proof.
  intros Hnd. destruct (has_number n es) eqn:Hhas; [done|].
  rewrite fmap_app. cbn. apply NoDup_app. split_and!; [done| |apply NoDup_singleton].
  intros x Hx ->%list_elem_of_singleton.
  apply has_number_elem in Hx. congruence.
Qed.

(** Between the load and the save of [add_number]: the numbers of every
    team stay distinct, and adding a number a second time, under any
    description, changes nothing. *)
Lemma add_number_store_distinct (team n d d' : string)
    (teams : gmap string (list entry)) :
  "all" ∈ dom teams → team ∈ dom teams → str_truthy n = true →
  (∀ t, NoDup (numbers_of teams t)) →
  ∃ teams', add_number_store team (Some n) d teams = Some (Ok teams')
            ∧ (∀ t, NoDup (numbers_of teams' t))
            ∧ add_number_store team (Some n) d' teams' = Some (Ok teams').
Proof.
  intros Hall Hteam Hn Hnd.
  assert (∀ k m, k ∈ dom m → (∀ t, NoDup (numbers_of m t)) →
            ∃ m', add_if_missing k n d m = Ok m' ∧ dom m' = dom m
                  ∧ (∀ t, NoDup (numbers_of m' t))
                  ∧ (∀ t, n ∈ numbers_of m t → n ∈ numbers_of m' t)
                  ∧ n ∈ numbers_of m' k) as Hstep.
  { intros k m Hk Hm.
    destruct (add_if_missing_entries k n d m Hk) as (m' & es & Heq & Hd & Ho & Hold & Hnew).
    exists m'. split_and!; [done|done| | |].
    - intros t. unfold numbers_of. destruct (decide (t = k)) as [->|Hne].
      + rewrite Hnew. cbn. apply NoDup_numbers_add.
        specialize (Hm k). unfold numbers_of in Hm. by rewrite Hold in Hm.
      + rewrite Ho by done. apply Hm.
    - intros t. unfold numbers_of. destruct (decide (t = k)) as [->|Hne].
      + rewrite Hnew, Hold. cbn. destruct (has_number n es); [done|].
        rewrite fmap_app, elem_of_app. by left.
      + by rewrite Ho.
    - unfold numbers_of. rewrite Hnew. cbn.
      destruct (has_number n es) eqn:Hhas; [by apply has_number_elem|].
      rewrite fmap_app, elem_of_app. right. cbn. apply list_elem_of_here. }
  assert (∀ k m d0, k ∈ dom m → n ∈ numbers_of m k → add_if_missing k n d0 m = Ok m)
    as Hsame.
  { intros k m d0 [es Hk]%elem_of_dom Hin.
    unfold add_if_missing, teams_getitem. rewrite Hk. cbn.
    unfold numbers_of in Hin. rewrite Hk in Hin. cbn in Hin.
    apply has_number_elem in Hin. by rewrite Hin. }
  destruct (Hstep team teams Hteam Hnd) as (m1 & Hadd1 & Hd1 & Hnd1 & _ & Hin1).
  assert ("all" ∈ dom m1) as Hall1 by (by rewrite Hd1).
  destruct (Hstep "all" m1 Hall1 Hnd1) as (m2 & Hadd2 & Hd2 & Hnd2 & Hkeep2 & Hin2).
  exists m2. unfold add_number_store.
  rewrite Hn, !bool_decide_eq_true_2 by (by rewrite ?Hd2, ?Hd1). cbn.
  rewrite Hadd1. cbn. rewrite Hadd2. split_and!; [done|done|].
  rewrite (Hsame team m2 d') by (by rewrite ?Hd2, ?Hd1; auto). cbn.
  by rewrite (Hsame "all" m2 d') by (by rewrite ?Hd2, ?Hd1).
Qed.

Lemma remove_number_store_entries (team n : string) (teams : gmap string (list entry)) :
  team ∈ dom teams →
  ∃ es, teams !! team = Some es
        ∧ remove_number_store team n teams
          = Some (Ok (<[team := filter (fun e => number e ≠ n) es]> teams)).
Proof.
  intros Hdom. pose proof Hdom as [es Hk]%elem_of_dom. exists es. split; [done|].
  unfold remove_number_store, teams_getitem.
  by rewrite bool_decide_eq_true_2, Hk by done.
Qed.

Section Persistence.
Context `{PyRuntime}.

Lemma load_numbers_again (fs fs1 : files)
    (loaded : result (gmap string (list entry) * list json)) :
  load_numbers fs = (loaded, fs1) → load_numbers fs1 = (loaded, fs1).
Proof. unfold load_numbers. by intros [= <- <-]. Qed.

Lemma edit_store_persisted
    (edit : gmap string (list entry) -> option (result (gmap string (list entry))))
    (fs : files) (teams teams' : gmap string (list entry)) (providers : list json) :
  (load_numbers fs).1 = Ok (teams, providers) →
  edit teams = Some (Ok teams') → store_ok teams' providers →
  ∃ fs', edit_store edit fs = (Ok (), fs')
         ∧ template_file fs' = template_file fs
         ∧ load_numbers fs' = (Ok (teams', providers), fs').
Proof.
  intros Hload Hedit Hok. unfold edit_store.
  destruct (load_numbers fs) as [loaded fs1] eqn:Hl. cbn [fst] in Hload. subst loaded.
  rewrite Hedit.
  destruct (save_then_load teams' providers fs1 Hok) as (fs' & Hsave & Htpl & Hre).
  exists fs'. split_and!; [done| |done].
  rewrite Htpl. unfold load_numbers in Hl. by injection Hl as _ <-.
Qed.

(** As [edit_store_persisted], and saving what was loaded writes the
    same files again. *)
Lemma edit_store_saved
    (edit : gmap string (list entry) -> option (result (gmap string (list entry))))
    (fs : files) (teams teams' : gmap string (list entry)) (providers : list json) :
  (load_numbers fs).1 = Ok (teams, providers) →
  edit teams = Some (Ok teams') → store_ok teams' providers →
  ∃ fs', edit_store edit fs = (Ok (), fs')
         ∧ load_numbers fs' = (Ok (teams', providers), fs')
         ∧ save_numbers teams' providers fs' = (Ok (), fs').
Proof.
  intros Hload Hedit Hok. unfold edit_store.
  destruct (load_numbers fs) as [loaded fs1] eqn:Hl. cbn [fst] in Hload. subst loaded.
  rewrite Hedit.
  destruct (save_then_load teams' providers fs1 Hok) as (fs' & Hsave & Htpl & Hre).
  exists fs'. split_and!; [done|done|].
  destruct Hok as (Hdom & _). rewrite save_numbers_text in Hsave |- * by done.
  by injection Hsave as <-.
Qed.

(** The store stays of the shape that saves and loads when a well-formed
    entry is added, and when a number is removed. *)
Lemma add_number_store_ok (team n d : string)
    (teams teams' : gmap string (list entry)) (providers : list json) :
  store_ok teams providers → team ∈ TEAMS →
  entry_ok {| number := n; desc := d |} = true →
  add_number_store team (Some n) d teams = Some (Ok teams') →
  store_ok teams' providers.
Proof.
  intros (Hdom & Hent & Hprov) Hteam Hnew Hadd.
  assert (str_truthy n = true) as Hn.
  { unfold entry_ok in Hnew. cbn in Hnew. by repeat apply andb_true_iff in Hnew as [Hnew _]. }
  assert (team ∈ dom teams) as Hteam' by (rewrite Hdom; by apply elem_of_list_to_set).
  assert ("all" ∈ dom teams) as Hall by (rewrite Hdom; compute_done).
  destruct (add_number_store_numbers team n d teams Hall Hteam' Hn)
    as (teams2 & Hadd2 & Hdom' & _).
  rewrite Hadd in Hadd2. injection Hadd2 as <-.
  split_and!; [congruence| |done].
  unfold add_number_store in Hadd.
  rewrite Hn, bool_decide_eq_true_2 in Hadd by done. cbn in Hadd.
  destruct (add_if_missing team n d teams) as [teams1|] eqn:H1; [|done].
  cbn in Hadd. injection Hadd as Hadd.
  assert (dom teams1 = dom teams) as Hd1.
  { destruct (add_if_missing_entries team n d teams Hteam')
      as (m & es & Heq & Hd & _). congruence. }
  eapply (add_if_missing_keeps _ "all" n d teams1); [by rewrite Hd1|exact Hnew|done|].
  by eapply (add_if_missing_keeps _ team n d teams).
Qed.

Lemma remove_number_store_ok (team n : string)
    (teams teams' : gmap string (list entry)) (providers : list json) :
  store_ok teams providers → team ∈ TEAMS →
  remove_number_store team n teams = Some (Ok teams') →
  store_ok teams' providers.
Proof.
  intros (Hdom & Hent & Hprov) Hteam Hrem.
  assert (team ∈ dom teams) as Hteam' by (rewrite Hdom; by apply elem_of_list_to_set).
  destruct (remove_number_store_numbers team n teams Hteam')
    as (teams2 & Hrem2 & Hdom' & _).
  rewrite Hrem in Hrem2. injection Hrem2 as <-.
  split_and!; [congruence| |done].
  destruct (remove_number_store_entries team n teams Hteam') as (es & Hes & Heq).
  rewrite Hrem in Heq. injection Heq as ->.
  intros t es' Ht. destruct (decide (t = team)) as [->|Hne].
  - rewrite lookup_insert_eq in Ht. injection Ht as <-.
    apply Forall_forall. intros e [_ He]%list_elem_of_filter.
    specialize (Hent team es Hes). rewrite Forall_forall in Hent. by apply Hent.
  - rewrite lookup_insert_ne in Ht by done. by apply (Hent t).
Qed.

(** X2.  A number added through the route is there after a fresh load: when
    the stored data and the new entry are of the shape that saves and
    loads, the reloaded store holds the number in its team and in all,
    and every other number as before. *)
Theorem add_number_persisted (team n d : string) (fs : files)
    (teams : gmap string (list entry)) (providers : list json) :
  (load_numbers fs).1 = Ok (teams, providers) → store_ok teams providers →
  team ∈ TEAMS → entry_ok {| number := n; desc := d |} = true →
  ∃ teams' fs',
    add_number team (Some n) d fs = (Ok (), fs')
    ∧ load_numbers fs' = (Ok (teams', providers), fs')
    ∧ (∀ t x, x ∈ numbers_of teams' t ↔
              x ∈ numbers_of teams t ∨ ((t = team ∨ t = "all") ∧ x = n)).
Proof.
  intros Hload (Hdom & Hent & Hprov) Hteam Hnew.
  assert (str_truthy n = true) as Hn.
  { unfold entry_ok in Hnew. cbn in Hnew. by repeat apply andb_true_iff in Hnew as [Hnew _]. }
  assert (team ∈ dom teams) as Hteam' by (rewrite Hdom; by apply elem_of_list_to_set).
  assert ("all" ∈ dom teams) as Hall by (rewrite Hdom; compute_done).
  destruct (add_number_store_numbers team n d teams Hall Hteam' Hn)
    as (teams' & Hadd & Hdom' & Hnum).
  exists teams'.
  destruct (edit_store_persisted (add_number_store team (Some n) d) fs teams teams'
              providers Hload Hadd) as (fs' & Hroute & _ & Hre).
  - split_and!; [congruence| |done].
    unfold add_number_store in Hadd.
    rewrite Hn, bool_decide_eq_true_2 in Hadd by done. cbn in Hadd.
    destruct (add_if_missing team n d teams) as [teams1|] eqn:H1; [|done].
    cbn in Hadd. injection Hadd as Hadd.
    assert (dom teams1 = dom teams) as Hd1.
    { destruct (add_if_missing_entries team n d teams Hteam')
        as (m & es & Heq & Hd & _). congruence. }
    eapply (add_if_missing_keeps _ "all" n d teams1); [by rewrite Hd1|exact Hnew|done|].
    by eapply (add_if_missing_keeps _ team n d teams).
  - exists fs'. by split_and!.
Qed.

(** X3.  A number removed through the route is gone after a fresh load, from
    that team only. *)
Theorem remove_number_persisted (team n : string) (fs : files)
    (teams : gmap string (list entry)) (providers : list json) :
  (load_numbers fs).1 = Ok (teams, providers) → store_ok teams providers →
  team ∈ TEAMS →
  ∃ teams' fs',
    remove_number team n fs = (Ok (), fs')
    ∧ load_numbers fs' = (Ok (teams', providers), fs')
    ∧ (∀ t x, x ∈ numbers_of teams' t ↔
              x ∈ numbers_of teams t ∧ (t = team → x ≠ n)).
Proof.
  intros Hload (Hdom & Hent & Hprov) Hteam.
  assert (team ∈ dom teams) as Hteam' by (rewrite Hdom; by apply elem_of_list_to_set).
  destruct (remove_number_store_numbers team n teams Hteam')
    as (teams' & Hrem & Hdom' & Hnum).
  exists teams'.
  destruct (edit_store_persisted (remove_number_store team n) fs teams teams'
              providers Hload Hrem) as (fs' & Hroute & _ & Hre).
  - split_and!; [congruence| |done].
    destruct (remove_number_store_entries team n teams Hteam') as (es & Hes & Heq).
    rewrite Hrem in Heq. injection Heq as ->.
    intros t es' Ht. destruct (decide (t = team)) as [->|Hne].
    + rewrite lookup_insert_eq in Ht. injection Ht as <-.
      apply Forall_forall. intros e [_ He]%list_elem_of_filter.
      specialize (Hent team es Hes). rewrite Forall_forall in Hent. by apply Hent.
    + rewrite lookup_insert_ne in Ht by done. by apply (Hent t).
  - exists fs'. by split_and!.
Qed.

(** X4.  On a store of the shape that saves and loads, [remove_provider]
    with an index in range drops the provider at that index, keeps the
    others in order and the teams as they are, and the change is there
    after a fresh load.  With an index out of range nothing is saved,
    whatever the store holds: the files are as [load_numbers] left them,
    and a fresh load gives the same teams and providers. *)
Theorem remove_provider_persisted (idx : nat) (fs : files)
    (teams : gmap string (list entry)) (providers : list json) :
  (load_numbers fs).1 = Ok (teams, providers) →
  ((idx < length providers)%nat → store_ok teams providers →
   ∃ fs', remove_provider idx fs = (Ok (), fs')
          ∧ template_file fs' = template_file fs
          ∧ load_numbers fs'
            = (Ok (teams, take idx providers ++ drop (S idx) providers), fs'))
  ∧ ((length providers ≤ idx)%nat →
     remove_provider idx fs = (Ok (), (load_numbers fs).2)
     ∧ (∀ content, numbers_file fs = Some content →
                   remove_provider idx fs = (Ok (), fs))
     ∧ load_numbers (load_numbers fs).2
       = (Ok (teams, providers), (load_numbers fs).2)).
Proof.
  intros Hload. unfold remove_provider. split.
  - intros Hidx (Hdom & Hent & Hprov).
    destruct (load_numbers fs) as [loaded fs1] eqn:Hl. cbn [fst] in Hload. subst loaded.
    rewrite bool_decide_eq_true_2 by done.
    destruct (save_then_load teams (delete idx providers) fs1)
      as (fs' & Hsave & Htpl & Hre).
    { split_and!; [done|done|]. by apply Forall_delete. }
    exists fs'. split_and!; [done| |by rewrite Hre, delete_take_drop].
    rewrite Htpl. unfold load_numbers in Hl. by injection Hl as _ <-.
  - intros Hidx.
    destruct (load_numbers fs) as [loaded fs1] eqn:Hl. cbn [fst snd] in *. subst loaded.
    rewrite bool_decide_eq_false_2 by lia. split_and!.
    + done.
    + intros content Hc. unfold load_numbers in Hl. rewrite Hc in Hl.
      injection Hl as _ <-. cbn. f_equal. destruct fs as [nf tf]. cbn in *. by subst nf.
    + by apply load_numbers_again in Hl.
Qed.

(** X5.  The routes that edit the store never fail, whatever the files hold:
    the key lookups of the code always find their team. *)
Theorem edit_routes_never_raise (team : string) (n : option string) (d m : string)
    (idx : nat) (fs : files) :
  (add_number team n d fs).1 = Ok ()
  ∧ (remove_number team m fs).1 = Ok ()
  ∧ (remove_provider idx fs).1 = Ok ().
Proof.
  destruct (load_numbers_keys fs) as (st & _ & Hload & Hdom).
  assert (∀ edit : gmap string (list entry) →
                   option (result (gmap string (list entry))),
            (∀ teams0, dom teams0 = list_to_set TEAMS →
               edit teams0 = None
               ∨ ∃ teams1, edit teams0 = Some (Ok teams1) ∧ dom teams1 = dom teams0) →
            (edit_store edit fs).1 = Ok ()) as Hedit.
  { intros edit Hcases. unfold edit_store.
    destruct (load_numbers fs) as [loaded fs1]. cbn [fst] in Hload. subst loaded.
    destruct (Hcases (ld_teams st) Hdom) as [-> | (teams1 & -> & Hd1)]; [done|].
    rewrite save_numbers_text by congruence. done. }
  split_and!.
  - apply Hedit. intros teams0 Hd0. unfold add_number_store.
    destruct n as [n|]; [|by left].
    destruct (bool_decide (team ∈ dom teams0)) eqn:Hteam; [|by left].
    destruct (str_truthy n) eqn:Hn; [|by left]. right. cbn [andb].
    apply bool_decide_eq_true in Hteam.
    destruct (add_number_store_numbers team n d teams0) as (teams1 & Hadd & Hd1 & _);
      [rewrite Hd0; compute_done | done | done |].
    unfold add_number_store in Hadd.
    rewrite Hn, bool_decide_eq_true_2 in Hadd by done. cbn [andb] in Hadd.
    injection Hadd as ->. by exists teams1.
  - apply Hedit. intros teams0 Hd0.
    destruct (decide (team ∈ dom teams0)) as [Hteam|Hteam].
    + right. destruct (remove_number_store_numbers team m teams0 Hteam)
        as (teams1 & Hrem & Hd1 & _). by exists teams1.
    + left. unfold remove_number_store. by rewrite bool_decide_eq_false_2.
  - unfold remove_provider.
    destruct (load_numbers fs) as [loaded fs1]. cbn [fst] in Hload. subst loaded.
    case_bool_decide; [|done]. by rewrite save_numbers_text.
Qed.

(** C8, as the code has it.  On a store of the shape that saves and
    loads, a number added through [add_number] with a well-formed entry
    is, after a fresh load, in its team and in all, and the reloaded store
    is mirrored when the store was; a number removed through
    [remove_number] from a team other than all is gone from that team
    after a fresh load, and the reloaded store is mirrored when the store
    was. *)
Theorem mirroring_add_remove (team n d m : string) (fs : files)
    (teams : gmap string (list entry)) (providers : list json) :
  (load_numbers fs).1 = Ok (teams, providers) → store_ok teams providers →
  team ∈ TEAMS → entry_ok {| number := n; desc := d |} = true →
  (∃ teams' fs',
     add_number team (Some n) d fs = (Ok (), fs')
     ∧ load_numbers fs' = (Ok (teams', providers), fs')
     ∧ n ∈ numbers_of teams' team
     ∧ n ∈ numbers_of teams' "all"
     ∧ (mirrored teams → mirrored teams'))
  ∧ (team ≠ "all" →
     ∃ teams' fs',
       remove_number team m fs = (Ok (), fs')
       ∧ load_numbers fs' = (Ok (teams', providers), fs')
       ∧ (m ∉ numbers_of teams' team)
       ∧ (mirrored teams → mirrored teams')).
Proof.
  intros Hload Hok Hteam Hnew. pose proof Hok as (Hdom & _ & _).
  assert (str_truthy n = true) as Hn.
  { unfold entry_ok in Hnew. cbn in Hnew. by repeat apply andb_true_iff in Hnew as [Hnew _]. }
  assert (team ∈ dom teams) as Hteam' by (rewrite Hdom; by apply elem_of_list_to_set).
  assert ("all" ∈ dom teams) as Hall by (rewrite Hdom; compute_done).
  destruct (mirroring_store team n d teams Hall Hteam' Hn) as [Hadd _].
  split.
  - destruct Hadd as (teams' & Hadd & Hin & Hin' & Hm).
    pose proof (add_number_store_ok team n d teams teams' providers Hok Hteam Hnew Hadd)
      as Hok'.
    destruct (edit_store_persisted (add_number_store team (Some n) d) fs teams teams'
                providers Hload Hadd Hok') as (fs' & Hroute & _ & Hre).
    by exists teams', fs'.
  - intros Hne.
    destruct (remove_number_store_numbers team m teams Hteam')
      as (teams' & Hrm & _ & Hnum).
    pose proof (remove_number_store_ok team m teams teams' providers Hok Hteam Hrm)
      as Hok'.
    destruct (edit_store_persisted (remove_number_store team m) fs teams teams'
                providers Hload Hrm Hok') as (fs' & Hroute & _ & Hre).
    exists teams', fs'. split_and!; [done | done | |].
    + rewrite Hnum. naive_solver.
    + intros Hm t x. rewrite !Hnum. intros [Hx _]. split; [by apply (Hm t)|].
      intros Heq'. by destruct Hne.
Qed.

(** X6.  On a store of the shape that saves and loads whose teams hold
    distinct numbers, [add_number] with a well-formed entry keeps the
    numbers of every team distinct after a fresh load, and adding the same
    number a second time, under any description, leaves the files as they
    are. *)
Theorem add_number_no_duplicates (team n d d' : string) (fs : files)
    (teams : gmap string (list entry)) (providers : list json) :
  (load_numbers fs).1 = Ok (teams, providers) → store_ok teams providers →
  team ∈ TEAMS → entry_ok {| number := n; desc := d |} = true →
  (∀ t, NoDup (numbers_of teams t)) →
  ∃ teams' fs',
    add_number team (Some n) d fs = (Ok (), fs')
    ∧ load_numbers fs' = (Ok (teams', providers), fs')
    ∧ (∀ t, NoDup (numbers_of teams' t))
    ∧ add_number team (Some n) d' fs' = (Ok (), fs').
Proof.
  intros Hload Hok Hteam Hnew Hnd. pose proof Hok as (Hdom & _ & _).
  assert (str_truthy n = true) as Hn.
  { unfold entry_ok in Hnew. cbn in Hnew. by repeat apply andb_true_iff in Hnew as [Hnew _]. }
  assert (team ∈ dom teams) as Hteam' by (rewrite Hdom; by apply elem_of_list_to_set).
  assert ("all" ∈ dom teams) as Hall by (rewrite Hdom; compute_done).
  destruct (add_number_store_distinct team n d d' teams Hall Hteam' Hn Hnd)
    as (teams' & Hadd & Hnd' & Hagain).
  pose proof (add_number_store_ok team n d teams teams' providers Hok Hteam Hnew Hadd)
    as Hok'.
  destruct (edit_store_saved (add_number_store team (Some n) d) fs teams teams'
              providers Hload Hadd Hok') as (fs' & Hroute & Hre & Hsave).
  exists teams', fs'. split_and!; [done..|].
  unfold add_number, edit_store. by rewrite Hre, Hagain.
Qed.

End Persistence.


(** ** Worked runs of the store routes *)

Lemma ops_store_ok : @store_ok codec_runtime ops_teams ops_providers.
Proof.
  split_and!.
  - by vm_compute.
  - change (map_Forall (fun _ entries => Forall (fun e => entry_ok e = true) entries)
              ops_teams).
    apply (bool_decide_unpack _). by vm_compute.
  - repeat constructor; by vm_compute.
Defined.

Lemma ops_files_load :
  (@load_numbers codec_runtime ops_files).1 = Ok (ops_teams, ops_providers).
Proof. by vm_compute. Defined.

(** X1 witness. *)
Lemma save_load_roundtrip_witness :
  ∃ fs', @save_numbers codec_runtime ops_teams ops_providers store_before = (Ok (), fs')
         ∧ template_file fs' = template_file store_before
         ∧ @load_numbers codec_runtime fs' = (Ok (ops_teams, ops_providers), fs')
         ∧ @save_numbers codec_runtime ops_teams ops_providers fs' = (Ok (), fs').
Proof.
  apply (@save_load_roundtrip codec_runtime ops_teams ops_providers store_before).
  exact ops_store_ok.
Defined.

(** X2 witness. *)
Lemma add_number_persisted_witness :
  ∃ teams' fs',
    @add_number codec_runtime "web" (Some "+7") "front desk" ops_files = (Ok (), fs')
    ∧ @load_numbers codec_runtime fs' = (Ok (teams', ops_providers), fs')
    ∧ (∀ t x, x ∈ numbers_of teams' t ↔
              x ∈ numbers_of ops_teams t ∨ ((t = "web" ∨ t = "all") ∧ x = "+7")).
Proof.
  apply (@add_number_persisted codec_runtime "web" "+7" "front desk" ops_files
           ops_teams ops_providers).
  - exact ops_files_load.
  - exact ops_store_ok.
  - apply (bool_decide_unpack _). by vm_compute.
  - by vm_compute.
Defined.

(** X3 witness. *)
Lemma remove_number_persisted_witness :
  ∃ teams' fs',
    @remove_number codec_runtime "devops" "+1" ops_files = (Ok (), fs')
    ∧ @load_numbers codec_runtime fs' = (Ok (teams', ops_providers), fs')
    ∧ (∀ t x, x ∈ numbers_of teams' t ↔
              x ∈ numbers_of ops_teams t ∧ (t = "devops" → x ≠ "+1")).
Proof.
  apply (@remove_number_persisted codec_runtime "devops" "+1" ops_files
           ops_teams ops_providers).
  - exact ops_files_load.
  - exact ops_store_ok.
  - apply (bool_decide_unpack _). by vm_compute.
Defined.

(** X4 witness. *)
Lemma remove_provider_persisted_witness :
  ((0 < length ops_providers)%nat → @store_ok codec_runtime ops_teams ops_providers →
   ∃ fs', @remove_provider codec_runtime 0 ops_files = (Ok (), fs')
          ∧ template_file fs' = template_file ops_files
          ∧ @load_numbers codec_runtime fs'
            = (Ok (ops_teams, take 0 ops_providers ++ drop 1 ops_providers), fs'))
  ∧ ((length ops_providers ≤ 0)%nat →
     @remove_provider codec_runtime 0 ops_files
     = (Ok (), (@load_numbers codec_runtime ops_files).2)
     ∧ (∀ content, numbers_file ops_files = Some content →
                   @remove_provider codec_runtime 0 ops_files = (Ok (), ops_files))
     ∧ @load_numbers codec_runtime (@load_numbers codec_runtime ops_files).2
       = (Ok (ops_teams, ops_providers), (@load_numbers codec_runtime ops_files).2)).
Proof.
  apply (@remove_provider_persisted codec_runtime 0 ops_files ops_teams ops_providers).
  exact ops_files_load.
Defined.

Example remove_provider_first :
  (@remove_provider codec_runtime 0 ops_files).1 = Ok ()
  ∧ (@load_numbers codec_runtime (@remove_provider codec_runtime 0 ops_files).2).1
    = Ok (ops_teams, [sms_gateway]).
Proof. split; vm_compute; reflexivity. Qed.

Example remove_provider_out_of_range :
  @remove_provider codec_runtime 2 ops_files = (Ok (), ops_files).
Proof. vm_compute. reflexivity. Qed.

Lemma ops_teams_distinct (t : string) : NoDup (numbers_of ops_teams t).
Proof.
  unfold numbers_of.
  destruct (decide (t = "devops")) as [->|Hd];
    [apply (bool_decide_unpack _); by vm_compute|].
  destruct (decide (t = "all")) as [->|Ha];
    [apply (bool_decide_unpack _); by vm_compute|].
  unfold ops_teams. rewrite !lookup_insert_ne by done.
  destruct (initial_teams !! t) as [es|] eqn:Ht; [|constructor].
  destruct (decide (t ∈ TEAMS)) as [Hin|Hout].
  - rewrite (initial_teams_lookup t Hin) in Ht. injection Ht as <-. constructor.
  - assert (initial_teams !! t = None) as Hnone.
    { apply not_elem_of_dom. rewrite dom_initial_teams.
      by rewrite elem_of_list_to_set. }
    congruence.
Defined.

(** X6 witness. *)
Lemma add_number_no_duplicates_witness :
  ∃ teams' fs',
    @add_number codec_runtime "web" (Some "+1") "desk" ops_files = (Ok (), fs')
    ∧ @load_numbers codec_runtime fs' = (Ok (teams', ops_providers), fs')
    ∧ (∀ t, NoDup (numbers_of teams' t))
    ∧ @add_number codec_runtime "web" (Some "+1") "again" fs' = (Ok (), fs').
Proof.
  apply (@add_number_no_duplicates codec_runtime "web" "+1" "desk" "again" ops_files
           ops_teams ops_providers).
  - exact ops_files_load.
  - exact ops_store_ok.
  - apply (bool_decide_unpack _). by vm_compute.
  - by vm_compute.
  - exact ops_teams_distinct.
Defined.

Lemma ops_teams_mirrored : mirrored ops_teams.
Proof. apply (bool_decide_unpack _). by vm_compute. Defined.

(** C8 witness: +7 added to devops, and +1 removed from devops, which
    holds it; the store is mirrored before and after. *)
Lemma mirroring_add_remove_witness :
  (∃ teams' fs',
     @add_number codec_runtime "devops" (Some "+7") "front desk" ops_files = (Ok (), fs')
     ∧ @load_numbers codec_runtime fs' = (Ok (teams', ops_providers), fs')
     ∧ "+7" ∈ numbers_of teams' "devops"
     ∧ "+7" ∈ numbers_of teams' "all"
     ∧ (mirrored ops_teams → mirrored teams'))
  ∧ ("devops" ≠ "all" →
     ∃ teams' fs',
       @remove_number codec_runtime "devops" "+1" ops_files = (Ok (), fs')
       ∧ @load_numbers codec_runtime fs' = (Ok (teams', ops_providers), fs')
       ∧ ("+1" ∉ numbers_of teams' "devops")
       ∧ (mirrored ops_teams → mirrored teams')).
Proof.
  apply (@mirroring_add_remove codec_runtime "devops" "+7" "front desk" "+1" ops_files
           ops_teams ops_providers).
  - exact ops_files_load.
  - exact ops_store_ok.
  - apply (bool_decide_unpack _). by vm_compute.
  - by vm_compute.
Defined.

(** A description that holds line breaks is written as it is, and its
    lines are read back as lines of the file: the entry is outside the
    shape above, and the reloaded store is not mirrored. *)
Example multiline_description_unmirrors :
  let d := "x" +:+ nl +:+ "[noc]" +:+ nl +:+ "+7" in
  let teams' :=
    <["devops" := [plus_one; {| number := "+5"; desc := "x" |}]]>
      (<["noc" := [ {| number := "+7"; desc := "" |};
                    {| number := "+7"; desc := "" |} ]]>
         (<["all" := [plus_one; {| number := "+5"; desc := "x" |}]]>
            initial_teams)) in
  entry_ok {| number := "+5"; desc := d |} = false
  ∧ (@add_number sample_runtime "devops" (Some "+5") d store_before).1 = Ok ()
  ∧ (@load_numbers sample_runtime
       (@add_number sample_runtime "devops" (Some "+5") d store_before).2).1
    = Ok (teams', [])
  ∧ numbers_of teams' "all" = ["+1"; "+5"]
  ∧ numbers_of teams' "noc" = ["+7"; "+7"]
  ∧ ¬ mirrored teams'.
Proof.
  cbv zeta. split_and!.
  - vm_compute. reflexivity.
  - vm_compute. reflexivity.
  - vm_compute. reflexivity.
  - vm_compute. reflexivity.
  - vm_compute. reflexivity.
  - apply (bool_decide_eq_false_1 _). vm_compute. reflexivity.
Qed.


(** ** More on the dispatcher *)

Lemma filter_other (x : string) (l : list string) :
  x ∉ l → filter (fun y => y ≠ x) l = l.
Proof.
  induction l as [|y l IH]; [done|]. intros [Hne Hx]%not_elem_of_cons.
  rewrite filter_cons, decide_True by done. f_equal. by apply IH.
Qed.

Lemma dedup_first_NoDup (l : list string) : NoDup l → dedup_first l = l.
Proof.
  induction 1 as [|x l Hx _ IH]; [done|]. cbn [dedup_first].
  by rewrite IH, filter_other.
Qed.

Section DispatchMore.
Context `{Network}.

Lemma pauses_of_app (evs evs' : list event) :
  pauses_of (evs ++ evs') = pauses_of evs ++ pauses_of evs'.
Proof. apply omap_app. Qed.

Lemma sms_loop_no_pause (url headers : json) (message : string)
    (numbers : list string) (seen : gset string) (w : World) :
  pauses_of (sms_loop url headers message seen numbers w).1.1 = [].
Proof.
  revert seen w. induction numbers as [|n numbers IH]; intros seen w; [done|].
  cbn [sms_loop]. case_bool_decide; [apply IH|].
  destruct (post w _) as [[resp|e] w1]; [|done].
  specialize (IH ({[n]} ∪ seen) w1).
  by destruct (sms_loop url headers message ({[n]} ∪ seen) numbers w1) as [[evs err] w2].
Qed.

Lemma send_provider_pauses (numbers : list string) (message : string)
    (p : json) (w : World) :
  pauses_of (send_provider numbers message p w).1
  = if py_truthy (provider_url p) then [1] else [].
Proof.
  unfold send_provider. destruct (py_truthy (provider_url p)); [|done]. cbn [negb].
  destruct (py_in "/hooks/" (provider_url p)) as [[|]|e].
  - unfold send_webhook. by destruct (post w _) as [[resp|e] w1].
  - pose proof (sms_loop_no_pause (provider_url p) (provider_headers p) message
                  numbers ∅ w) as Hloop.
    destruct (sms_loop _ _ _ _ numbers w) as [[evs err] w1]. cbn [fst] in *.
    rewrite !pauses_of_app, Hloop. by destruct err.
  - done.
Qed.

(** X7.  The dispatcher pauses one second after each provider it does not
    skip, whether its sends succeeded or raised, and never otherwise. *)
Theorem one_pause_per_served_provider (providers : list json)
    (numbers : list string) (message : string) (w : World) :
  pauses_of (send_sms numbers message providers w).1
  = (fun _ => 1) <$> filter (fun p => py_truthy (provider_url p) = true) providers.
Proof.
  revert w. induction providers as [|p providers IH]; intros w; [done|].
  cbn [send_sms]. pose proof (send_provider_pauses numbers message p w) as Hone.
  destruct (send_provider numbers message p w) as [evs w1]. specialize (IH w1).
  destruct (send_sms numbers message providers w1) as [evs' w2]. cbn [fst] in *.
  rewrite pauses_of_app, Hone, IH, filter_cons.
  destruct (py_truthy (provider_url p)).
  - by rewrite decide_True.
  - by rewrite decide_False.
Qed.

Lemma sms_loop_prefix (url headers : json) (message : string)
    (numbers : list string) (seen : gset string) (w : World) :
  ∃ ns, requests_of (sms_loop url headers message seen numbers w).1.1
        = sms_request url headers message <$> ns
        ∧ ns `prefix_of` filter (fun x => x ∉ seen) (dedup_first numbers).
Proof.
  revert seen w. induction numbers as [|n numbers IH]; intros seen w.
  - by exists [].
  - cbn [sms_loop]. case_bool_decide as Hseen.
    + rewrite dedup_first_seen by done. apply IH.
    + rewrite dedup_first_fresh by done.
      destruct (post w _) as [[resp|e] w1].
      * destruct (IH ({[n]} ∪ seen) w1) as (ns & Hreq & Hpre).
        destruct (sms_loop url headers message ({[n]} ∪ seen) numbers w1)
          as [[evs err] w2]. cbn [fst] in *.
        exists (n :: ns). split; [|by apply prefix_cons].
        cbn [fmap list_fmap]. by rewrite <- Hreq.
      * exists [n]. split; [done|]. apply prefix_cons, prefix_nil.
Qed.

(** X8.  Whatever the network does, the requests made to a provider are an
    initial part of the requests it is due, and none is made twice. *)
Theorem provider_requests_prefix (numbers : list string) (message : string)
    (p : json) (w : World) :
  has_url p →
  requests_of (send_provider numbers message p w).1
    `prefix_of` expected_requests numbers message p
  ∧ NoDup (requests_of (send_provider numbers message p w).1).
Proof.
  intros (u & Hu & Htruthy). unfold send_provider, expected_requests.
  rewrite Hu. cbn [py_truthy py_in]. rewrite Htruthy. cbn [negb].
  destruct (str_contains "/hooks/" u).
  - unfold send_webhook. destruct (post w _) as [[resp|e] w1]; cbn;
      (split; [done | apply NoDup_singleton]).
  - destruct (sms_loop_prefix (JStr u) (provider_headers p) message numbers ∅ w)
      as (ns & Hreq & Hpre).
    destruct (sms_loop (JStr u) (provider_headers p) message ∅ numbers w)
      as [[evs err] w1]. cbn [fst] in *.
    rewrite filter_not_seen in Hpre by done.
    assert (requests_of (evs ++ match err with
                                | Some e => [Printed (LogFailed p e)]
                                | None => []
                                end ++ [Slept 1])
            = sms_request (JStr u) (provider_headers p) message <$> ns) as ->.
    { rewrite requests_of_app, Hreq. destruct err; cbn; by rewrite app_nil_r. }
    split.
    + destruct Hpre as [k ->]. rewrite fmap_app. by apply prefix_app_r.
    + apply NoDup_fmap_2.
      * intros x y Heq. by injection Heq.
      * destruct Hpre as [k Hk]. pose proof (NoDup_dedup_first numbers) as Hnd.
        rewrite Hk in Hnd. by apply NoDup_app in Hnd as [Hnd _].
Qed.

End DispatchMore.

Section DispatchProvenance.
Context `{Network}.

Lemma send_provider_requests_from (numbers : list string) (message : string)
    (p : json) (w : World) (r : request) :
  r ∈ requests_of (send_provider numbers message p w).1 →
  request_from numbers message p r.
Proof.
  unfold send_provider. destruct (negb _); [by intros ?%elem_of_nil|].
  destruct (py_in "/hooks/" (provider_url p)) as [[|]|e].
  - unfold send_webhook. destruct (post w _) as [[resp|e] w1]; cbn;
      intros ->%list_elem_of_singleton; unfold request_from; cbn; by split_and!; [..|left].
  - destruct (sms_loop_prefix (provider_url p) (provider_headers p) message numbers ∅ w)
      as (ns & Hreq & Hpre).
    destruct (sms_loop _ _ _ _ numbers w) as [[evs err] w1]. cbn [fst] in *.
    rewrite requests_of_app, elem_of_app, Hreq. intros [Hin | Hin].
    + apply list_elem_of_fmap in Hin as (n & -> & Hn).
      unfold request_from. cbn. split_and!; [done..|]. right. exists n. split; [|done].
      destruct Hpre as [k Hk].
      assert (n ∈ ns ++ k) as Hf by (apply elem_of_app; by left).
      rewrite <- Hk in Hf.
      apply list_elem_of_filter in Hf as [_ Hf]. by apply elem_of_dedup_first.
    + destruct err; cbn in Hin; by apply elem_of_nil in Hin.
  - by intros ?%elem_of_nil.
Qed.

(** X9.  The dispatcher contacts nothing but the configured providers, with
    their own url and headers and the fixed timeout, and sends only the
    message, as JSON text or as a form addressed to one of the numbers it
    was given. *)
Theorem requests_come_from_providers (providers : list json)
    (numbers : list string) (message : string) (w : World) (r : request) :
  r ∈ requests_of (send_sms numbers message providers w).1 →
  ∃ p, p ∈ providers ∧ request_from numbers message p r.
Proof.
  revert w. induction providers as [|p providers IH]; intros w.
  - by intros ?%elem_of_nil.
  - cbn [send_sms].
    pose proof (send_provider_requests_from numbers message p w r) as Hone.
    destruct (send_provider numbers message p w) as [evs w1]. specialize (IH w1).
    destruct (send_sms numbers message providers w1) as [evs' w2]. cbn [fst] in *.
    rewrite requests_of_app, elem_of_app. intros [Hin | Hin].
    + exists p. split; [apply list_elem_of_here | by apply Hone].
    + destruct (IH Hin) as (p' & Hp' & Hfrom). exists p'.
      split; [by apply list_elem_of_further | done].
Qed.

Lemma send_provider_no_numbers (message : string) (p : json) (w : World) :
  requests_of (send_provider [] message p w).1 = webhook_only message p.
Proof.
  unfold send_provider, webhook_only.
  destruct (py_truthy (provider_url p)); [|done]. cbn [negb].
  destruct (py_in "/hooks/" (provider_url p)) as [[|]|e]; [|done..].
  unfold send_webhook. by destruct (post w _) as [[resp|e] w1].
Qed.

(** X10.  With no number to send to, the webhook providers are still posted
    the message, one request each, and nothing else is contacted. *)
Theorem no_numbers_only_webhooks (providers : list json) (message : string)
    (w : World) :
  requests_of (send_sms [] message providers w).1
  = concat (webhook_only message <$> providers).
Proof.
  revert w. induction providers as [|p providers IH]; intros w; [done|].
  cbn [send_sms fmap list_fmap concat].
  pose proof (send_provider_no_numbers message p w) as Hone.
  destruct (send_provider [] message p w) as [evs w1]. specialize (IH w1).
  destruct (send_sms [] message providers w1) as [evs' w2]. cbn [fst] in *.
  by rewrite requests_of_app, Hone, IH.
Qed.

End DispatchProvenance.

Section RouteMore.
Context `{PyRuntime} `{Network}.

Lemma dispatch_run_requests (providers : list json) (numbers : list string)
    (message : string) (w : World) :
  Forall has_url providers →
  no_raise (send_sms numbers message providers w).1 = true →
  requests_of (send_sms numbers message providers w).1
  = concat (expected_requests numbers message <$> providers).
Proof.
  intros Hurl. revert w. induction Hurl as [|p providers Hp _ IH]; intros w; [done|].
  cbn [send_sms fmap list_fmap concat].
  pose proof (send_provider_requests numbers message p w Hp) as Hone.
  destruct (send_provider numbers message p w) as [evs w1]. specialize (IH w1).
  destruct (send_sms numbers message providers w1) as [evs' w2].
  cbn [fst] in *. intros [Hnr Hnr']%no_raise_app.
  by rewrite requests_of_app, Hone, IH.
Qed.

(** X11.  In [alert] the numbers reach the dispatcher already deduplicated, so
    its own pass drops none: when no request raises, every SMS provider
    is sent one request for each number of sent_to, in that order, and
    every webhook provider one request. *)
Theorem alert_contacts_sent_to (team raw : string) (fs : files) (w : World)
    (data : json) (message : string)
    (teams : gmap string (list entry)) (providers : list json) :
  json_loads raw = Some data →
  build_message data (get_template fs) = Ok message →
  (load_numbers fs).1 = Ok (teams, providers) →
  Forall has_url providers →
  no_raise (alert team raw fs w).2 = true →
  (alert team raw fs w).1.1.1 = ok_response (resolve team teams)
  ∧ requests_of (alert team raw fs w).2
    = concat ((fun p =>
                 match provider_url p with
                 | JStr u =>
                     if str_contains "/hooks/" u
                     then [webhook_request (JStr u) (provider_headers p) message]
                     else sms_request (JStr u) (provider_headers p) message
                          <$> resolve team teams
                 | _ => []
                 end) <$> providers).
Proof.
  intros Hraw Hmsg Hload Hurl. unfold alert. rewrite Hraw.
  destruct (load_numbers fs) as [loaded fs1]. cbn [fst] in Hload. subst loaded.
  rewrite Hmsg.
  pose proof (dispatch_run_requests providers (resolve team teams) message w Hurl)
    as Hrun.
  destruct (send_sms (resolve team teams) message providers w) as [evs w1].
  cbn [fst snd] in *. intros Hnr. split; [done|].
  rewrite (Hrun Hnr). f_equal. apply list_fmap_ext. intros _ p _.
  unfold expected_requests. rewrite dedup_first_NoDup; [done|].
  unfold resolve. rewrite unique_numbers_dedup_first. apply NoDup_dedup_first.
Qed.

End RouteMore.


(** ** More on message building *)

Lemma for_each_raises {A B} (f : A -> result B) (xs : list A) (x : A) :
  x ∈ xs → raises (f x) → raises (for_each f xs).
Proof.
  intros Hin Hx. induction xs as [|y xs IH]; [by apply elem_of_nil in Hin|].
  cbn [for_each]. apply elem_of_cons in Hin as [<- | Hin].
  - by apply raises_bind.
  - destruct (f y) as [b|e]; [|by exists e]. cbn. apply raises_bind. by apply IH.
Qed.

Lemma recognized_name_facts (k : string) :
  k ∈ recognized →
  field_name_split k = (k, "") ∧ get_integer k = None ∧ str_truthy k = true.
Proof.
  unfold recognized. rewrite !elem_of_cons.
  intros [-> | [-> | [-> | [-> | Hnil]]]];
    [by vm_compute..| by apply elem_of_nil in Hnil].
Qed.

Section MessageMore.
Context `{PyRuntime}.

Lemma alert_line_malformed (t : string) (a : json) :
  alert_entry a = false → raises (alert_line t a).
Proof.
  unfold alert_line. destruct a as [| | | | |kvs]; try (intros _; by eexists).
  cbn [alert_entry py_get]. cbn.
  destruct (dict_get kvs "annotations") as [[| | | | |ann]|]; cbn;
    try (intros _; by eexists);
    destruct (dict_get kvs "labels") as [[| | | | |lab]|]; cbn;
    try (intros _; by eexists); done.
Qed.

(** X13.  Payloads the code does not expect end in an exception: a payload that
    is null, a boolean or a number, or an alerts value of those kinds,
    raises TypeError; an alerts sequence with an entry that is not an
    object, or whose annotations or labels are not objects, raises. *)
Theorem build_message_malformed (custom : option string) :
  (∀ data, is_container data = false → build_message data custom = Raise TypeError)
  ∧ (∀ kvs alerts, dict_get kvs "alerts" = Some alerts → is_container alerts = false →
       build_message (JObj kvs) custom = Raise TypeError)
  ∧ (∀ kvs entries a, dict_get kvs "alerts" = Some (JArr entries) →
       a ∈ entries → alert_entry a = false →
       raises (build_message (JObj kvs) custom)).
Proof.
  split_and!.
  - by intros [| | | | |].
  - intros kvs alerts Ha Hc. rewrite (build_message_with_alerts kvs alerts) by done.
    by destruct alerts.
  - intros kvs entries a Ha Hin Hbad.
    rewrite (build_message_with_alerts kvs (JArr entries)) by done. cbn.
    apply raises_bind. apply (for_each_raises _ entries a); [done|].
    by apply alert_line_malformed.
Qed.

Lemma str_format_plain (t : string) (items : list item) (keys : list string)
    (kwargs : list (string * json)) :
  parse_template t = (items, None) →
  (∀ k, k ∈ keys → k ∈ recognized ∧ is_Some (dict_get kwargs k)) →
  Forall (plain_item keys) items →
  str_format t kwargs = Ok (String.concat "" (item_text kwargs <$> items)).
Proof.
  intros Hparse Hkeys Hplain. unfold str_format. cbn [build_string]. rewrite Hparse.
  match goal with |- context [render_items ?e _ _] => set (expand := e) end.
  assert (render_items expand kwargs items
          = Ok (String.concat "" (item_text kwargs <$> items))) as ->; [|done].
  clear Hparse. induction Hplain as [|i items Hi _ IH]; [done|].
  cbn [render_items fmap list_fmap]. rewrite IH, concat_empty_cons.
  destruct i as [s|[name conv spec]]; [done|].
  cbn in Hi. destruct Hi as (-> & -> & Hname).
  destruct (Hkeys name Hname) as [Hrec [v Hv]].
  destruct (recognized_name_facts name Hrec) as (Hsplit & Hint & Htruthy).
  cbn [render_item]. rewrite (render_field_plain expand kwargs name v) by done.
  cbn. by rewrite Hv.
Qed.

(** X14.  A template without syntax error whose fields are just recognized
    placeholders never raises: for alert entries every line is the
    template with each placeholder replaced by the text of its value; for
    the state form the same holds when description is not used. *)
Theorem recognized_template_formats (t : string) (items : list item)
    (kvs : list (string * json)) :
  str_truthy t = true → parse_template t = (items, None) →
  (∀ entries,
     Forall (plain_item recognized) items →
     dict_get kvs "alerts" = Some (JArr entries) →
     Forall (fun a => alert_entry a = true) entries →
     build_message (JObj kvs) (Some t)
     = Ok (String.concat nl
             ((fun a => String.concat "" (item_text (alert_fields a) <$> items))
              <$> entries)))
  ∧ (∀ title state,
       Forall (plain_item ["status"; "summary"; "alertname"]) items →
       dict_get kvs "alerts" = None →
       dict_get kvs "title" = Some title → dict_get kvs "state" = Some state →
       build_message (JObj kvs) (Some t)
       = Ok (String.concat "" (item_text (state_fields kvs state) <$> items))).
Proof.
  intros Ht Hparse. split.
  - intros entries Hplain Ha Hwf.
    apply (build_message_join kvs entries); [done..|].
    apply Forall2_fmap_r, Forall_Forall2_diag, Forall_forall. intros a _.
    cbn [effective_template]. rewrite Ht.
    apply (str_format_plain t items recognized); [done| |done].
    intros k Hk. split; [done|]. revert Hk. unfold recognized. rewrite !elem_of_cons.
    intros [-> | [-> | [-> | [-> | Hnil]]]]; [by eexists..| by apply elem_of_nil in Hnil].
  - intros title state Hplain Ha Hti Hst.
    rewrite build_message_without_alerts by done.
    rewrite Hti, Hst, !bool_decide_eq_true_2 by eauto. cbn [andb effective_template].
    rewrite Ht, (state_line_fields _ _ state) by done.
    apply (str_format_plain t items ["status"; "summary"; "alertname"]); [done| |done].
    intros k. rewrite !elem_of_cons.
    intros [-> | [-> | [-> | Hnil]]]; [|..| by apply elem_of_nil in Hnil];
      (split; [unfold recognized; set_solver | by eexists]).
Qed.

End MessageMore.

(** ** The template file *)

Lemma lstrip_blank (s : string) : blank s = true → lstrip s = "".
Proof.
  induction s as [|c s IH]; [done|]. unfold blank. cbn [chars String.list_ascii_of_string forallb].
  intros [Hc Hs]%andb_true_iff. cbn [lstrip]. rewrite Hc. by apply IH.
Qed.

Lemma blank_universal_newlines (n : nat) (s : string) :
  (String.length s ≤ n)%nat → blank s = true → blank (universal_newlines s) = true.
Proof.
  revert s. induction n as [|n IH]; intros s Hlen.
  - destruct s; [done | cbn in Hlen; lia].
  - destruct s as [|c s]; [done|]. unfold blank in *.
    cbn [chars String.list_ascii_of_string forallb String.length] in *.
    intros [Hc Hs]%andb_true_iff. cbn [universal_newlines].
    case_bool_decide as Hcr.
    + cbn [chars String.list_ascii_of_string forallb].
      replace (is_space LF) with true by reflexivity. cbn [andb].
      destruct s as [|c' s]; [done|].
      cbn [chars String.list_ascii_of_string forallb String.length] in *.
      apply andb_true_iff in Hs as [Hc' Hs].
      case_bool_decide.
      * apply (IH s); [lia | done].
      * apply (IH (String c' s)); [cbn; lia|].
        cbn [chars String.list_ascii_of_string forallb]. by rewrite Hc'.
    + cbn [chars String.list_ascii_of_string forallb]. rewrite Hc. cbn [andb].
      apply (IH s); [lia | done].
Qed.

Lemma universal_newlines_no_cr (s : string) :
  no_cr s = true → universal_newlines s = s.
Proof.
  induction s as [|c s IH]; [done|]. unfold no_cr.
  cbn [chars String.list_ascii_of_string forallb].
  intros [Hc Hs]%andb_true_iff. apply negb_true_iff in Hc.
  cbn [universal_newlines]. rewrite Hc. f_equal. by apply IH.
Qed.

(** X15.  What [set_template] leaves for [alert]: a template of whitespace
    only, like a missing one, falls back to the built-in template; a
    trimmed template without carriage return is used as it is; the
    numbers file is not touched. *)
Theorem set_template_effective (s : string) (fs : files) :
  (blank s = true →
   effective_template (get_template (set_template (Some s) fs)) = DEFAULT_TEMPLATE)
  ∧ (str_truthy s = true → trimmed s = true → no_cr s = true →
     effective_template (get_template (set_template (Some s) fs)) = s)
  ∧ effective_template (get_template (set_template None fs)) = DEFAULT_TEMPLATE
  ∧ numbers_file (set_template (Some s) fs) = numbers_file fs.
Proof.
  unfold set_template, save_template, get_template. split_and!.
  - intros Hblank. destruct (str_truthy s); [|done]. cbn.
    pose proof (blank_universal_newlines (String.length s) s (le_n _) Hblank) as Hb.
    unfold strip. by rewrite (lstrip_blank _ Hb).
  - intros Hs Htr Hcr. rewrite Hs. cbn. rewrite (universal_newlines_no_cr s Hcr).
    by rewrite (strip_trimmed s Htr), Hs.
  - done.
  - by destruct (str_truthy s).
Qed.

(** ** Worked runs of the dispatcher and of message building *)

(** X8 witness. *)
Lemma provider_requests_prefix_witness :
  requests_of (@send_provider scripted ["+1"; "+2"] "disk full" sms_gateway [refused]).1
    `prefix_of` expected_requests ["+1"; "+2"] "disk full" sms_gateway
  ∧ NoDup (requests_of
             (@send_provider scripted ["+1"; "+2"] "disk full" sms_gateway [refused]).1).
Proof.
  apply (@provider_requests_prefix scripted ["+1"; "+2"] "disk full" sms_gateway [refused]).
  exact has_url_sms_gateway.
Defined.

(** X9 witness. *)
Lemma requests_come_from_providers_witness :
  ∃ p, p ∈ [chat_hook; sms_gateway]
       ∧ request_from ["+1"; "+2"] "disk full" p
           (sms_request sms_gateway (JObj []) "disk full" "+2").
Proof.
  apply (@requests_come_from_providers scripted [chat_hook; sms_gateway] ["+1"; "+2"]
           "disk full" [] (sms_request sms_gateway (JObj []) "disk full" "+2")).
  vm_compute. do 2 right. left.
Defined.

(** X11 witness. *)
Lemma alert_contacts_sent_to_witness :
  (@alert codec_runtime scripted "devops" state_body ops_files []).1.1.1
  = ok_response (resolve "devops" ops_teams)
  ∧ requests_of (@alert codec_runtime scripted "devops" state_body ops_files []).2
    = concat ((fun p =>
                 match provider_url p with
                 | JStr u =>
                     if str_contains "/hooks/" u
                     then [webhook_request (JStr u) (provider_headers p)
                             "resolved No message"]
                     else sms_request (JStr u) (provider_headers p) "resolved No message"
                          <$> resolve "devops" ops_teams
                 | _ => []
                 end) <$> ops_providers).
Proof.
  apply (@alert_contacts_sent_to codec_runtime scripted "devops" state_body ops_files []
           state_data "resolved No message" ops_teams ops_providers).
  - by vm_compute.
  - by vm_compute.
  - exact ops_files_load.
  - repeat constructor; [exact has_url_chat_hook | exact has_url_sms_gateway].
  - by vm_compute.
Defined.

(** X14 witness. *)
Lemma recognized_template_formats_witness :
  (∀ entries,
     Forall (plain_item recognized) name_summary_items →
     dict_get disk_full_payload "alerts" = Some (JArr entries) →
     Forall (fun a => alert_entry a = true) entries →
     @build_message sample_runtime (JObj disk_full_payload) (Some "{alertname}: {summary}")
     = Ok (String.concat nl
             ((fun a => String.concat ""
                          (@item_text sample_runtime (alert_fields a)
                           <$> name_summary_items))
              <$> entries)))
  ∧ (∀ title state,
       Forall (plain_item ["status"; "summary"; "alertname"]) name_summary_items →
       dict_get disk_full_payload "alerts" = None →
       dict_get disk_full_payload "title" = Some title →
       dict_get disk_full_payload "state" = Some state →
       @build_message sample_runtime (JObj disk_full_payload)
         (Some "{alertname}: {summary}")
       = Ok (String.concat ""
               (@item_text sample_runtime (state_fields disk_full_payload state)
                <$> name_summary_items))).
Proof.
  apply (@recognized_template_formats sample_runtime "{alertname}: {summary}"
           name_summary_items disk_full_payload).
  - reflexivity.
  - by vm_compute.
Defined.

Example recognized_template_run :
  @build_message sample_runtime (JObj disk_full_payload) (Some "{alertname}: {summary}")
  = Ok "DiskFull: disk full".
Proof. by vm_compute. Qed.


Section UnknownTeam.
Context `{PyRuntime} `{Network}.

(** X12.  An alert for a team outside the fixed set lists no recipient and
    contacts no SMS provider, but the message is still posted to every
    webhook provider. *)
Theorem alert_unknown_team_webhooks (team raw : string) (fs : files) (w : World)
    (data : json) (message : string)
    (teams : gmap string (list entry)) (providers : list json) :
  json_loads raw = Some data →
  build_message data (get_template fs) = Ok message →
  (load_numbers fs).1 = Ok (teams, providers) →
  team ∉ TEAMS →
  (alert team raw fs w).1.1.1 = ok_response []
  ∧ requests_of (alert team raw fs w).2 = concat (webhook_only message <$> providers).
Proof.
  intros Hraw Hmsg Hload Hteam.
  destruct (load_numbers_keys fs) as (st & _ & Hload' & Hdom).
  rewrite Hload in Hload'. injection Hload' as -> ->.
  assert (resolve team (ld_teams st) = []) as Hres.
  { unfold resolve. assert (ld_teams st !! team = None) as ->; [|done].
    apply not_elem_of_dom. rewrite Hdom. by rewrite elem_of_list_to_set. }
  unfold alert. rewrite Hraw.
  destruct (load_numbers fs) as [loaded fs1]. cbn [fst] in Hload. subst loaded.
  rewrite Hmsg, Hres.
  pose proof (no_numbers_only_webhooks (ld_providers st) message w) as Hrun.
  destruct (send_sms [] message (ld_providers st) w) as [evs w1].
  by cbn [fst snd] in *.
Qed.

End UnknownTeam.

(** X12 witness. *)
Lemma alert_unknown_team_webhooks_witness :
  (@alert codec_runtime scripted "qa" state_body ops_files []).1.1.1 = ok_response []
  ∧ requests_of (@alert codec_runtime scripted "qa" state_body ops_files []).2
    = concat (webhook_only "resolved No message" <$> ops_providers).
Proof.
  apply (@alert_unknown_team_webhooks codec_runtime scripted "qa" state_body ops_files []
           state_data "resolved No message" ops_teams ops_providers).
  - by vm_compute.
  - by vm_compute.
  - exact ops_files_load.
  - apply (bool_decide_eq_false_1 _). by vm_compute.
Defined.
